(** * Deep-Work: the Chrome debug-session supervisor of [src/main.js]

    A shallow embedding of the Electron main process: profile resolution,
    the persisted-state readers, the conflict detector, the debug-session
    establisher with its bounded polling wait, and the tab-tracking engine
    with its three lifecycle handlers.

    Conventions.
    - A JavaScript string is a [string]; [null]/[undefined] string slots are
      [option string] with [None] for the absent value.
    - Ports and timestamps are JavaScript numbers holding integers: [Z].
    - [Map<string, Tab>] is a [gmap string Tab], [Set<string>] a [gset string].
    - Module-level [let] variables are the fields of [State]; every function
      that reads or writes them is a computation in the monad [M], which also
      carries thrown exceptions.
    - Node.js and protocol calls are answered by a [World]; the library
      functions of [path], [Number] and [JSON.parse] are the members of
      [Builtins].  [console] output is not modelled.
    - An [await] is a suspension point: logical time advances and the
      listeners of a launched browser process may run.  Operations do not
      interleave with one another.
    - The request handlers [fetchChromeTabs] and the status reply follow
      the tracking engine; [CDP.List] is answered by an [Inspector].  The
      window, [sendChromeTabs] and [switchProfile] are outside the
      embedding; in the runs of the supervisor the port assignment of
      [fetchChromeTabs] is the step [SetPort]. *)

From Stdlib Require Import ZArith String Ascii List Bool Lia.
From stdpp Require Import base option list gmap strings pretty.

Local Open Scope Z_scope.
Set Warnings "-register-all".

(* ================================================================== *)
(** * JavaScript strings                                                *)
(* ================================================================== *)

Module Js.

(** White space removed by [String.prototype.trim], ASCII part:
    TAB, LF, VT, FF, CR and SPACE. *)
Definition is_space (c : ascii) : bool :=
  let n := N_of_ascii c in
  ((9 <=? n) && (n <=? 13) || (n =? 32))%N.

Fixpoint trimStart_chars (cs : list ascii) : list ascii :=
  match cs with
  | [] => []
  | c :: r => if is_space c then trimStart_chars r else cs
  end.

(** [s.trim()] *)
Definition trim (s : string) : string :=
  string_of_list_ascii
    (rev (trimStart_chars (rev (trimStart_chars (list_ascii_of_string s))))).

Definition lower_char (c : ascii) : ascii :=
  let n := N_of_ascii c in
  if ((65 <=? n) && (n <=? 90))%N then ascii_of_N (n + 32) else c.

(** [s.toLowerCase()] on ASCII letters *)
Fixpoint toLowerCase (s : string) : string :=
  match s with
  | EmptyString => EmptyString
  | String c r => String (lower_char c) (toLowerCase r)
  end.

(** [s.startsWith(p)] *)
Definition startsWith (s p : string) : bool := String.prefix p s.

(** [s.includes(sub)] *)
Fixpoint includes (s sub : string) : bool :=
  if String.prefix sub s then true
  else match s with
       | EmptyString => false
       | String _ r => includes r sub
       end.

(** Truthiness of a string: every string but the empty one. *)
Definition nonempty (s : string) : bool :=
  match s with EmptyString => false | _ => true end.

(** Truthiness of a slot holding a string, [null] or [undefined]. *)
Definition truthy (o : option string) : bool :=
  match o with Some s => nonempty s | None => false end.

(** [a || b] where [b] is a string *)
Definition or_str (o : option string) (d : string) : string :=
  match o with
  | Some s => if nonempty s then s else d
  | None => d
  end.

(** [a || null] *)
Definition or_null (o : option string) : option string :=
  if truthy o then o else None.

End Js.

(* ================================================================== *)
(** * Library functions taken as parameters                             *)
(* ================================================================== *)

(** A value produced by [JSON.parse]. Numbers are kept as integers: the
    program only tests them for truthiness. [undefined] is [None] in an
    [option json]. *)
Inductive json : Type :=
  | JNull
  | JBool (b : bool)
  | JNum (n : Z)
  | JStr (s : string)
  | JArr (xs : list json)
  | JObj (kvs : list (string * json)).

(** The functions of Node's [path] module, the [Number] conversion and
    [JSON.parse].
    - [Number_of_string s] is the value of [Number(s)] when it is finite,
      [None] when it is [NaN] or infinite.
    - [JSON_parse s] is [None] when [JSON.parse(s)] throws. *)
Class Builtins := {
  path_normalize : string → string;
  path_basename : string → string;
  path_dirname : string → string;
  path_join : list string → string;
  Number_of_string : string → option Z;
  JSON_parse : string → option json;
}.

(** ** One instance: [path.posix], decimal [Number], a table for [JSON.parse] *)

Module Posix.

Definition slash : ascii := "/"%char.
Definition is_slash (c : ascii) : bool := Ascii.eqb c slash.

Fixpoint drop_while (p : ascii → bool) (cs : list ascii) : list ascii :=
  match cs with
  | [] => []
  | c :: r => if p c then drop_while p r else cs
  end.

Fixpoint take_while (p : ascii → bool) (cs : list ascii) : list ascii :=
  match cs with
  | [] => []
  | c :: r => if p c then c :: take_while p r else []
  end.

(** The segments between slashes, empty ones included. *)
Fixpoint split_go (cs cur : list ascii) : list (list ascii) :=
  match cs with
  | [] => [rev cur]
  | c :: r => if is_slash c then rev cur :: split_go r [] else split_go r (c :: cur)
  end.

Definition dotdot : list ascii := ["."%char; "."%char].

(** [normalizeString]: resolve [.] and [..] segments; [acc] is the
    result so far, last segment first. *)
Fixpoint resolve (allowAboveRoot : bool) (segs acc : list (list ascii))
  : list (list ascii) :=
  match segs with
  | [] => rev acc
  | seg :: r =>
      if bool_decide (seg = []) || bool_decide (seg = ["."%char]) then
        resolve allowAboveRoot r acc
      else if bool_decide (seg = dotdot) then
        match acc with
        | last :: acc' =>
            if bool_decide (last = dotdot)
            then resolve allowAboveRoot r (if allowAboveRoot then seg :: acc else acc)
            else resolve allowAboveRoot r acc'
        | [] => resolve allowAboveRoot r (if allowAboveRoot then [seg] else [])
        end
      else resolve allowAboveRoot r (seg :: acc)
  end.

Fixpoint join_slash (segs : list (list ascii)) : list ascii :=
  match segs with
  | [] => []
  | [s] => s
  | s :: r => s ++ slash :: join_slash r
  end.

Definition normalize (p : string) : string :=
  match list_ascii_of_string p with
  | [] => "."
  | (c :: _) as cs =>
      let isAbsolute := is_slash c in
      let trailing := match rev cs with l :: _ => is_slash l | [] => false end in
      let body := join_slash (resolve (negb isAbsolute) (split_go cs []) []) in
      match body with
      | [] => if isAbsolute then "/" else if trailing then "./" else "."
      | _ =>
          let body' := if trailing then body ++ [slash] else body in
          string_of_list_ascii (if isAbsolute then slash :: body' else body')
      end
  end.

Definition basename (p : string) : string :=
  string_of_list_ascii
    (rev (take_while (λ c, negb (is_slash c))
            (drop_while is_slash (rev (list_ascii_of_string p))))).

Definition dirname (p : string) : string :=
  match list_ascii_of_string p with
  | [] => "."
  | c :: tl =>
      let hasRoot := is_slash c in
      match drop_while (λ c, negb (is_slash c)) (drop_while is_slash (rev tl)) with
      | [] => if hasRoot then "/" else "."
      | _ :: before =>
          match before with
          | [] => if hasRoot then "//" else string_of_list_ascii [c]
          | _ => string_of_list_ascii (c :: rev before)
          end
      end
  end.

Definition join (parts : list string) : string :=
  match List.filter Js.nonempty parts with
  | [] => "."
  | ps => normalize
            (string_of_list_ascii (join_slash (List.map list_ascii_of_string ps)))
  end.

Definition digit_of (c : ascii) : option Z :=
  let n := N_of_ascii c in
  if ((48 <=? n) && (n <=? 57))%N then Some (Z.of_N n - 48) else None.

Fixpoint digits_go (cs : list ascii) (acc : Z) : option Z :=
  match cs with
  | [] => Some acc
  | c :: r => match digit_of c with
              | Some d => digits_go r (10 * acc + d)
              | None => None
              end
  end.

(** [Number(s)] for blank strings and signed decimal integers; every
    other string is taken as not a finite number. *)
Definition number (s : string) : option Z :=
  match list_ascii_of_string (Js.trim s) with
  | [] => Some 0
  | c :: r =>
      if Ascii.eqb c "-" then
        match r with [] => None | _ => Z.opp <$> digits_go r 0 end
      else if Ascii.eqb c "+" then
        match r with [] => None | _ => digits_go r 0 end
      else digits_go (c :: r) 0
  end.

(** [JSON.parse] known on the listed documents only; any other text is a
    syntax error. *)
Definition parse_table (docs : list (string * json)) (s : string) : option json :=
  snd <$> List.find (λ d, String.eqb (fst d) s) docs.

Definition builtins (docs : list (string * json)) : Builtins := {|
  path_normalize := normalize;
  path_basename := basename;
  path_dirname := dirname;
  path_join := join;
  Number_of_string := number;
  JSON_parse := parse_table docs;
|}.

End Posix.

(* ================================================================== *)
(** * The outside world                                                 *)
(* ================================================================== *)

(** [process.platform]; every value other than ['win32'] and ['darwin']
    takes the last branch of the program. *)
Inductive Platform : Type := Win32 | Darwin | OtherPlatform.

(** A thrown JavaScript error: its [message] and, for a failed
    [execSync], the exit [status]. *)
Record JsError : Type := { message : string; status : option Z }.

Inductive ExecResult : Type :=
  | ExecOut (out : string)
  | ExecThrows (err : JsError).

Inductive SpawnResult : Type :=
  | Spawned (child : nat)
  | SpawnFailed (err : JsError).

(** A target description of the remote-debugging protocol. [title] and
    [url] may be absent. *)
Record TargetInfo : Type := {
  targetId : string;
  type : string;
  title : option string;
  url : option string;
}.

Inductive TargetsReply : Type :=
  | TargetsThrows (err : JsError)
  | Targets (targetInfos : option (list TargetInfo)).

(** The answers of the environment. Answers that may change over time are
    indexed by the logical time [tick] at which the program asks.
    - [probe_reply t port]: does the GET of [/json/version] on [port]
      receive a response before its timeout;
    - [clock t]: [Date.now()];
    - [child_exit_at t], [child_error_at t]: the ['exit'] and ['error']
      events of a launched browser process delivered while the program is
      suspended at time [t]. *)
Class World := {
  platform : Platform;
  env : string → option string;
  probe_reply : nat → Z → bool;
  clock : nat → Z;
  exec_reply : nat → string → ExecResult;
  spawn_reply : nat → string → list string → SpawnResult;
  child_exit_at : nat → bool;
  child_error_at : nat → option JsError;
  unlink_reply : nat → string → option JsError;
  cdp_connect_reply : nat → Z → option JsError;
  cdp_discover_reply : nat → option JsError;
  cdp_targets_reply : nat → TargetsReply;
}.

(* ================================================================== *)
(** * Program state                                                     *)
(* ================================================================== *)

(** An entry of the tab registry. *)
Record Tab : Type := {
  tab_id : string;
  tab_title : string;
  tab_url : string;
  createdAt : Z;
  isInitial : bool;
}.

Inductive Subscription : Type :=
  | OnTargetCreated
  | OnTargetInfoChanged
  | OnTargetDestroyed.

(** A protocol connection with the listeners registered on it, oldest
    first. *)
Record Client : Type := {
  client_port : Z;
  subscriptions : list Subscription;
}.

Inductive File : Type :=
  | Readable (content : string)
  | Unreadable.

(** What the program does to the outside, newest first in [trace]. *)
Inductive Event : Type :=
  | EvProbe (port : Z) (ok : bool)
  | EvExec (cmd : string)
  | EvSpawn (executable : string) (args : list string)
  | EvSleep (ms : Z)
  | EvUnlink (p : string)
  | EvConnect (port : Z)
  | EvClose (port : Z)
  | EvSendTabs (tabs : list Tab).

(** The variables of the session establisher and the launcher. *)
Record Session : Type := {
  selectedProfileName : option string;
  chromeUserDataRootOverride : option string;
  mainWindow : bool;
  currentDebugPort : Z;
  launchedChrome : option nat;
  detectedActiveProfile : json;
  lastStatusMessage : string;
  currentUserDataDir : option string;
  launchedChromeSpawnError : option JsError;
  launchedChromeExited : bool;
}.

(** The variables of the tab-tracking engine. *)
Record Tracking : Type := {
  cdpClient : option Client;
  cdpPort : option Z;
  tabStateStartedAt : Z;
  tabsById : gmap string Tab;
  initialTabIds : gset string;
}.

(** Logical time, the file system and the event log. *)
Record Sys : Type := {
  tick : nat;
  files : gmap string File;
  trace : list Event;
}.

Record State : Type := {
  session : Session;
  tracking : Tracking;
  sys : Sys;
}.

Definition upd_session (f : Session → Session) (s : State) : State :=
  {| session := f (session s); tracking := tracking s; sys := sys s |}.
Definition upd_tracking (f : Tracking → Tracking) (s : State) : State :=
  {| session := session s; tracking := f (tracking s); sys := sys s |}.
Definition upd_sys (f : Sys → Sys) (s : State) : State :=
  {| session := session s; tracking := tracking s; sys := f (sys s) |}.

Definition set_currentDebugPort (v : Z) : State → State :=
  upd_session (λ x,
    {| selectedProfileName := selectedProfileName x;
       chromeUserDataRootOverride := chromeUserDataRootOverride x;
       mainWindow := mainWindow x;
       currentDebugPort := v;
       launchedChrome := launchedChrome x;
       detectedActiveProfile := detectedActiveProfile x;
       lastStatusMessage := lastStatusMessage x;
       currentUserDataDir := currentUserDataDir x;
       launchedChromeSpawnError := launchedChromeSpawnError x;
       launchedChromeExited := launchedChromeExited x |}).

Definition set_launchedChrome (v : option nat) : State → State :=
  upd_session (λ x,
    {| selectedProfileName := selectedProfileName x;
       chromeUserDataRootOverride := chromeUserDataRootOverride x;
       mainWindow := mainWindow x;
       currentDebugPort := currentDebugPort x;
       launchedChrome := v;
       detectedActiveProfile := detectedActiveProfile x;
       lastStatusMessage := lastStatusMessage x;
       currentUserDataDir := currentUserDataDir x;
       launchedChromeSpawnError := launchedChromeSpawnError x;
       launchedChromeExited := launchedChromeExited x |}).

Definition set_detectedActiveProfile (v : json) : State → State :=
  upd_session (λ x,
    {| selectedProfileName := selectedProfileName x;
       chromeUserDataRootOverride := chromeUserDataRootOverride x;
       mainWindow := mainWindow x;
       currentDebugPort := currentDebugPort x;
       launchedChrome := launchedChrome x;
       detectedActiveProfile := v;
       lastStatusMessage := lastStatusMessage x;
       currentUserDataDir := currentUserDataDir x;
       launchedChromeSpawnError := launchedChromeSpawnError x;
       launchedChromeExited := launchedChromeExited x |}).

Definition set_lastStatusMessage (v : string) : State → State :=
  upd_session (λ x,
    {| selectedProfileName := selectedProfileName x;
       chromeUserDataRootOverride := chromeUserDataRootOverride x;
       mainWindow := mainWindow x;
       currentDebugPort := currentDebugPort x;
       launchedChrome := launchedChrome x;
       detectedActiveProfile := detectedActiveProfile x;
       lastStatusMessage := v;
       currentUserDataDir := currentUserDataDir x;
       launchedChromeSpawnError := launchedChromeSpawnError x;
       launchedChromeExited := launchedChromeExited x |}).

Definition set_currentUserDataDir (v : option string) : State → State :=
  upd_session (λ x,
    {| selectedProfileName := selectedProfileName x;
       chromeUserDataRootOverride := chromeUserDataRootOverride x;
       mainWindow := mainWindow x;
       currentDebugPort := currentDebugPort x;
       launchedChrome := launchedChrome x;
       detectedActiveProfile := detectedActiveProfile x;
       lastStatusMessage := lastStatusMessage x;
       currentUserDataDir := v;
       launchedChromeSpawnError := launchedChromeSpawnError x;
       launchedChromeExited := launchedChromeExited x |}).

Definition set_launchedChromeSpawnError (v : option JsError) : State → State :=
  upd_session (λ x,
    {| selectedProfileName := selectedProfileName x;
       chromeUserDataRootOverride := chromeUserDataRootOverride x;
       mainWindow := mainWindow x;
       currentDebugPort := currentDebugPort x;
       launchedChrome := launchedChrome x;
       detectedActiveProfile := detectedActiveProfile x;
       lastStatusMessage := lastStatusMessage x;
       currentUserDataDir := currentUserDataDir x;
       launchedChromeSpawnError := v;
       launchedChromeExited := launchedChromeExited x |}).

Definition set_launchedChromeExited (v : bool) : State → State :=
  upd_session (λ x,
    {| selectedProfileName := selectedProfileName x;
       chromeUserDataRootOverride := chromeUserDataRootOverride x;
       mainWindow := mainWindow x;
       currentDebugPort := currentDebugPort x;
       launchedChrome := launchedChrome x;
       detectedActiveProfile := detectedActiveProfile x;
       lastStatusMessage := lastStatusMessage x;
       currentUserDataDir := currentUserDataDir x;
       launchedChromeSpawnError := launchedChromeSpawnError x;
       launchedChromeExited := v |}).

Definition set_cdpClient (v : option Client) : State → State :=
  upd_tracking (λ x,
    {| cdpClient := v; cdpPort := cdpPort x;
       tabStateStartedAt := tabStateStartedAt x;
       tabsById := tabsById x; initialTabIds := initialTabIds x |}).

Definition set_cdpPort (v : option Z) : State → State :=
  upd_tracking (λ x,
    {| cdpClient := cdpClient x; cdpPort := v;
       tabStateStartedAt := tabStateStartedAt x;
       tabsById := tabsById x; initialTabIds := initialTabIds x |}).

Definition set_tabStateStartedAt (v : Z) : State → State :=
  upd_tracking (λ x,
    {| cdpClient := cdpClient x; cdpPort := cdpPort x;
       tabStateStartedAt := v;
       tabsById := tabsById x; initialTabIds := initialTabIds x |}).

Definition set_tabsById (v : gmap string Tab) : State → State :=
  upd_tracking (λ x,
    {| cdpClient := cdpClient x; cdpPort := cdpPort x;
       tabStateStartedAt := tabStateStartedAt x;
       tabsById := v; initialTabIds := initialTabIds x |}).

Definition set_initialTabIds (v : gset string) : State → State :=
  upd_tracking (λ x,
    {| cdpClient := cdpClient x; cdpPort := cdpPort x;
       tabStateStartedAt := tabStateStartedAt x;
       tabsById := tabsById x; initialTabIds := v |}).

Definition set_tick (v : nat) : State → State :=
  upd_sys (λ x, {| tick := v; files := files x; trace := trace x |}).
Definition set_files (v : gmap string File) : State → State :=
  upd_sys (λ x, {| tick := tick x; files := v; trace := trace x |}).
Definition log (e : Event) : State → State :=
  upd_sys (λ x, {| tick := tick x; files := files x; trace := e :: trace x |}).

(* ================================================================== *)
(** * Computations: state and exceptions                                *)
(* ================================================================== *)

Inductive Res (A : Type) : Type :=
  | Ok (a : A)
  | Throw (err : JsError).
Arguments Ok {A} a.
Arguments Throw {A} err.

Definition M (A : Type) : Type := State → Res A * State.

Definition ret {A} (a : A) : M A := λ s, (Ok a, s).

Definition bind {A B} (m : M A) (k : A → M B) : M B :=
  λ s, match m s with
       | (Ok a, s') => k a s'
       | (Throw e, s') => (Throw e, s')
       end.

Definition throw {A} (e : JsError) : M A := λ s, (Throw e, s).

(** [try { m } catch (e) { h e }] *)
Definition try_catch {A} (m : M A) (h : JsError → M A) : M A :=
  λ s, match m s with
       | (Ok a, s') => (Ok a, s')
       | (Throw e, s') => h e s'
       end.

Definition get : M State := λ s, (Ok s, s).
Definition modify (f : State → State) : M unit := λ s, (Ok tt, f s).

Declare Scope js_scope.
Delimit Scope js_scope with js.
Notation "'let*' x ':=' m 'in' k" := (bind m (λ x, k))
  (at level 10, x name, m at level 100, k at level 200) : js_scope.
Notation "m ';;' k" := (bind m (λ _, k))
  (at level 100, k at level 200, right associativity) : js_scope.
Local Open Scope js_scope.

(** Property reads on parsed JSON. *)
Module Json.

(** Truthiness of a value; [None] is [undefined]. *)
Definition truthy (v : option json) : bool :=
  match v with
  | None | Some JNull => false
  | Some (JBool b) => b
  | Some (JNum n) => negb (n =? 0)
  | Some (JStr s) => Js.nonempty s
  | Some (JArr _) | Some (JObj _) => true
  end.

Fixpoint assoc (kvs : list (string * json)) (k : string) : option json :=
  match kvs with
  | [] => None
  | (k', v) :: r => if String.eqb k' k then Some v else assoc r k
  end.

(** The index named by the key [k] among the first [n] indices. *)
Definition index_of_key (n : nat) (k : string) : option nat :=
  List.find (λ i, String.eqb (pretty i) k) (seq 0 n).

(** [v[k]] for a value [v] other than [null]: own properties of objects,
    elements of arrays, characters of strings. None of the names the
    program reads is inherited from a prototype. *)
Definition prop (v : json) (k : string) : option json :=
  match v with
  | JObj kvs => assoc kvs k
  | JArr xs => i ← index_of_key (length xs) k; xs !! i
  | JStr s =>
      i ← index_of_key (String.length s) k;
      (λ c, JStr (String c EmptyString)) <$> String.get i s
  | _ => None
  end.

(** [v?.k] *)
Definition opt_prop (v : option json) (k : string) : option json :=
  match v with
  | None | Some JNull => None
  | Some v' => prop v' k
  end.

(** [Object.keys(v)] for a value other than [null], keys in stored order;
    the engine lists keys that are array indices before the others. *)
Definition keys (v : json) : list string :=
  match v with
  | JObj kvs => remove_dups (List.map fst kvs)
  | JArr xs => List.map (λ i : nat, pretty i) (seq 0 (length xs))
  | JStr s => List.map (λ i : nat, pretty i) (seq 0 (String.length s))
  | _ => []
  end.

End Json.

(** An element of [getAvailableProfiles()]. [pd_name] is whatever value
    the cache holds under [name], or the key. *)
Record ProfileDescriptor : Type := {
  pd_id : string;
  pd_name : json;
  pd_path : string;
}.

(** A [TypeError] raised by the engine. *)
Definition type_error : JsError :=
  {| message := "Cannot read properties of null"; status := None |}.

(** The quotation mark. *)
Definition dq : string := String (ascii_of_nat 34) EmptyString.

(* ================================================================== *)
(** * The program                                                       *)
(* ================================================================== *)

Section Program.
Context `{Builtins} `{World}.

Definition DEFAULT_DEBUG_PORT : Z := 9222.
Definition ALT_DEBUG_PORT : Z := 9223.
Definition PROFILE_DIR_ENV : option string := env "CHROME_PROFILE_DIR".
Definition PROFILE_NAME_ENV : option string := env "CHROME_PROFILE_NAME".
Definition FORCE_KILL_CHROME : bool :=
  bool_decide (env "CHROME_FORCE_KILL" = Some "1").

(** [Number(undefined)] is [NaN]. *)
Definition ENV_DEBUG_PORT : option Z := env "CHROME_DEBUG_PORT" ≫= Number_of_string.
Definition DEBUG_PORT : Z :=
  match ENV_DEBUG_PORT with Some p => p | None => DEFAULT_DEBUG_PORT end.

(** ** Profile selection (module initialisation, lines 23-35)

    The pair of [selectedProfileName] and [chromeUserDataRootOverride]
    after the top-level code has run. *)
Definition profile_selection : option string * option string :=
  let selectedProfileName := Js.or_null PROFILE_NAME_ENV in
  let chromeUserDataRootOverride : option string := None in
  match PROFILE_DIR_ENV with
  | Some dir =>
      if Js.nonempty dir && Js.nonempty (Js.trim dir) then
        let normalized := path_normalize (Js.trim dir) in
        let baseName := path_basename normalized in
        if String.eqb (Js.toLowerCase baseName) "user data" then
          (selectedProfileName, Some normalized)
        else
          (Some (Js.or_str selectedProfileName baseName),
           Some (path_dirname normalized))
      else (selectedProfileName, chromeUserDataRootOverride)
  | None => (selectedProfileName, chromeUserDataRootOverride)
  end.

(** The state once the module has been loaded, on a given file system and
    with or without a window. *)
Definition init_state (fs : gmap string File) (window : bool) : State :=
  {| session :=
       {| selectedProfileName := fst profile_selection;
          chromeUserDataRootOverride := snd profile_selection;
          mainWindow := window;
          currentDebugPort := DEBUG_PORT;
          launchedChrome := None;
          detectedActiveProfile := JNull;
          lastStatusMessage := EmptyString;
          currentUserDataDir := None;
          launchedChromeSpawnError := None;
          launchedChromeExited := false |};
     tracking :=
       {| cdpClient := None; cdpPort := None; tabStateStartedAt := 0;
          tabsById := ∅; initialTabIds := ∅ |};
     sys := {| tick := 0; files := fs; trace := [] |} |}.

Definition defaultChromeUserDataRoot : string :=
  match platform with
  | Win32 =>
      path_join [Js.or_str (env "LOCALAPPDATA") EmptyString;
                 "Google"; "Chrome"; "User Data"]
  | Darwin =>
      path_join [Js.or_str (env "HOME") EmptyString;
                 "Library"; "Application Support"; "Google"; "Chrome"]
  | OtherPlatform =>
      path_join [Js.or_str (env "HOME") EmptyString; ".config"; "google-chrome"]
  end.

Definition chromeUserDataRoot (s : State) : string :=
  Js.or_str (chromeUserDataRootOverride (session s)) defaultChromeUserDataRoot.

Definition getUserDataDir (s : State) : string :=
  if Js.truthy (currentUserDataDir (session s))
  then Js.or_str (currentUserDataDir (session s)) EmptyString
  else chromeUserDataRoot s.

(** ** File system *)

Definition existsSync (p : string) : M bool :=
  λ s, (Ok (bool_decide (is_Some (files (sys s) !! p))), s).

Definition readFileSync (p : string) : M string :=
  λ s, match files (sys s) !! p with
       | Some (Readable raw) => (Ok raw, s)
       | Some Unreadable =>
           (Throw {| message := "EACCES: permission denied"; status := None |}, s)
       | None =>
           (Throw {| message := "ENOENT: no such file or directory";
                     status := None |}, s)
       end.

Definition parse (raw : string) : M json :=
  match JSON_parse raw with
  | Some v => ret v
  | None => throw {| message := "Unexpected token in JSON"; status := None |}
  end.

(** [v.k], which throws on [null]. *)
Definition member (v : json) (k : string) : M (option json) :=
  match v with
  | JNull => throw type_error
  | _ => ret (Json.prop v k)
  end.

(** ** Persisted-state readers *)

Definition readActiveProfileName : M json :=
  try_catch
    (let* s := get in
     let localStatePath := path_join [getUserDataDir s; "Local State"] in
     let* present := existsSync localStatePath in
     if negb present then ret JNull else
     let* raw := readFileSync localStatePath in
     let* json := parse raw in
     let* p := member json "profile" in
     let profile := if Json.truthy p then default JNull p else JObj [] in
     match Json.prop profile "last_active_profiles" with
     | Some (JArr (first :: _)) => ret first
     | _ =>
         match Json.prop profile "last_used" with
         | Some (JStr last_used) => ret (JStr last_used)
         | _ => ret JNull
         end
     end)
    (λ _, ret JNull).

Definition getAvailableProfiles : M (list ProfileDescriptor) :=
  try_catch
    (let* s := get in
     let baseDir := chromeUserDataRoot s in
     let localStatePath := path_join [baseDir; "Local State"] in
     let* present := existsSync localStatePath in
     if negb present then ret [] else
     let* raw := readFileSync localStatePath in
     let* json := parse raw in
     let c := Json.opt_prop (Json.opt_prop (Some json) "profile") "info_cache" in
     let infoCache := if Json.truthy c then default JNull c else JObj [] in
     ret (List.map
            (λ key,
               let name := Json.opt_prop (Json.prop infoCache key) "name" in
               {| pd_id := key;
                  pd_name := if Json.truthy name then default JNull name
                             else JStr key;
                  pd_path := path_join [baseDir; key] |})
            (Json.keys infoCache)))
    (λ _, ret []).

(** ** Suspension points

    While the program is suspended at an [await], the event loop runs the
    ['exit'] and ['error'] listeners of a browser process it has launched;
    they set the two abort flags. Protocol notifications are delivered
    between operations, see [deliver] below. *)
Definition suspend : M unit :=
  modify (λ s,
    let t := tick (sys s) in
    let s1 := set_tick (S t) s in
    match launchedChrome (session s) with
    | None => s1
    | Some _ =>
        let s2 := if child_exit_at t then set_launchedChromeExited true s1 else s1 in
        match child_error_at t with
        | Some e => set_launchedChromeSpawnError (Some e) s2
        | None => s2
        end
    end).

(** [checkChromeDebugging(port, timeoutMs = 500)]: resolves to [true] on a
    response and to [false] on a timeout or an error of the request.
    The embedding is of ports that [http.get] accepts, the integers from
    0 to 65535: for any other port [http.get] throws inside the executor
    and the promise rejects, which is not modelled. *)
Definition checkChromeDebugging (port : Z) : M bool :=
  let* s := get in
  let ok := probe_reply (tick (sys s)) port in
  suspend;;
  modify (log (EvProbe port ok));;
  ret ok.

(** [await new Promise((r) => setTimeout(r, delayMs))] *)
Definition sleep (delayMs : Z) : M unit :=
  suspend;; modify (log (EvSleep delayMs)).

(** [require('child_process').execSync(cmd, ...)] returning its output *)
Definition execSync (cmd : string) : M string :=
  let* s := get in
  let t := tick (sys s) in
  modify (set_tick (S t));;
  modify (log (EvExec cmd));;
  match exec_reply t cmd with
  | ExecOut out => ret out
  | ExecThrows e => throw e
  end.

Definition unlinkSync (p : string) : M unit :=
  let* s := get in
  let t := tick (sys s) in
  modify (set_tick (S t));;
  modify (log (EvUnlink p));;
  match unlink_reply t p with
  | Some e => throw e
  | None => modify (λ s, set_files (delete p (files (sys s))) s)
  end.

(** ** Conflict detector *)

Definition POWERSHELL_COUNT : string :=
  "powershell -NoProfile -Command " +:+ dq +:+
  "(Get-Process chrome -ErrorAction SilentlyContinue).Count" +:+ dq.
Definition TASKLIST : string :=
  "tasklist /FI " +:+ dq +:+ "IMAGENAME eq chrome.exe" +:+ dq +:+ " /FO CSV /NH".
Definition PGREP_DARWIN : string :=
  "pgrep -x " +:+ dq +:+ "Google Chrome" +:+ dq +:+ " || true".
Definition PGREP : string := "pgrep -x chrome || true".

Definition chromeProcessesRunning : M bool :=
  try_catch
    (match platform with
     | Win32 =>
         let* counted :=
           try_catch
             (let* out := execSync POWERSHELL_COUNT in
              ret ((λ n, 0 <? n) <$> Number_of_string (Js.trim out)))
             (λ _, ret None) in
         match counted with
         | Some running => ret running
         | None =>
             let* out := execSync TASKLIST in
             ret (Js.includes (Js.toLowerCase out) (dq +:+ "chrome.exe" +:+ dq))
         end
     | Darwin =>
         let* out := execSync PGREP_DARWIN in
         ret (Js.nonempty (Js.trim out))
     | OtherPlatform =>
         let* out := execSync PGREP in
         ret (Js.nonempty (Js.trim out))
     end)
    (λ _, ret false).

Definition SINGLETON_NAMES : list string :=
  ["SingletonLock"; "SingletonSocket"; "SingletonCookie"].

(** The lock paths listed by [chromeProfileLikelyLocked] and again by
    [forceKillChrome]: under the root, then under the selected profile. *)
Definition lockCandidates (s : State) : list string :=
  let baseDir := chromeUserDataRoot s in
  List.map (λ n, path_join [baseDir; n]) SINGLETON_NAMES ++
  match selectedProfileName (session s) with
  | Some name =>
      if Js.nonempty name then
        let profileDir := path_join [baseDir; name] in
        List.map (λ n, path_join [profileDir; n]) SINGLETON_NAMES
      else []
  | None => []
  end.

(** [candidates.some(p => fs.existsSync(p))] *)
Fixpoint some_exist (ps : list string) : M bool :=
  match ps with
  | [] => ret false
  | p :: r =>
      let* present := existsSync p in
      if present then ret true else some_exist r
  end.

Definition chromeProfileLikelyLocked : M bool :=
  try_catch
    (let* s := get in some_exist (lockCandidates s))
    (λ _, ret false).

(** The expression of line 410:
    [chromeProcessesRunning() || (process.platform === 'win32' &&
    chromeProfileLikelyLocked())]. *)
Definition chromeRunning : M bool :=
  let* running := chromeProcessesRunning in
  if running then ret true
  else match platform with
       | Win32 => chromeProfileLikelyLocked
       | _ => ret false
       end.

(** ** Force kill *)

Fixpoint remove_existing (lockFiles : list string) : M unit :=
  match lockFiles with
  | [] => ret tt
  | lockFile :: r =>
      let* present := existsSync lockFile in
      (if present then unlinkSync lockFile else ret tt);;
      remove_existing r
  end.

Definition forceKillChrome : M unit :=
  if negb FORCE_KILL_CHROME then ret tt else
  try_catch
    ((match platform with
      | Win32 =>
          try_catch
            (execSync "taskkill /F /IM chrome.exe /T";; ret tt)
            (λ err, if bool_decide (status err = Some 128) then ret tt
                    else throw err)
      | Darwin =>
          execSync ("pkill -9 " +:+ dq +:+ "Google Chrome" +:+ dq +:+ " || true");;
          ret tt
      | OtherPlatform =>
          execSync "pkill -9 chrome || true";; ret tt
      end);;
     try_catch
       (let* s := get in remove_existing (lockCandidates s))
       (λ _, ret tt))
    (λ _, ret tt).

(** ** Process launcher *)

Definition executableCandidates : list string :=
  match platform with
  | Win32 =>
      let suffix := "Google\Chrome\Application\chrome.exe" in
      let roots :=
        List.filter Js.nonempty
          (omap id [env "PROGRAMFILES"; env "PROGRAMFILES(X86)";
                    env "LOCALAPPDATA"]) in
      List.map (λ base, path_join [base; suffix]) roots ++ ["chrome.exe"]
  | Darwin => ["/Applications/Google Chrome.app/Contents/MacOS/Google Chrome"]
  | OtherPlatform =>
      ["/usr/bin/google-chrome"; "/usr/bin/chromium"; "/usr/bin/chromium-browser"]
  end.

Fixpoint find_existing (candidates : list string) : M (option string) :=
  match candidates with
  | [] => ret None
  | candidate :: r =>
      let* present := existsSync candidate in
      if present then ret (Some candidate) else find_existing r
  end.

Definition findChromeExecutable : M (option string) :=
  find_existing executableCandidates.

Definition buildChromeArgs (port : Z) (s : State) : list string :=
  ["--remote-debugging-port=" +:+ pretty port;
   "--remote-debugging-address=127.0.0.1";
   "--user-data-dir=" +:+ chromeUserDataRoot s] ++
  (if Js.truthy (selectedProfileName (session s))
   then ["--profile-directory=" +:+
           Js.or_str (selectedProfileName (session s)) EmptyString]
   else []) ++
  ["--new-window"; "--no-first-run"; "--no-default-browser-check"; "about:blank"].

(** [spawn(executable, args, ...)] awaited until ['spawn'] or ['error']. *)
Definition spawn (executable : string) (args : list string) : M nat :=
  let* s := get in
  let t := tick (sys s) in
  modify (log (EvSpawn executable args));;
  suspend;;
  match spawn_reply t executable args with
  | Spawned child => ret child
  | SpawnFailed err =>
      modify (set_launchedChromeSpawnError (Some err));;
      throw err
  end.

Definition launchChromeWithDebugging (executable : string) (port : Z)
  : M (nat * Z) :=
  modify (set_launchedChromeSpawnError None);;
  modify (set_launchedChromeExited false);;
  let* s := get in
  let args := buildChromeArgs port s in
  let* child := spawn executable args in
  modify (λ s, set_currentUserDataDir (Some (chromeUserDataRoot s)) s);;
  ret (child, if port =? 0 then DEBUG_PORT else port).

(** ** Bounded polling wait

    The [for] loop of [waitForDebugPort] with [remaining] iterations to go. *)
Fixpoint wait_loop (port : Z) (delayMs : Z) (remaining : nat) : M bool :=
  match remaining with
  | O => ret false
  | S n =>
      let* s := get in
      if bool_decide (is_Some (launchedChromeSpawnError (session s))) then ret false
      else if launchedChromeExited (session s) then ret false
      else
        let* ok := checkChromeDebugging port in
        if ok then ret true
        else sleep delayMs;; wait_loop port delayMs n
  end.

Definition DEFAULT_ATTEMPTS : nat := 240.
Definition DEFAULT_DELAY_MS : Z := 200.

Definition waitForDebugPort (port : Z) (attempts : nat) (delayMs : Z) : M bool :=
  wait_loop port delayMs attempts.

(** ** Debug session establisher *)

Definition STANDOFF_MESSAGE : string :=
  "Chrome is running but remote debugging is off. Close Chrome or set CHROME_FORCE_KILL=1, then Refresh.".

(** [String(err)] for an [Error] *)
Definition error_to_string (e : JsError) : string :=
  if Js.nonempty (message e) then "Error: " +:+ message e else "Error".

(** [ALT_DEBUG_PORT !== DEBUG_PORT && await checkChromeDebugging(ALT_DEBUG_PORT)] *)
Definition probeAlternate : M bool :=
  if negb (ALT_DEBUG_PORT =? DEBUG_PORT) then checkChromeDebugging ALT_DEBUG_PORT
  else ret false.

Definition ensureChromeDebugging : M bool :=
  let* s := get in
  let* ok1 := checkChromeDebugging (currentDebugPort (session s)) in
  if ok1 then
    let* p := readActiveProfileName in
    modify (set_detectedActiveProfile p);;
    modify (λ s, set_lastStatusMessage
      ("Connected to Chrome on port " +:+ pretty (currentDebugPort (session s))) s);;
    ret true
  else
  let* ok2 := checkChromeDebugging DEBUG_PORT in
  if ok2 then
    modify (set_currentDebugPort DEBUG_PORT);;
    let* p := readActiveProfileName in
    modify (set_detectedActiveProfile p);;
    modify (set_lastStatusMessage
      ("Connected to Chrome on port " +:+ pretty DEBUG_PORT));;
    ret true
  else
  let* ok3 := probeAlternate in
  if ok3 then
    modify (set_currentDebugPort ALT_DEBUG_PORT);;
    let* p := readActiveProfileName in
    modify (set_detectedActiveProfile p);;
    modify (set_lastStatusMessage
      ("Connected to Chrome on port " +:+ pretty ALT_DEBUG_PORT));;
    ret true
  else
  let* running := chromeRunning in
  if running && negb FORCE_KILL_CHROME then
    modify (set_lastStatusMessage STANDOFF_MESSAGE);;
    ret false
  else
  forceKillChrome;;
  let* foundExecutable := findChromeExecutable in
  let executable := Js.or_str foundExecutable "chrome" in
  let* launched :=
    try_catch
      (let* r := launchChromeWithDebugging executable DEBUG_PORT in
       modify (set_launchedChrome (Some (fst r)));;
       modify (set_currentDebugPort (snd r));;
       ret true)
      (λ err,
         let msg := Js.or_str (Some (message err))
                      (Js.or_str (Some (error_to_string err))
                         "Failed to launch Chrome") in
         modify (set_lastStatusMessage ("Failed to launch Chrome: " +:+ msg));;
         ret false) in
  if negb launched then ret false else
  let* s := get in
  let* ok := waitForDebugPort (currentDebugPort (session s))
               DEFAULT_ATTEMPTS DEFAULT_DELAY_MS in
  let* p := readActiveProfileName in
  modify (set_detectedActiveProfile p);;
  if negb ok then
    let hint :=
      if FORCE_KILL_CHROME
      then "Chrome failed to open the debug port. Check the [CHROME] logs above for errors."
      else "Chrome may already be running or the profile is locked. Close Chrome or set CHROME_FORCE_KILL=1." in
    modify (λ s, set_lastStatusMessage
      ("Failed to launch Chrome remote debugging on port " +:+
       pretty (currentDebugPort (session s)) +:+ ". " +:+ hint) s);;
    ret false
  else
    modify (λ s, set_lastStatusMessage
      ("Launched Chrome with remote debugging on port " +:+
       pretty (currentDebugPort (session s))) s);;
    ret ok.

(** ** Tab tracking engine *)

Definition DEVTOOLS_PREFIX : string := "devtools://".

(** [typeof u === 'string' && u.startsWith('devtools://')] *)
Definition is_devtools (u : option string) : bool :=
  match u with
  | Some u' => Js.startsWith u' DEVTOOLS_PREFIX
  | None => false
  end.

(** [Array.from(tabsById.values()).map(...)]; the order of the entries is
    the order of [map_to_list], not the insertion order. *)
Definition tabsFromState (s : State) : list Tab :=
  List.map
    (λ kt, let t := snd kt in
           {| tab_id := tab_id t; tab_title := tab_title t; tab_url := tab_url t;
              createdAt := createdAt t; isInitial := isInitial t |})
    (map_to_list (tabsById (tracking s))).

Definition sendChromeTabsFromState : M unit :=
  let* s := get in
  if negb (mainWindow (session s)) then ret tt
  else modify (log (EvSendTabs (tabsFromState s))).

Definition stopTabTracking : M unit :=
  modify (set_tabsById ∅);;
  modify (set_initialTabIds ∅);;
  modify (set_tabStateStartedAt 0);;
  modify (set_cdpPort None);;
  let* s := get in
  match cdpClient (tracking s) with
  | Some c =>
      try_catch (suspend;; modify (log (EvClose (client_port c)))) (λ _, ret tt);;
      modify (set_cdpClient None)
  | None => ret tt
  end.

(** [CDP({ host: '127.0.0.1', port })] *)
Definition cdp_connect (port : Z) : M Client :=
  let* s := get in
  let t := tick (sys s) in
  suspend;;
  modify (log (EvConnect port));;
  match cdp_connect_reply t port with
  | Some err => throw err
  | None => ret {| client_port := port; subscriptions := [] |}
  end.

(** [Target.setDiscoverTargets({ discover: true })] *)
Definition setDiscoverTargets : M unit :=
  let* s := get in
  let t := tick (sys s) in
  suspend;;
  match cdp_discover_reply t with
  | Some err => throw err
  | None => ret tt
  end.

(** [Target.getTargets()] followed by [existing?.targetInfos || []] *)
Definition getTargets : M (list TargetInfo) :=
  let* s := get in
  let t := tick (sys s) in
  suspend;;
  match cdp_targets_reply t with
  | TargetsThrows err => throw err
  | Targets (Some targetInfos) => ret targetInfos
  | Targets None => ret []
  end.

(** One iteration of the seed loop, on the tracking variables. *)
Definition seed_one (info : TargetInfo) (x : Tracking) : Tracking :=
  if negb (String.eqb (type info) "page") then x
  else if is_devtools (url info) then x
  else
    let tab := {| tab_id := targetId info;
                  tab_title := Js.or_str (title info) EmptyString;
                  tab_url := Js.or_str (url info) EmptyString;
                  createdAt := tabStateStartedAt x;
                  isInitial := true |} in
    {| cdpClient := cdpClient x; cdpPort := cdpPort x;
       tabStateStartedAt := tabStateStartedAt x;
       tabsById := <[ tab_id tab := tab ]> (tabsById x);
       initialTabIds := {[ tab_id tab ]} ∪ initialTabIds x |}.

(** [for (const info of targetInfos) { ... }] *)
Definition seed (targetInfos : list TargetInfo) : M unit :=
  modify (upd_tracking (λ x, fold_left (λ acc info, seed_one info acc) targetInfos x)).

(** Registering a listener on the connected client. *)
Definition subscribe (sub : Subscription) : M unit :=
  modify (λ s,
    match cdpClient (tracking s) with
    | Some c =>
        set_cdpClient
          (Some {| client_port := client_port c;
                   subscriptions := subscriptions c ++ [sub] |}) s
    | None => s
    end).

(** The listener passed to [Target.targetCreated]. *)
Definition targetCreated (targetInfo : option TargetInfo) : M unit :=
  match targetInfo with
  | None => ret tt
  | Some ti =>
      if negb (String.eqb (type ti) "page") then ret tt
      else if is_devtools (url ti) then ret tt
      else
        let id := targetId ti in
        let* s := get in
        let initial := bool_decide (id ∈ initialTabIds (tracking s)) in
        modify (set_tabsById
          (<[ id := {| tab_id := id;
                       tab_title := Js.or_str (title ti) EmptyString;
                       tab_url := Js.or_str (url ti) EmptyString;
                       createdAt := clock (tick (sys s));
                       isInitial := initial |} ]> (tabsById (tracking s))));;
        sendChromeTabsFromState
  end.

(** The listener passed to [Target.targetInfoChanged]. *)
Definition targetInfoChanged (targetInfo : option TargetInfo) : M unit :=
  match targetInfo with
  | None => ret tt
  | Some ti =>
      if negb (String.eqb (type ti) "page") then ret tt
      else if is_devtools (url ti) then ret tt
      else
        let id := targetId ti in
        let* s := get in
        let prev := tabsById (tracking s) !! id in
        modify (set_tabsById
          (<[ id := {| tab_id := id;
                       tab_title :=
                         Js.or_str (title ti)
                           (Js.or_str (tab_title <$> prev) EmptyString);
                       tab_url :=
                         Js.or_str (url ti)
                           (Js.or_str (tab_url <$> prev) EmptyString);
                       createdAt :=
                         match prev with
                         | Some p => if createdAt p =? 0
                                     then clock (tick (sys s)) else createdAt p
                         | None => clock (tick (sys s))
                         end;
                       isInitial :=
                         match prev with
                         | Some p => isInitial p
                         | None => bool_decide (id ∈ initialTabIds (tracking s))
                         end |} ]> (tabsById (tracking s))));;
        sendChromeTabsFromState
  end.

(** The listener passed to [Target.targetDestroyed]. *)
Definition targetDestroyed (targetId : string) : M unit :=
  if negb (Js.nonempty targetId) then ret tt
  else
    modify (λ s, set_tabsById (delete targetId (tabsById (tracking s))) s);;
    sendChromeTabsFromState.

Definition ensureTabTracking : M bool :=
  let* s := get in
  let* ok := checkChromeDebugging (currentDebugPort (session s)) in
  if negb ok then ret false else
  let* s := get in
  if bool_decide (is_Some (cdpClient (tracking s))) &&
     bool_decide (cdpPort (tracking s) = Some (currentDebugPort (session s)))
  then ret true else
  stopTabTracking;;
  modify (λ s, set_tabStateStartedAt (clock (tick (sys s))) s);;
  modify (λ s, set_cdpPort (Some (currentDebugPort (session s))) s);;
  try_catch
    (let* s := get in
     let* client := cdp_connect (currentDebugPort (session s)) in
     modify (set_cdpClient (Some client));;
     setDiscoverTargets;;
     let* targetInfos := getTargets in
     seed targetInfos;;
     subscribe OnTargetCreated;;
     subscribe OnTargetInfoChanged;;
     subscribe OnTargetDestroyed;;
     sendChromeTabsFromState;;
     ret true)
    (λ err,
       modify (set_lastStatusMessage
         (Js.or_str (Some (message err)) "Failed to start live tab tracking"));;
       stopTabTracking;;
       ret false).

(** ** The event loop between operations *)

(** A notification of the [Target] domain. *)
Inductive Notification : Type :=
  | TargetCreated (targetInfo : option TargetInfo)
  | TargetInfoChanged (targetInfo : option TargetInfo)
  | TargetDestroyed (targetId : string).

(** What a registered listener does with a notification. *)
Definition listener (sub : Subscription) (n : Notification) : M unit :=
  match sub, n with
  | OnTargetCreated, TargetCreated ti => targetCreated ti
  | OnTargetInfoChanged, TargetInfoChanged ti => targetInfoChanged ti
  | OnTargetDestroyed, TargetDestroyed id => targetDestroyed id
  | _, _ => ret tt
  end.

Fixpoint run_listeners (subs : list Subscription) (n : Notification) : M unit :=
  match subs with
  | [] => ret tt
  | sub :: r => listener sub n;; run_listeners r n
  end.

(** A notification arrives: time advances and every listener of the
    open connection runs; without a connection nothing is delivered. *)
Definition deliver (n : Notification) : M unit :=
  let* s := get in
  match cdpClient (tracking s) with
  | None => ret tt
  | Some c =>
      modify (λ s, set_tick (S (tick (sys s))) s);;
      run_listeners (subscriptions c) n
  end.

(** The steps of the supervisor: establishing a session, starting and
    stopping tracking, the assignment of a requested port (line 573) and
    the arrival of a notification. *)
Inductive Action : Type :=
  | EnsureSession
  | StartTracking
  | StopTracking
  | SetPort (port : Z)
  | Notify (n : Notification).

Definition step (a : Action) (s : State) : State :=
  match a with
  | EnsureSession => snd (ensureChromeDebugging s)
  | StartTracking => snd (ensureTabTracking s)
  | StopTracking => snd (stopTabTracking s)
  | SetPort port => set_currentDebugPort port s
  | Notify n => snd (deliver n s)
  end.

Definition run (acts : list Action) (s : State) : State :=
  fold_left (λ acc a, step a acc) acts s.

End Program.

(* ================================================================== *)
(** * Sample environments                                               *)
(* ================================================================== *)

Module Sample.

Definition no_error : JsError := {| message := "unavailable"; status := None |}.

(** An environment described by its platform, its variables, the
    reachable ports, the answer of every enumeration command and the
    targets the browser lists. The clock starts on 14 November 2023. *)
Definition world (pf : Platform) (vars : list (string * string))
    (reachable : nat → Z → bool) (exec : string → ExecResult)
    (targets : list TargetInfo) : World := {|
  platform := pf;
  env := λ k, snd <$> List.find (λ kv, String.eqb (fst kv) k) vars;
  probe_reply := reachable;
  clock := λ t, 1700000000000 + Z.of_nat t;
  exec_reply := λ _ cmd, exec cmd;
  spawn_reply := λ _ _ _, Spawned 1;
  child_exit_at := λ _, false;
  child_error_at := λ _, None;
  unlink_reply := λ _ _, None;
  cdp_connect_reply := λ _ _, None;
  cdp_discover_reply := λ _, None;
  cdp_targets_reply := λ _, Targets (Some targets);
|}.

Definition posix : Builtins := Posix.builtins [].

Definition HOME_VARS : list (string * string) := [("HOME", "/home/u")].
Definition ROOT : string := "/home/u/.config/google-chrome".

(** Both settings present: a profile directory and a profile name. *)
Definition both_vars : list (string * string) :=
  [("CHROME_PROFILE_DIR", "/home/u/.config/google-chrome/Profile 1");
   ("CHROME_PROFILE_NAME", "Default")].

Definition never : nat → Z → bool := λ _ _, false.
Definition always : nat → Z → bool := λ _ _, true.
Definition only (port : Z) : nat → Z → bool := λ _ p, p =? port.
Definition before (n : nat) : nat → Z → bool := λ t _, (t <? n)%nat.
Definition silent : string → ExecResult := λ _, ExecOut EmptyString.
Definition listing : string → ExecResult := λ _, ExecOut "4242".
Definition broken : string → ExecResult := λ _, ExecThrows no_error.

Definition INBOX : TargetInfo :=
  {| targetId := "T1"; type := "page"; title := Some "Inbox";
     url := Some "https://mail.example/inbox" |}.

(** A notification about [T1] that carries neither title nor URL. *)
Definition INBOX_BLANK : TargetInfo :=
  {| targetId := "T1"; type := "page"; title := Some EmptyString; url := None |}.

(** A Linux host whose browser lists the one page [INBOX]. *)
Definition linux (reachable : nat → Z → bool) (exec : string → ExecResult)
  : World := world OtherPlatform HOME_VARS reachable exec [INBOX].

Definition DEVTOOLS_PAGE : TargetInfo :=
  {| targetId := "T2"; type := "page"; title := Some "DevTools";
     url := Some "devtools://devtools/bundled/inspector.html" |}.

Definition WORKER : TargetInfo :=
  {| targetId := "T3"; type := "service_worker"; title := Some "sw";
     url := Some "https://mail.example/sw.js" |}.

(** A host on which a port starts answering at time [n]. *)
Definition from (n : nat) : nat → Z → bool := λ t _, (n <=? t)%nat.

(** A Linux host whose browser lists a page, an internal-debugger page
    and a worker. *)
Definition crowded : World :=
  world OtherPlatform HOME_VARS always silent [INBOX; DEVTOOLS_PAGE; WORKER].

(** A persisted-state document and the text that holds it. *)
Definition LOCAL_STATE : json :=
  JObj [("profile",
         JObj [("info_cache",
                JObj [("Default", JObj [("name", JStr "Person 1")]);
                      ("Profile 1", JObj [])]);
               ("last_used", JStr "Default")])].

Definition parsing : Builtins := Posix.builtins [("{profile}", LOCAL_STATE)].

Definition state_fs : gmap string File :=
  {[ ROOT +:+ "/Local State" := Readable "{profile}" ]}.

(** A user-data root that holds a singleton lock. *)
Definition locked_fs : gmap string File :=
  {[ ROOT +:+ "/SingletonLock" := Readable EmptyString ]}.

End Sample.

(* ================================================================== *)
(** * Vocabulary of the statements                                      *)
(* ================================================================== *)

(** The final state of a computation. *)
Definition after {A} (m : M A) (s : State) : State := snd (m s).

(** A relation between the state before and the state after holds
    across a computation. *)
Definition framed {A} (R : State → State → Prop) (m : M A) : Prop :=
  ∀ s, R s (after m s).

(** One structural step of a [framed] goal. *)
Ltac frame_step lem_bind lem_catch lem_ret lem_throw lem_get :=
  lazymatch goal with
  | |- framed _ (bind _ _) => apply lem_bind; [ | intros ?; cbv beta]
  | |- framed _ (try_catch _ _) => apply lem_catch; [ | intros ?; cbv beta]
  | |- framed _ (ret _) => apply lem_ret
  | |- framed _ (throw _) => apply lem_throw
  | |- framed _ get => apply lem_get
  | |- framed _ (if ?b then _ else _) => destruct b
  | |- framed _ (match ?x with _ => _ end) => destruct x
  end.

(** The tracking variables are untouched. *)
Definition same_tracking (s s' : State) : Prop := tracking s' = tracking s.


Definition is_spawn (e : Event) : bool :=
  match e with EvSpawn _ _ => true | _ => false end.

Definition is_probe (e : Event) : bool :=
  match e with EvProbe _ _ => true | _ => false end.

Definition is_sleep (e : Event) : bool :=
  match e with EvSleep _ => true | _ => false end.

(** The number of times the launcher has spawned a process. *)
Definition launches (s : State) : nat :=
  length (List.filter is_spawn (trace (sys s))).

Definition same_launches (s s' : State) : Prop := launches s' = launches s.

(** Only the logical time and the event log differ, and no process has
    been spawned. *)
Definition quiet (s s' : State) : Prop :=
  session s' = session s ∧ tracking s' = tracking s ∧
  files (sys s') = files (sys s) ∧ launches s' = launches s.

(** The events of a polling wait on [port]: probes of that port and
    sleeps of [delayMs]. *)
Definition is_poll (port delayMs : Z) (e : Event) : Prop :=
  (∃ ok, e = EvProbe port ok) ∨ e = EvSleep delayMs.

(** The conditions of the persisted-state file at path [p]: missing,
    unreadable, or holding text that [JSON.parse] rejects. *)
Definition degraded `{Builtins} (s : State) (p : string) : Prop :=
  files (sys s) !! p = None ∨
  files (sys s) !! p = Some Unreadable ∨
  ∃ raw, files (sys s) !! p = Some (Readable raw) ∧ JSON_parse raw = None.

(** [process.platform === 'win32'] *)
Definition on_windows `{World} : bool :=
  match platform with Win32 => true | _ => false end.

(** One of the abort flags of the polling wait is set. *)
Definition aborted (s : State) : Prop :=
  is_Some (launchedChromeSpawnError (session s)) ∨
  launchedChromeExited (session s) = true.

(** A singleton-lock artifact exists under the user-data root or, when a
    profile is selected, under the profile subdirectory. *)
Definition lock_artifact_present `{Builtins} `{World} (s : State) : Prop :=
  ∃ name, name ∈ SINGLETON_NAMES ∧
    (is_Some (files (sys s) !! path_join [chromeUserDataRoot s; name]) ∨
     ∃ profile, selectedProfileName (session s) = Some profile ∧
       Js.nonempty profile = true ∧
       is_Some (files (sys s) !!
                  path_join [path_join [chromeUserDataRoot s; profile]; name])).

(** The three listeners of one tracking epoch. *)
Definition ONE_SET : list Subscription :=
  [OnTargetCreated; OnTargetInfoChanged; OnTargetDestroyed].

(** No entry of the registry has an internal-debugger URL. *)
Definition no_devtools (tabs : gmap string Tab) : Prop :=
  ∀ id t, tabs !! id = Some t → Js.startsWith (tab_url t) DEVTOOLS_PREFIX = false.

(** Every entry of the registry carries a non-zero timestamp. *)
Definition stamped (tabs : gmap string Tab) : Prop :=
  ∀ id t, tabs !! id = Some t → createdAt t ≠ 0.


(** The state after a suspension that left the abort flags at [e] and
    [x]. *)
Definition resumed (e : option JsError) (x : bool) (s : State) : State :=
  set_launchedChromeSpawnError e
    (set_launchedChromeExited x (set_tick (S (tick (sys s))) s)).

(** The tracking variables once tracking has been stopped. *)
Definition stopped : Tracking :=
  {| cdpClient := None; cdpPort := None; tabStateStartedAt := 0;
     tabsById := ∅; initialTabIds := ∅ |}.

(** The tracking variables after a start on [port] at time [t0] whose
    snapshot listed [infos]. *)
Definition started (port t0 : Z) (infos : list TargetInfo) : Tracking :=
  let seeded :=
    fold_left (λ acc info, seed_one info acc) infos
      {| cdpClient := Some {| client_port := port; subscriptions := [] |};
         cdpPort := Some port; tabStateStartedAt := t0;
         tabsById := ∅; initialTabIds := ∅ |} in
  {| cdpClient := Some {| client_port := port; subscriptions := ONE_SET |};
     cdpPort := Some port; tabStateStartedAt := t0;
     tabsById := tabsById seeded; initialTabIds := initialTabIds seeded |}.

(** Tracking holds a connection made for the current debug port. *)
Definition connected (s : State) : Prop :=
  is_Some (cdpClient (tracking s)) ∧
  cdpPort (tracking s) = Some (currentDebugPort (session s)).

(** The tracking variables with the registry replaced. *)
Definition with_tabs (tabs : gmap string Tab) (x : Tracking) : Tracking :=
  {| cdpClient := cdpClient x; cdpPort := cdpPort x;
     tabStateStartedAt := tabStateStartedAt x;
     tabsById := tabs; initialTabIds := initialTabIds x |}.

(** A notification passes the two guards of the listeners. *)
Definition tracked (ti : TargetInfo) : bool :=
  String.eqb (type ti) "page" && negb (is_devtools (url ti)).

(** The entry written by the [created] listener at time [now]. *)
Definition created_tab (ti : TargetInfo) (now : Z) (x : Tracking) : Tab :=
  {| tab_id := targetId ti;
     tab_title := Js.or_str (title ti) EmptyString;
     tab_url := Js.or_str (url ti) EmptyString;
     createdAt := now;
     isInitial := bool_decide (targetId ti ∈ initialTabIds x) |}.

(** The entry written by the [changed] listener at time [now]. *)
Definition changed_tab (ti : TargetInfo) (now : Z) (x : Tracking) : Tab :=
  let prev := tabsById x !! targetId ti in
  {| tab_id := targetId ti;
     tab_title := Js.or_str (title ti) (Js.or_str (tab_title <$> prev) EmptyString);
     tab_url := Js.or_str (url ti) (Js.or_str (tab_url <$> prev) EmptyString);
     createdAt := match prev with
                  | Some p => if createdAt p =? 0 then now else createdAt p
                  | None => now
                  end;
     isInitial := match prev with
                  | Some p => isInitial p
                  | None => bool_decide (targetId ti ∈ initialTabIds x)
                  end |}.

(** The effect of one notification on the tracking variables when one
    set of listeners is registered. *)
Definition notified (n : Notification) (now : Z) (x : Tracking) : Tracking :=
  match n with
  | TargetCreated (Some ti) =>
      if tracked ti
      then with_tabs (<[ targetId ti := created_tab ti now x ]> (tabsById x)) x
      else x
  | TargetInfoChanged (Some ti) =>
      if tracked ti
      then with_tabs (<[ targetId ti := changed_tab ti now x ]> (tabsById x)) x
      else x
  | TargetDestroyed id =>
      if Js.nonempty id then with_tabs (delete id (tabsById x)) x else x
  | _ => x
  end.

(** What holds of the tracking variables in every state the supervisor
    reaches: the registry is free of internal-debugger URLs, an open
    connection has one set of listeners, and without a connection the
    registry is empty. *)
Definition healthy (x : Tracking) : Prop :=
  no_devtools (tabsById x) ∧
  (∀ c, cdpClient x = Some c → subscriptions c = ONE_SET) ∧
  (cdpClient x = None → tabsById x = ∅).

(* ================================================================== *)
(** * The program, continued: the request handlers                      *)
(* ================================================================== *)

(** A target description as [CDP.List] returns it; every field may be
    absent. *)
Record ListedTarget : Type := {
  lt_id : option string;
  lt_targetId : option string;
  lt_type : option string;
  lt_title : option string;
  lt_url : option string;
}.

Inductive ListReply : Type :=
  | ListThrows (err : JsError)
  | Listed (targets : list ListedTarget).

(** The answer of [CDP.List] on a port at a logical time. *)
Class Inspector := {
  cdp_list_reply : nat → Z → ListReply;
}.

(** The conversion of a parsed value to a string in a template literal. *)
Class Conversions := {
  String_of_json : json → string;
}.

(** An argument of a handler: [undefined], [null], a number ([None] when
    it is [NaN] or infinite; finite numbers are integers here, as the
    port variable is), a string, or any other value, such as the event
    object of an IPC call. *)
Inductive Arg : Type :=
  | ArgUndefined
  | ArgNull
  | ArgNumber (n : option Z)
  | ArgString (str : string)
  | ArgOther.

(** A row of the list that [fetchChromeTabs] returns: a record of the
    registry, or the three fields taken from a listed target. *)
Inductive TabRow : Type :=
  | FromRegistry (t : Tab)
  | FromList (id title url : option string).

(** [a ?? b] *)
Definition coalesce (a b : Arg) : Arg :=
  match a with
  | ArgUndefined | ArgNull => b
  | _ => a
  end.

Section Handlers.
Context `{Builtins} `{World} `{Inspector} `{Conversions}.

(** [resolvePort(input)] (lines 233-240) *)
Definition resolvePort (input : Arg) (s : State) : Z :=
  let remembered :=
    if currentDebugPort (session s) =? 0 then DEBUG_PORT
    else currentDebugPort (session s) in
  match input with
  | ArgNumber (Some n) => n
  | ArgString str =>
      if Js.nonempty (Js.trim str)
      then match Number_of_string str with
           | Some n => n
           | None => remembered
           end
      else remembered
  | _ => remembered
  end.

(** [CDP.List({ host: '127.0.0.1', port: currentDebugPort })] *)
Definition cdp_list : M (list ListedTarget) :=
  let* s := get in
  let t := tick (sys s) in
  suspend;;
  match cdp_list_reply t (currentDebugPort (session s)) with
  | ListThrows err => throw err
  | Listed targets => ret targets
  end.

(** [targets.filter(...).map(...)] of the one-shot fallback *)
Definition listed_rows (targets : list ListedTarget) : list TabRow :=
  List.map
    (λ target,
       FromList (if Js.truthy (lt_id target) then lt_id target
                 else lt_targetId target)
                (lt_title target) (lt_url target))
    (List.filter (λ target, bool_decide (lt_type target = Some "page")) targets).

(** [fetchChromeTabs(eventOrPort, maybePort)] (lines 570-594) *)
Definition fetchChromeTabs (eventOrPort maybePort : Arg) : M (list TabRow) :=
  try_catch
    (let* s := get in
     let port := resolvePort (coalesce maybePort eventOrPort) s in
     modify (set_currentDebugPort port);;
     let* ok := ensureChromeDebugging in
     if negb ok then ret [] else
     let* trackingOk := ensureTabTracking in
     if trackingOk then
       let* s := get in ret (List.map FromRegistry (tabsFromState s))
     else
       let* targets := cdp_list in
       ret (listed_rows targets))
    (λ err,
       modify (set_lastStatusMessage
         (Js.or_str (Some (message err)) "Failed to fetch tabs"));;
       ret []).

(** The handler of [chrome-tabs:status] (lines 765-771) *)
Definition status_reply (s : State) : string :=
  let profileInfo :=
    if Json.truthy (Some (detectedActiveProfile (session s)))
    then "profile " +:+ String_of_json (detectedActiveProfile (session s))
    else "profile unknown" in
  if Js.nonempty (lastStatusMessage (session s))
  then lastStatusMessage (session s)
  else if negb (currentDebugPort (session s) =? 0)
       then "Ready on port " +:+ pretty (currentDebugPort (session s)) +:+
            " (" +:+ profileInfo +:+ ")"
       else "Chrome debugging not ready. Waiting for Chrome to start...".

End Handlers.

(* ================================================================== *)
(** * Further vocabulary                                                *)
(* ================================================================== *)

(** Across a computation the session variables other than the two abort
    flags stay what they were. *)
Definition same_settings (s s' : State) : Prop :=
  selectedProfileName (session s') = selectedProfileName (session s) ∧
  chromeUserDataRootOverride (session s') = chromeUserDataRootOverride (session s) ∧
  mainWindow (session s') = mainWindow (session s) ∧
  currentDebugPort (session s') = currentDebugPort (session s) ∧
  launchedChrome (session s') = launchedChrome (session s) ∧
  detectedActiveProfile (session s') = detectedActiveProfile (session s) ∧
  lastStatusMessage (session s') = lastStatusMessage (session s) ∧
  currentUserDataDir (session s') = currentUserDataDir (session s).

(** Across a computation only the logical time, the event log and the
    two abort flags may differ. *)
Definition steady (s s' : State) : Prop :=
  same_settings s s' ∧ tracking s' = tracking s ∧
  files (sys s') = files (sys s).

(** The newest event of the log. *)
Definition newest (s : State) : option Event := head (trace (sys s)).

(** The three messages with which the session establisher fails. *)
Definition failure_message (s' : State) : Prop :=
  lastStatusMessage (session s') = STANDOFF_MESSAGE ∨
  (∃ msg, lastStatusMessage (session s') = "Failed to launch Chrome: " +:+ msg ∧
          Js.nonempty msg = true) ∨
  (∃ hint, lastStatusMessage (session s')
           = "Failed to launch Chrome remote debugging on port " +:+
             pretty (currentDebugPort (session s')) +:+ ". " +:+ hint).

(** The two messages with which the session establisher succeeds. *)
Definition success_message (s' : State) : Prop :=
  lastStatusMessage (session s')
  = "Connected to Chrome on port " +:+ pretty (currentDebugPort (session s')) ∨
  lastStatusMessage (session s')
  = "Launched Chrome with remote debugging on port " +:+
    pretty (currentDebugPort (session s')).

(** Across a computation the session variables, the tracking variables
    and the number of spawned processes stay what they were. *)
Definition calm (s s' : State) : Prop :=
  session s' = session s ∧ tracking s' = tracking s ∧ launches s' = launches s.

(** The browser process, if one was launched, neither exits nor reports
    an error. *)
Definition uneventful `{World} : Prop :=
  (∀ t, child_exit_at t = false) ∧ (∀ t, child_error_at t = None).

(** The log of [k] rounds of the waiting loop that found the port closed,
    newest event first. *)
Definition polls (port delayMs : Z) (k : nat) : list Event :=
  concat (repeat [EvSleep delayMs; EvProbe port false] k).

(** The entry the seed loop writes for a listed target in an epoch that
    started at [t0]. *)
Definition seeded_tab (info : TargetInfo) (t0 : Z) : Tab :=
  {| tab_id := targetId info;
     tab_title := Js.or_str (title info) EmptyString;
     tab_url := Js.or_str (url info) EmptyString;
     createdAt := t0;
     isInitial := true |}.

(** A notification passes the guards of its listener and so changes the
    registry. *)
Definition applies (n : Notification) : bool :=
  match n with
  | TargetCreated (Some ti) | TargetInfoChanged (Some ti) => tracked ti
  | TargetDestroyed id => Js.nonempty id
  | _ => false
  end.

(** Every entry is filed under its own identifier and is flagged initial
    exactly when that identifier is in the initial set. *)
Definition consistent (x : Tracking) : Prop :=
  ∀ id t, tabsById x !! id = Some t →
    tab_id t = id ∧ isInitial t = bool_decide (id ∈ initialTabIds x).

(** The message left by a start of tracking that failed with [err]. *)
Definition start_failure_message (err : JsError) : string :=
  Js.or_str (Some (message err)) "Failed to start live tab tracking".

(** The outcome of the three protocol calls of a start of tracking, made
    at the times [t1], [t2] and [t3]: the first error, or the targets
    listed. *)
Definition handshake `{World} (port : Z) (t1 t2 t3 : nat)
  : JsError + list TargetInfo :=
  match cdp_connect_reply t1 port with
  | Some err => inl err
  | None =>
      match cdp_discover_reply t2 with
      | Some err => inl err
      | None =>
          match cdp_targets_reply t3 with
          | TargetsThrows err => inl err
          | Targets listing => inr (default [] listing)
          end
      end
  end.

(** Across a computation the profile selection stays what it was, the
    recorded user-data directory stays or becomes the user-data root, the
    log only grows, and every process spawned was given the arguments
    built for the configured port. *)
Definition configured `{Builtins} `{World} (s s' : State) : Prop :=
  selectedProfileName (session s') = selectedProfileName (session s) ∧
  chromeUserDataRootOverride (session s') = chromeUserDataRootOverride (session s) ∧
  (currentUserDataDir (session s') = currentUserDataDir (session s) ∨
   currentUserDataDir (session s') = Some (chromeUserDataRoot s)) ∧
  ∃ new, trace (sys s') = new ++ trace (sys s) ∧
         ∀ exe args, In (EvSpawn exe args) new →
                     args = buildChromeArgs DEBUG_PORT s.

(** Across a computation the user-data root override and the recorded
    user-data directory stay what they were. *)
Definition settled (s s' : State) : Prop :=
  chromeUserDataRootOverride (session s') = chromeUserDataRootOverride (session s) ∧
  currentUserDataDir (session s') = currentUserDataDir (session s).

(** The recorded user-data directory, if any, is the user-data root. *)
Definition rooted `{Builtins} `{World} (s : State) : Prop :=
  currentUserDataDir (session s) = None ∨
  currentUserDataDir (session s) = Some (chromeUserDataRoot s).

(** Across a computation a status message that was not empty is not
    empty afterwards. *)
Definition voiced (s s' : State) : Prop :=
  Js.nonempty (lastStatusMessage (session s)) = true →
  Js.nonempty (lastStatusMessage (session s')) = true.

(** The row of the one-shot fallback for a listed target: its [id], or
    its [targetId] when the [id] is absent or empty, with its title and
    its URL as listed. *)
Definition row_for (target : ListedTarget) (row : TabRow) : Prop :=
  row = FromList (if Js.truthy (lt_id target) then lt_id target
                  else lt_targetId target)
                 (lt_title target) (lt_url target).

(* ================================================================== *)
(** * Further sample environments                                       *)
(* ================================================================== *)

Module Cases.

(** A Linux host on which force-kill is enabled and no port answers. *)
Definition forceful : World :=
  Sample.world OtherPlatform
    [("HOME", "/home/u"); ("CHROME_FORCE_KILL", "1")]
    Sample.never Sample.silent [Sample.INBOX].

(** A Windows host on which force-kill is enabled and no port answers. *)
Definition windows (exec : string → ExecResult) : World :=
  Sample.world Win32
    [("LOCALAPPDATA", "/Users/u/AppData/Local"); ("CHROME_FORCE_KILL", "1")]
    Sample.never exec [].

Definition access_denied : JsError :=
  {| message := "Command failed: taskkill"; status := Some 1 |}.

(** Every command fails with status 1. *)
Definition denied : string → ExecResult := λ _, ExecThrows access_denied.

Definition TASKLIST_ROW : string :=
  dq +:+ "Chrome.exe" +:+ dq +:+ "," +:+ dq +:+ "4242" +:+ dq.

(** PowerShell is unavailable; [tasklist] prints one row. *)
Definition tasklist_only : string → ExecResult :=
  λ cmd, if String.eqb cmd TASKLIST then ExecOut TASKLIST_ROW
         else ExecThrows Sample.no_error.

(** A Linux host whose browser answers the probes and refuses every
    protocol connection. *)
Definition refusing : World := {|
  platform := OtherPlatform;
  env := λ k, if String.eqb k "HOME" then Some "/home/u" else None;
  probe_reply := Sample.always;
  clock := λ t, 1700000000000 + Z.of_nat t;
  exec_reply := λ _ _, ExecOut EmptyString;
  spawn_reply := λ _ _ _, Spawned 1;
  child_exit_at := λ _, false;
  child_error_at := λ _, None;
  unlink_reply := λ _ _, None;
  cdp_connect_reply := λ _ _, Some Sample.no_error;
  cdp_discover_reply := λ _, None;
  cdp_targets_reply := λ _, Targets (Some []);
|}.

(** The entry for [INBOX] in an epoch that started at time 1. *)
Definition INBOX_TAB : Tab :=
  {| tab_id := "T1"; tab_title := "Inbox";
     tab_url := "https://mail.example/inbox";
     createdAt := 1700000000001; isInitial := true |}.

(** A notification that renames [T1]. *)
Definition SENT : TargetInfo :=
  {| targetId := "T1"; type := "page"; title := Some "Sent";
     url := Some "https://mail.example/sent" |}.

Definition SENT_TAB : Tab :=
  {| tab_id := "T1"; tab_title := "Sent";
     tab_url := "https://mail.example/sent";
     createdAt := 1700000000001; isInitial := true |}.

(** A page that opens after the start. *)
Definition NEWS : TargetInfo :=
  {| targetId := "T9"; type := "page"; title := Some "News";
     url := Some "https://news.example/" |}.

(** A persisted-state document that names both a last active and a last
    used profile. *)
Definition ACTIVE_STATE : json :=
  JObj [("profile",
         JObj [("last_active_profiles", JArr [JStr "Profile 2"; JStr "Default"]);
               ("last_used", JStr "Default")])].

Definition reading : Builtins := Posix.builtins [("{active}", ACTIVE_STATE)].

Definition active_fs : gmap string File :=
  {[ Sample.ROOT +:+ "/Local State" := Readable "{active}" ]}.

(** Two listed pages with the same title and URL, the second known by
    its [targetId] only, and a listed worker. *)
Definition LISTED_MAIL : ListedTarget :=
  {| lt_id := Some "A"; lt_targetId := None; lt_type := Some "page";
     lt_title := Some "Mail"; lt_url := Some "https://mail.example/" |}.

Definition LISTED_MAIL_AGAIN : ListedTarget :=
  {| lt_id := Some EmptyString; lt_targetId := Some "B"; lt_type := Some "page";
     lt_title := Some "Mail"; lt_url := Some "https://mail.example/" |}.

Definition LISTED_WORKER : ListedTarget :=
  {| lt_id := Some "C"; lt_targetId := None; lt_type := Some "service_worker";
     lt_title := Some "sw"; lt_url := Some "https://mail.example/sw.js" |}.

(** A listed page of the internal debugger. *)
Definition LISTED_DEVTOOLS : ListedTarget :=
  {| lt_id := Some "T2"; lt_targetId := None; lt_type := Some "page";
     lt_title := Some "DevTools";
     lt_url := Some "devtools://devtools/bundled/inspector.html" |}.

Definition listing (targets : list ListedTarget) : Inspector :=
  {| cdp_list_reply := λ _ _, Listed targets |}.

Definition unlisted : Inspector :=
  {| cdp_list_reply := λ _ _, ListThrows Sample.no_error |}.

(** A conversion that is right on strings. *)
Definition strings : Conversions :=
  {| String_of_json := λ v, match v with JStr s => s | _ => "[object Object]" end |}.

End Cases.

(* ================================================================== *)
(** * Theorems                                                          *)
(* ================================================================== *)

(** ** Strings *)

Lemma trim_nonempty (s : string) :
  Js.nonempty (Js.trim s) = true → Js.nonempty s = true.
Proof. destruct s; [discriminate | reflexivity]. Qed.

Lemma or_null_truthy (o : option string) :
  Js.truthy o = true → Js.or_null o = o.
Proof. unfold Js.or_null. now intros ->. Qed.

Lemma or_null_falsy (o : option string) :
  Js.truthy o = false → Js.or_null o = None.
Proof. unfold Js.or_null. now intros ->. Qed.

Lemma truthy_or_null (o : option string) :
  Js.truthy (Js.or_null o) = Js.truthy o.
Proof. unfold Js.or_null. destruct (Js.truthy o) eqn:E; [exact E | reflexivity]. Qed.

Lemma or_str_nonempty (s d : string) :
  Js.nonempty s = true → Js.or_str (Some s) d = s.
Proof. simpl. now intros ->. Qed.

Lemma or_str_empty_string (s : string) : Js.or_str (Some s) EmptyString = s.
Proof. destruct s; reflexivity. Qed.

(** ** Profile resolution *)

Section ProfileResolution.
Context `{Builtins} `{World}.

Lemma selection_without_dir :
  Js.truthy (Js.trim <$> PROFILE_DIR_ENV) = false →
  profile_selection = (Js.or_null PROFILE_NAME_ENV, None).
Proof.
  unfold profile_selection. destruct PROFILE_DIR_ENV as [dir|]; simpl; [|done].
  intros ->. now rewrite andb_false_r.
Qed.

(** C1, as amended: with a profile-directory path that does not name the
    root container, the parent of the path is the user-data root, a
    non-empty profile-name setting stays the profile name, and the
    basename of the path is the profile name only when no profile name is
    set; a path that names the root container is the root and gives no
    profile name; without a path the profile name alone is used and the
    root is the platform default. *)
Theorem profile_precedence (fs : gmap string File) (window : bool) :
  (∀ dir, PROFILE_DIR_ENV = Some dir → Js.nonempty (Js.trim dir) = true →
     let normalized := path_normalize (Js.trim dir) in
     let baseName := path_basename normalized in
     (Js.toLowerCase baseName = "user data" →
        profile_selection = (Js.or_null PROFILE_NAME_ENV, Some normalized)) ∧
     (Js.toLowerCase baseName ≠ "user data" →
        snd profile_selection = Some (path_dirname normalized) ∧
        (∀ name, PROFILE_NAME_ENV = Some name → Js.nonempty name = true →
           fst profile_selection = Some name) ∧
        (Js.truthy PROFILE_NAME_ENV = false →
           fst profile_selection = Some baseName))) ∧
  (Js.truthy (Js.trim <$> PROFILE_DIR_ENV) = false →
     profile_selection = (Js.or_null PROFILE_NAME_ENV, None) ∧
     chromeUserDataRoot (init_state fs window) = defaultChromeUserDataRoot).
Proof.
  split.
  - intros dir Hdir Htrim normalized baseName. unfold profile_selection.
    rewrite Hdir, Htrim, (trim_nonempty _ Htrim). simpl.
    fold normalized. fold baseName. split.
    + intros Hroot. now rewrite Hroot.
    + intros Hprofile.
      destruct (String.eqb_spec (Js.toLowerCase baseName) "user data") as [E|_];
        [contradiction|]. simpl. split; [reflexivity|]. split.
      * intros name Hname Hne. rewrite Hname.
        rewrite or_null_truthy by exact Hne. simpl. now rewrite Hne.
      * intros Hfalsy. now rewrite (or_null_falsy _ Hfalsy).
  - intros Hblank. pose proof (selection_without_dir Hblank) as Hsel.
    split; [exact Hsel|]. unfold chromeUserDataRoot, init_state. simpl.
    now rewrite Hsel.
Qed.

End ProfileResolution.

(** C1, witness: a directory path with no profile name. *)
Lemma profile_precedence_witness :
  let W := Sample.world OtherPlatform
             [("CHROME_PROFILE_DIR", "/home/u/.config/google-chrome/Profile 1")]
             Sample.never Sample.silent [] in
  @profile_selection Sample.posix W
  = (Some "Profile 1", Some "/home/u/.config/google-chrome").
Proof.
  intros W.
  destruct (@profile_precedence Sample.posix W ∅ false) as [Hdir _].
  destruct (Hdir "/home/u/.config/google-chrome/Profile 1" eq_refl eq_refl)
    as [_ Hprofile].
  destruct Hprofile as (Hroot & _ & Hname); [discriminate|].
  rewrite (surjective_pairing (@profile_selection Sample.posix W)).
  rewrite Hroot, (Hname eq_refl). reflexivity.
Defined.

(** C1, as stated, fails: with both settings the configured name
    [Default] is selected, not the basename [Profile 1] of the path. *)
Lemma profile_name_not_overridden :
  let W := Sample.world OtherPlatform Sample.both_vars
             Sample.never Sample.silent [] in
  @PROFILE_DIR_ENV W = Some "/home/u/.config/google-chrome/Profile 1" ∧
  @PROFILE_NAME_ENV W = Some "Default" ∧
  @path_basename Sample.posix
    (@path_normalize Sample.posix "/home/u/.config/google-chrome/Profile 1")
  = "Profile 1" ∧
  fst (@profile_selection Sample.posix W) = Some "Default" ∧
  fst (@profile_selection Sample.posix W) ≠ Some "Profile 1".
Proof. vm_compute. repeat split; discriminate. Qed.

(** ** Computations *)

Section Frame.
Variable R : State → State → Prop.
Hypothesis R_refl : ∀ s, R s s.
Hypothesis R_trans : ∀ a b c, R a b → R b c → R a c.

Lemma framed_ret {A} (a : A) : framed R (ret a).
Proof. intros s. apply R_refl. Qed.

Lemma framed_throw {A} (e : JsError) : framed R (@throw A e).
Proof. intros s. apply R_refl. Qed.

Lemma framed_get : framed R get.
Proof. intros s. apply R_refl. Qed.

Lemma framed_modify (f : State → State) :
  (∀ s, R s (f s)) → framed R (modify f).
Proof. intros Hf s. apply Hf. Qed.

Lemma framed_bind {A B} (m : M A) (k : A → M B) :
  framed R m → (∀ a, framed R (k a)) → framed R (bind m k).
Proof.
  intros Hm Hk s. specialize (Hm s). unfold after, bind in *.
  destruct (m s) as [[a|e] s1]; simpl in *; [|exact Hm].
  eapply R_trans; [exact Hm|]. apply Hk.
Qed.

Lemma framed_try_catch {A} (m : M A) (h : JsError → M A) :
  framed R m → (∀ e, framed R (h e)) → framed R (try_catch m h).
Proof.
  intros Hm Hh s. specialize (Hm s). unfold after, try_catch in *.
  destruct (m s) as [[a|e] s1]; simpl in *; [exact Hm|].
  eapply R_trans; [exact Hm|]. apply Hh.
Qed.

End Frame.

Lemma same_tracking_refl s : same_tracking s s.
Proof. reflexivity. Qed.
Lemma same_tracking_trans a b c :
  same_tracking a b → same_tracking b c → same_tracking a c.
Proof. unfold same_tracking. congruence. Qed.

Lemma quiet_refl s : quiet s s.
Proof. repeat split. Qed.
Lemma quiet_trans a b c : quiet a b → quiet b c → quiet a c.
Proof.
  unfold quiet. intros (?&?&?&?) (?&?&?&?). repeat split; congruence.
Qed.

Lemma framed_weaken {A} (R R' : State → State → Prop) (m : M A) :
  (∀ s s', R s s' → R' s s') → framed R m → framed R' m.
Proof. intros HR Hm s. apply HR, Hm. Qed.

Lemma quiet_same_tracking s s' : quiet s s' → same_tracking s s'.
Proof. now intros (_ & ? & _). Qed.

(** A computation whose handler returns cannot throw. *)
Lemma try_catch_returns {A} (m : M A) (d : A) (s : State) :
  ∃ a, try_catch m (λ _, ret d) s = (Ok a, after (try_catch m (λ _, ret d)) s).
Proof.
  unfold after, try_catch, ret. destruct (m s) as [[a|e] s1]; simpl; eauto.
Qed.

Lemma same_launches_refl s : same_launches s s.
Proof. reflexivity. Qed.
Lemma same_launches_trans a b c :
  same_launches a b → same_launches b c → same_launches a c.
Proof. unfold same_launches. congruence. Qed.

(** Solving a [framed] goal for a relation with proofs [rf] and [tr] of
    reflexivity and transitivity; [leaf] closes the primitive steps. *)
Ltac frame_with R rf tr leaf :=
  repeat first
    [ frame_step (@framed_bind R tr) (@framed_try_catch R tr)
        (@framed_ret R rf) (@framed_throw R rf) (@framed_get R rf)
    | leaf ].

(** ** Persisted-state readers *)

Section Readers.
Context `{Builtins} `{World}.

Lemma readActiveProfileName_total (s : State) :
  ∃ v, readActiveProfileName s = (Ok v, s).
Proof.
  unfold readActiveProfileName, try_catch, bind, get, existsSync,
    readFileSync, parse, member, ret, throw.
  simpl. repeat (case_match; simpl in *; simplify_eq); eauto.
Qed.

Lemma getAvailableProfiles_total (s : State) :
  ∃ l, getAvailableProfiles s = (Ok l, s).
Proof.
  unfold getAvailableProfiles, try_catch, bind, get, existsSync,
    readFileSync, parse, ret, throw.
  simpl. repeat (case_match; simpl in *; simplify_eq); eauto.
Qed.

Lemma readActiveProfileName_degraded (s : State) :
  degraded s (path_join [getUserDataDir s; "Local State"]) →
  readActiveProfileName s = (Ok JNull, s).
Proof.
  unfold readActiveProfileName, try_catch, bind, get, existsSync,
    readFileSync, parse, member, ret, throw.
  intros [Hf | [Hf | (raw & Hf & Hparse)]]; simpl; rewrite Hf; simpl;
    rewrite ?Hf; simpl; rewrite ?Hparse; reflexivity.
Qed.

Lemma getAvailableProfiles_degraded (s : State) :
  degraded s (path_join [chromeUserDataRoot s; "Local State"]) →
  getAvailableProfiles s = (Ok [], s).
Proof.
  unfold getAvailableProfiles, try_catch, bind, get, existsSync,
    readFileSync, parse, ret, throw.
  intros [Hf | [Hf | (raw & Hf & Hparse)]]; simpl; rewrite Hf; simpl;
    rewrite ?Hf; simpl; rewrite ?Hparse; reflexivity.
Qed.

(** C8: whatever the persisted-state file holds, both readers return a
    value and leave the state alone; when the file is missing,
    unreadable or not JSON, the active profile is [null] and the list of
    profiles is empty. *)
Theorem metadata_degrades_gracefully (s : State) :
  (∃ v, readActiveProfileName s = (Ok v, s)) ∧
  (∃ l, getAvailableProfiles s = (Ok l, s)) ∧
  (degraded s (path_join [getUserDataDir s; "Local State"]) →
     readActiveProfileName s = (Ok JNull, s)) ∧
  (degraded s (path_join [chromeUserDataRoot s; "Local State"]) →
     getAvailableProfiles s = (Ok [], s)).
Proof.
  auto using readActiveProfileName_total, getAvailableProfiles_total,
    readActiveProfileName_degraded, getAvailableProfiles_degraded.
Qed.

End Readers.

(** ** Suspension, probes and commands *)

Arguments suspend : simpl never.

Section Primitives.
Context `{Builtins} `{World}.

Lemma suspend_spec (s : State) :
  ∃ e x, after suspend s = resumed e x s.
Proof.
  destruct s as [ss tr sy]. destruct ss as [? ? ? ? launched ? ? ? ? ?].
  unfold after, suspend, modify. simpl.
  destruct launched; [destruct (child_exit_at _), (child_error_at _)|];
    eexists _, _; cbv [resumed set_launchedChromeSpawnError
                       set_launchedChromeExited set_tick upd_session upd_sys];
    simpl; reflexivity.
Qed.

Lemma suspend_run (s : State) :
  ∃ e x, suspend s = (Ok tt, resumed e x s).
Proof.
  destruct (suspend_spec s) as (e & x & Hs). exists e, x. now rewrite <- Hs.
Qed.

Lemma check_run (port : Z) (s : State) :
  ∃ e x, checkChromeDebugging port s
         = (Ok (probe_reply (tick (sys s)) port),
            log (EvProbe port (probe_reply (tick (sys s)) port)) (resumed e x s)).
Proof.
  destruct (suspend_spec s) as (e & x & Hs). exists e, x. rewrite <- Hs.
  reflexivity.
Qed.

Lemma sleep_run (delayMs : Z) (s : State) :
  ∃ e x, sleep delayMs s = (Ok tt, log (EvSleep delayMs) (resumed e x s)).
Proof.
  destruct (suspend_spec s) as (e & x & Hs). exists e, x. rewrite <- Hs.
  reflexivity.
Qed.

Lemma execSync_run (cmd : string) (s : State) :
  execSync cmd s
  = (match exec_reply (tick (sys s)) cmd with
     | ExecOut out => Ok out
     | ExecThrows e => Throw e
     end,
     log (EvExec cmd) (set_tick (S (tick (sys s))) s)).
Proof.
  unfold execSync, bind, get, modify, ret, throw. simpl.
  now destruct (exec_reply _ _).
Qed.

Lemma suspend_same_tracking : framed same_tracking suspend.
Proof. intros s. destruct (suspend_spec s) as (e & x & ->). reflexivity. Qed.

Lemma check_same_tracking port : framed same_tracking (checkChromeDebugging port).
Proof.
  intros s. unfold after. destruct (check_run port s) as (e & x & ->).
  reflexivity.
Qed.

Lemma check_same_launches port : framed same_launches (checkChromeDebugging port).
Proof.
  intros s. unfold after. destruct (check_run port s) as (e & x & ->).
  reflexivity.
Qed.

Lemma sleep_same_tracking d : framed same_tracking (sleep d).
Proof.
  intros s. unfold after. destruct (sleep_run d s) as (e & x & ->).
  reflexivity.
Qed.

Lemma execSync_quiet cmd : framed quiet (execSync cmd).
Proof. intros s. unfold after. rewrite execSync_run. repeat split. Qed.

Lemma reader_quiet : framed quiet readActiveProfileName.
Proof.
  intros s. unfold after. destruct (readActiveProfileName_total s) as [v ->].
  apply quiet_refl.
Qed.

End Primitives.

(** Replace the next probe, sleep or state-file read of the goal by its
    outcome. *)
Ltac run_check :=
  match goal with
  | |- context [checkChromeDebugging ?p ?t] =>
      let Hc := fresh "Hc" in
      destruct (check_run p t) as (? & ? & Hc); simpl in Hc;
      rewrite Hc; clear Hc
  end.

Ltac run_sleep :=
  match goal with
  | |- context [sleep ?d ?t] =>
      let Hc := fresh "Hc" in
      destruct (sleep_run d t) as (? & ? & Hc); simpl in Hc;
      rewrite Hc; clear Hc
  end.

Ltac run_suspend :=
  match goal with
  | |- context [suspend ?t] =>
      let Hc := fresh "Hc" in
      destruct (suspend_run t) as (? & ? & Hc); simpl in Hc;
      rewrite Hc; clear Hc
  end.

Ltac run_reader :=
  match goal with
  | |- context [readActiveProfileName ?t] =>
      let Hr := fresh "Hr" in
      destruct (readActiveProfileName_total t) as (? & Hr);
      rewrite Hr; clear Hr
  end.

(** Closing the primitive steps of a [framed] goal whose relation every
    field update of the goal respects by computation. *)
Ltac frame_leaf :=
  first [ apply framed_modify; intros ?; try reflexivity; repeat split; done ].

(** ** Conflict detector *)

Section Detector.
Context `{Builtins} `{World}.

Lemma chromeProcessesRunning_quiet : framed quiet chromeProcessesRunning.
Proof.
  unfold chromeProcessesRunning.
  frame_with quiet quiet_refl quiet_trans ltac:(apply execSync_quiet).
Qed.

Lemma some_exist_run (ps : list string) (s : State) :
  some_exist ps s
  = (Ok (existsb (λ p, bool_decide (is_Some (files (sys s) !! p))) ps), s).
Proof.
  induction ps as [|p r IH]; [reflexivity|]. simpl.
  unfold bind, existsSync. simpl.
  destruct (bool_decide (is_Some (files (sys s) !! p))); [reflexivity|].
  exact IH.
Qed.

Lemma lockCandidates_spec (s : State) :
  (∃ p, In p (lockCandidates s) ∧ is_Some (files (sys s) !! p))
  ↔ lock_artifact_present s.
Proof.
  unfold lockCandidates, lock_artifact_present. split.
  - intros (p & Hin & Hp). apply in_app_iff in Hin as [Hin|Hin].
    + apply in_map_iff in Hin as (name & <- & Hname).
      exists name. split; [now apply list_elem_of_In | now left].
    + destruct (selectedProfileName (session s)) as [profile|]; [|easy].
      destruct (Js.nonempty profile) eqn:Hne; [|easy].
      apply in_map_iff in Hin as (name & <- & Hname).
      exists name. split; [now apply list_elem_of_In|]. right. eauto.
  - intros (name & Hname & [Hroot | (profile & Hsel & Hne & Hp)]).
    + eexists. split; [|exact Hroot]. apply in_app_iff. left.
      apply in_map_iff. exists name. split; [reflexivity|].
      now apply list_elem_of_In.
    + eexists. split; [|exact Hp]. apply in_app_iff. right.
      rewrite Hsel, Hne. apply in_map_iff. exists name.
      split; [reflexivity | now apply list_elem_of_In].
Qed.

Lemma chromeProfileLikelyLocked_run (s : State) :
  ∃ locked, chromeProfileLikelyLocked s = (Ok locked, s) ∧
            (locked = true ↔ lock_artifact_present s).
Proof.
  unfold chromeProfileLikelyLocked, try_catch, bind, get.
  rewrite some_exist_run. eexists. split; [reflexivity|].
  rewrite <- lockCandidates_spec, existsb_exists.
  split; intros (p & Hin & Hp); exists p; split; auto.
  - now apply bool_decide_eq_true in Hp.
  - now apply bool_decide_eq_true.
Qed.

Lemma chromeProcessesRunning_total (s : State) :
  ∃ running s1, chromeProcessesRunning s = (Ok running, s1) ∧ quiet s s1.
Proof.
  pose proof (chromeProcessesRunning_quiet s) as Hq. revert Hq.
  unfold chromeProcessesRunning at 1 2.
  match goal with |- context [try_catch ?m _] =>
    destruct (try_catch_returns m false s) as [b Hb] end.
  rewrite Hb. eauto.
Qed.

Lemma chromeProcessesRunning_degrades (s : State) :
  (∀ t cmd, ∃ e, exec_reply t cmd = ExecThrows e) →
  ∃ s1, chromeProcessesRunning s = (Ok false, s1).
Proof.
  intros Hthrows. unfold chromeProcessesRunning, try_catch, bind.
  destruct platform; rewrite execSync_run.
  - destruct (Hthrows (tick (sys s)) POWERSHELL_COUNT) as [e ->].
    unfold ret at 1. cbv beta iota. rewrite execSync_run. simpl tick.
    destruct (Hthrows (S (tick (sys s))) TASKLIST) as [e' ->]. eauto.
  - destruct (Hthrows (tick (sys s)) PGREP_DARWIN) as [e ->]. eauto.
  - destruct (Hthrows (tick (sys s)) PGREP) as [e ->]. eauto.
Qed.

Lemma chromeRunning_run (s : State) :
  ∃ running locked s1,
    chromeProcessesRunning s = (Ok running, s1) ∧ quiet s s1 ∧
    chromeProfileLikelyLocked s1 = (Ok locked, s1) ∧
    (locked = true ↔ lock_artifact_present s) ∧
    chromeRunning s = (Ok (running || (on_windows && locked)), s1).
Proof.
  destruct (chromeProcessesRunning_total s) as (running & s1 & Hrun & Hq).
  destruct (chromeProfileLikelyLocked_run s1) as (locked & Hlock & Hspec).
  exists running, locked, s1. split; [exact Hrun|]. split; [exact Hq|].
  split; [exact Hlock|]. split.
  - rewrite Hspec. destruct Hq as (Hsess & _ & Hfiles & _).
    unfold lock_artifact_present, chromeUserDataRoot.
    now rewrite Hsess, Hfiles.
  - unfold chromeRunning, bind. rewrite Hrun.
    destruct running; [reflexivity|]. unfold on_windows. simpl.
    destruct platform; simpl; [exact Hlock | reflexivity | reflexivity].
Qed.

Lemma chromeRunning_quiet : framed quiet chromeRunning.
Proof.
  intros s. unfold after.
  destruct (chromeRunning_run s) as (r & l & s1 & _ & Hq & _ & _ & ->).
  exact Hq.
Qed.

(** The enumeration signal where [pgrep] is used: some output that is
    not blank. *)
Lemma process_signal_pgrep (s : State) (out : string) :
  platform = OtherPlatform →
  exec_reply (tick (sys s)) PGREP = ExecOut out →
  ∃ s1, chromeProcessesRunning s = (Ok (Js.nonempty (Js.trim out)), s1).
Proof.
  intros Hpf Hout. unfold chromeProcessesRunning, try_catch, bind.
  rewrite Hpf, execSync_run, Hout. eauto.
Qed.

(** C4, as amended: the detector never throws; it reports a conflict
    exactly when the process enumeration reports the browser running or,
    on Windows only, a singleton-lock artifact exists under the
    user-data root or the selected profile's subdirectory; when every
    enumeration command fails the enumeration signal is [false]. *)
Theorem detector_signals (s : State) :
  ∃ running locked s1,
    chromeProcessesRunning s = (Ok running, s1) ∧
    chromeProfileLikelyLocked s1 = (Ok locked, s1) ∧
    (locked = true ↔ lock_artifact_present s) ∧
    chromeRunning s = (Ok (running || (on_windows && locked)), s1) ∧
    ((∀ t cmd, ∃ e, exec_reply t cmd = ExecThrows e) → running = false).
Proof.
  destruct (chromeRunning_run s)
    as (running & locked & s1 & Hrun & _ & Hlock & Hspec & Hdet).
  exists running, locked, s1. repeat split; try assumption; try apply Hspec.
  intros Hthrows.
  destruct (chromeProcessesRunning_degrades s Hthrows) as [s2 Hd]. congruence.
Qed.

End Detector.

(** ** Bounded polling wait *)

Section Wait.
Context `{Builtins} `{World}.

Lemma wait_loop_aborted (port delayMs : Z) (remaining : nat) (s : State) :
  aborted s → wait_loop port delayMs remaining s = (Ok false, s).
Proof.
  intros Hab. destruct remaining as [|n]; [reflexivity|].
  simpl. unfold bind, get. simpl.
  destruct Hab as [Herr | Hexit].
  - now rewrite bool_decide_eq_true_2.
  - rewrite Hexit. now destruct (bool_decide _).
Qed.

(** An iteration that finds no flag set and no open port sleeps once and
    goes on with one iteration fewer. *)
Lemma wait_loop_next (port delayMs : Z) (n : nat) (s : State) :
  ¬ aborted s → probe_reply (tick (sys s)) port = false →
  ∃ e1 x1 e2 x2,
    wait_loop port delayMs (S n) s
    = wait_loop port delayMs n
        (log (EvSleep delayMs)
           (resumed e2 x2 (log (EvProbe port false) (resumed e1 x1 s)))).
Proof.
  intros Hab Hprobe. simpl. unfold bind at 1. unfold get at 1. cbv beta iota.
  rewrite bool_decide_eq_false_2 by (intros ?; apply Hab; now left).
  destruct (launchedChromeExited (session s)) eqn:Hexit;
    [exfalso; apply Hab; now right|].
  unfold bind at 1. run_check. rewrite Hprobe. cbv beta iota.
  unfold bind at 1. run_sleep. eauto.
Qed.

Lemma wait_loop_bounded (port delayMs : Z) (remaining : nat) (s : State) :
  ∃ ok s' new,
    wait_loop port delayMs remaining s = (Ok ok, s') ∧
    trace (sys s') = new ++ trace (sys s) ∧
    Forall (is_poll port delayMs) new ∧
    (length (List.filter is_probe new) ≤ remaining)%nat ∧
    (length (List.filter is_sleep new) ≤ remaining)%nat ∧
    (tick (sys s') ≤ tick (sys s) + 2 * remaining)%nat.
Proof.
  revert s. induction remaining as [|n IH]; intros s.
  - exists false, s, []. simpl. repeat split; auto with lia.
  - simpl. unfold bind at 1. unfold get at 1. cbv beta iota.
    destruct (bool_decide _);
      [exists false, s, []; simpl; repeat split; auto with lia|].
    destruct (launchedChromeExited _);
      [exists false, s, []; simpl; repeat split; auto with lia|].
    unfold bind at 1. run_check.
    destruct (probe_reply (tick (sys s)) port); cbv beta iota.
    + eexists true, _, [EvProbe port true]. split; [reflexivity|]. simpl.
      split; [reflexivity|]. split; [|lia].
      constructor; [left; eauto | constructor].
    + unfold bind at 1. run_sleep.
      match goal with |- context [wait_loop port delayMs n ?t] =>
        destruct (IH t) as (ok & s' & new & -> & Htr & Hall & Hp & Hs & Ht) end.
      exists ok, s', (new ++ [EvSleep delayMs; EvProbe port false]).
      split; [reflexivity|]. simpl in Htr, Ht. split; [|split; [|split; [|split]]].
      * rewrite Htr, <- app_assoc. reflexivity.
      * apply Forall_app. split; [exact Hall|].
        constructor; [now right|]. constructor; [left; eauto | constructor].
      * rewrite List.filter_app, length_app. simpl. lia.
      * rewrite List.filter_app, length_app. simpl. lia.
      * lia.
Qed.

(** C9: the wait returns for every port, attempt count and interval; it
    makes at most [attempts] probes and at most [attempts] sleeps, each
    of [delayMs]; and an iteration that finds the spawn-failure flag or
    the premature-exit flag set returns [false] at once, with no further
    probe. *)
Theorem wait_is_bounded (port delayMs : Z) (attempts : nat) (s : State) :
  (∃ ok s' new,
     waitForDebugPort port attempts delayMs s = (Ok ok, s') ∧
     trace (sys s') = new ++ trace (sys s) ∧
     Forall (is_poll port delayMs) new ∧
     (length (List.filter is_probe new) ≤ attempts)%nat ∧
     (length (List.filter is_sleep new) ≤ attempts)%nat ∧
     (tick (sys s') ≤ tick (sys s) + 2 * attempts)%nat) ∧
  (∀ remaining s1, aborted s1 →
     wait_loop port delayMs remaining s1 = (Ok false, s1)).
Proof.
  split; [apply wait_loop_bounded|].
  intros remaining s1. apply wait_loop_aborted.
Qed.

Lemma wait_same_tracking port delayMs attempts :
  framed same_tracking (waitForDebugPort port attempts delayMs).
Proof.
  unfold waitForDebugPort. induction attempts as [|n IH]; simpl.
  - apply framed_ret, same_tracking_refl.
  - frame_with same_tracking same_tracking_refl same_tracking_trans
      ltac:(first [ apply check_same_tracking | apply sleep_same_tracking
                  | exact IH ]).
Qed.

End Wait.

(** ** Debug session establisher *)

Section Session.
Context `{Builtins} `{World}.

(** C2: when the probe of the remembered port fails and the probe of
    the default port succeeds, [ensureChromeDebugging] returns [true],
    the default port becomes the current debug port, the only effects
    are those two probes in that order, and nothing is spawned. *)
Theorem fallback_adopts_default (s : State) :
  probe_reply (tick (sys s)) (currentDebugPort (session s)) = false →
  probe_reply (S (tick (sys s))) DEBUG_PORT = true →
  ∃ s', ensureChromeDebugging s = (Ok true, s') ∧
        currentDebugPort (session s') = DEBUG_PORT ∧
        trace (sys s')
        = EvProbe DEBUG_PORT true
            :: EvProbe (currentDebugPort (session s)) false :: trace (sys s) ∧
        launches s' = launches s.
Proof.
  intros H1 H2. unfold ensureChromeDebugging.
  unfold bind at 1. unfold get at 1. cbv beta iota.
  unfold bind at 1. run_check. rewrite H1. cbv beta iota.
  unfold bind at 1. run_check. rewrite H2. cbv beta iota.
  unfold bind at 1. unfold modify at 1. cbv beta iota.
  unfold bind at 1. run_reader.
  cbv beta iota. unfold bind, modify, ret. cbv beta iota.
  eexists. split; [reflexivity|]. simpl. auto.
Qed.

(** The remembered port is tried first and kept when it answers. *)
Lemma remembered_port_kept (s : State) :
  probe_reply (tick (sys s)) (currentDebugPort (session s)) = true →
  ∃ s', ensureChromeDebugging s = (Ok true, s') ∧
        currentDebugPort (session s') = currentDebugPort (session s) ∧
        trace (sys s')
        = EvProbe (currentDebugPort (session s)) true :: trace (sys s).
Proof.
  intros H1. unfold ensureChromeDebugging.
  unfold bind at 1. unfold get at 1. cbv beta iota.
  unfold bind at 1. run_check. rewrite H1. cbv beta iota.
  unfold bind at 1. run_reader.
  cbv beta iota. unfold bind, modify, ret. cbv beta iota.
  eexists. split; [reflexivity|]. simpl. auto.
Qed.

(** The alternate port is tried last, after the other two have failed. *)
Lemma alternate_port_last (s : State) :
  probe_reply (tick (sys s)) (currentDebugPort (session s)) = false →
  probe_reply (S (tick (sys s))) DEBUG_PORT = false →
  ALT_DEBUG_PORT ≠ DEBUG_PORT →
  probe_reply (S (S (tick (sys s)))) ALT_DEBUG_PORT = true →
  ∃ s', ensureChromeDebugging s = (Ok true, s') ∧
        currentDebugPort (session s') = ALT_DEBUG_PORT ∧
        trace (sys s')
        = EvProbe ALT_DEBUG_PORT true :: EvProbe DEBUG_PORT false
            :: EvProbe (currentDebugPort (session s)) false :: trace (sys s).
Proof.
  intros H1 H2 Hne H3. unfold ensureChromeDebugging.
  unfold bind at 1. unfold get at 1. cbv beta iota.
  unfold bind at 1. run_check. rewrite H1. cbv beta iota.
  unfold bind at 1. run_check. rewrite H2. cbv beta iota.
  unfold bind at 1. unfold probeAlternate.
  apply Z.eqb_neq in Hne. rewrite Hne. change (negb false) with true. cbv beta iota.
  run_check. rewrite H3. cbv beta iota.
  unfold bind at 1. unfold modify at 1. cbv beta iota.
  unfold bind at 1. run_reader.
  cbv beta iota. unfold bind, modify, ret. cbv beta iota.
  eexists. split; [reflexivity|]. simpl. auto.
Qed.

Lemma probeAlternate_same_launches : framed same_launches probeAlternate.
Proof.
  unfold probeAlternate. destruct (negb _);
    [apply check_same_launches | apply framed_ret, same_launches_refl].
Qed.

(** C3: when the probes of the remembered, default and alternate ports
    all fail, the conflict detector reports a running browser and
    force-kill is off, [ensureChromeDebugging] returns [false], the
    status message is the standoff message, which mentions both that
    Chrome is running and the [CHROME_FORCE_KILL=1] option, and nothing
    is spawned. *)
Theorem conflict_standoff (s s1 s2 s3 s4 : State) :
  checkChromeDebugging (currentDebugPort (session s)) s = (Ok false, s1) →
  checkChromeDebugging DEBUG_PORT s1 = (Ok false, s2) →
  probeAlternate s2 = (Ok false, s3) →
  chromeRunning s3 = (Ok true, s4) →
  FORCE_KILL_CHROME = false →
  ∃ s', ensureChromeDebugging s = (Ok false, s') ∧
        lastStatusMessage (session s') = STANDOFF_MESSAGE ∧
        Js.includes (lastStatusMessage (session s')) "Chrome is running" = true ∧
        Js.includes (lastStatusMessage (session s')) "CHROME_FORCE_KILL=1" = true ∧
        launches s' = launches s.
Proof.
  intros H1 H2 H3 H4 Hoff.
  exists (set_lastStatusMessage STANDOFF_MESSAGE s4).
  split; [|split; [reflexivity | split; [reflexivity | split; [reflexivity|]]]].
  - unfold ensureChromeDebugging.
    unfold bind at 1. unfold get at 1. cbv beta iota.
    unfold bind at 1. rewrite H1. cbv beta iota.
    unfold bind at 1. rewrite H2. cbv beta iota.
    unfold bind at 1. rewrite H3. cbv beta iota.
    unfold bind at 1. rewrite H4. cbv beta iota.
    rewrite Hoff. reflexivity.
  - change (launches s4 = launches s).
    pose proof (check_same_launches (currentDebugPort (session s)) s) as L1.
    pose proof (check_same_launches DEBUG_PORT s1) as L2.
    pose proof (probeAlternate_same_launches s2) as L3.
    pose proof (chromeRunning_quiet s3) as (_ & _ & _ & L4).
    unfold after, same_launches in *.
    rewrite H1 in L1. rewrite H2 in L2. rewrite H3 in L3. rewrite H4 in L4.
    simpl in *. congruence.
Qed.

(** The establisher never touches the tracking variables. *)

Lemma remove_existing_same_tracking ps :
  framed same_tracking (remove_existing ps).
Proof.
  induction ps as [|p r IH]; simpl.
  - apply framed_ret, same_tracking_refl.
  - unfold unlinkSync.
    frame_with same_tracking same_tracking_refl same_tracking_trans
      ltac:(first [ exact IH | frame_leaf ]).
Qed.

Lemma forceKillChrome_same_tracking : framed same_tracking forceKillChrome.
Proof.
  unfold forceKillChrome, execSync.
  frame_with same_tracking same_tracking_refl same_tracking_trans
    ltac:(first [ apply remove_existing_same_tracking | frame_leaf ]).
Qed.

Lemma find_existing_same_tracking ps :
  framed same_tracking (find_existing ps).
Proof.
  induction ps as [|p r IH]; simpl.
  - apply framed_ret, same_tracking_refl.
  - frame_with same_tracking same_tracking_refl same_tracking_trans
      ltac:(first [ exact IH | frame_leaf ]).
Qed.

Lemma launch_same_tracking exe port :
  framed same_tracking (launchChromeWithDebugging exe port).
Proof.
  unfold launchChromeWithDebugging, spawn.
  frame_with same_tracking same_tracking_refl same_tracking_trans
    ltac:(first [ apply suspend_same_tracking | frame_leaf ]).
Qed.

Lemma ensureChromeDebugging_same_tracking :
  framed same_tracking ensureChromeDebugging.
Proof.
  unfold ensureChromeDebugging, probeAlternate, findChromeExecutable.
  frame_with same_tracking same_tracking_refl same_tracking_trans
    ltac:(first
      [ apply check_same_tracking
      | apply (framed_weaken quiet), reader_quiet; apply quiet_same_tracking
      | apply (framed_weaken quiet), chromeRunning_quiet; apply quiet_same_tracking
      | apply forceKillChrome_same_tracking
      | apply find_existing_same_tracking
      | apply launch_same_tracking
      | apply wait_same_tracking
      | frame_leaf ]).
Qed.

End Session.

(** ** Tab tracking engine *)

Section Tracking.
Context `{Builtins} `{World}.

Lemma cdp_connect_run (port : Z) (s : State) :
  ∃ e x, cdp_connect port s
         = (match cdp_connect_reply (tick (sys s)) port with
            | Some err => Throw err
            | None => Ok {| client_port := port; subscriptions := [] |}
            end,
            log (EvConnect port) (resumed e x s)).
Proof.
  unfold cdp_connect, bind, get, modify. run_suspend.
  eexists _, _. now destruct (cdp_connect_reply _ _).
Qed.

Lemma setDiscoverTargets_run (s : State) :
  ∃ e x, setDiscoverTargets s
         = (match cdp_discover_reply (tick (sys s)) with
            | Some err => Throw err
            | None => Ok tt
            end,
            resumed e x s).
Proof.
  unfold setDiscoverTargets, bind, get. run_suspend.
  eexists _, _. now destruct (cdp_discover_reply _).
Qed.

Lemma getTargets_run (s : State) :
  ∃ e x, getTargets s
         = (match cdp_targets_reply (tick (sys s)) with
            | TargetsThrows err => Throw err
            | Targets o => Ok (default [] o)
            end,
            resumed e x s).
Proof.
  unfold getTargets, bind, get. run_suspend.
  eexists _, _. destruct (cdp_targets_reply _) as [err|[l|]]; reflexivity.
Qed.

Lemma stop_run (s : State) :
  ∃ s', stopTabTracking s = (Ok tt, s') ∧ tracking s' = stopped ∧
        currentDebugPort (session s') = currentDebugPort (session s) ∧
        mainWindow (session s') = mainWindow (session s).
Proof.
  unfold stopTabTracking, bind, modify, get, try_catch. cbn.
  destruct (cdpClient (tracking s)) as [c|] eqn:Hclient; cbn.
  - run_suspend. eexists. split; [reflexivity|]. repeat split.
  - eexists. split; [reflexivity|]. repeat split.
    unfold stopped. simpl. now rewrite Hclient.
Qed.

Lemma fold_seed_fields (infos : list TargetInfo) (x : Tracking) :
  let y := fold_left (λ acc info, seed_one info acc) infos x in
  cdpClient y = cdpClient x ∧ cdpPort y = cdpPort x ∧
  tabStateStartedAt y = tabStateStartedAt x.
Proof.
  revert x. induction infos as [|info r IH]; intros x; simpl; [auto|].
  destruct (IH (seed_one info x)) as (-> & -> & ->).
  unfold seed_one. destruct (negb _); [auto|]. now destruct (is_devtools _).
Qed.

End Tracking.

Ltac run_connect :=
  match goal with
  | |- context [cdp_connect ?p ?t] =>
      let Hc := fresh "Hc" in
      destruct (cdp_connect_run p t) as (? & ? & Hc); rewrite Hc; clear Hc
  end.

Ltac run_discover :=
  match goal with
  | |- context [setDiscoverTargets ?t] =>
      let Hc := fresh "Hc" in
      destruct (setDiscoverTargets_run t) as (? & ? & Hc); rewrite Hc; clear Hc
  end.

Ltac run_targets :=
  match goal with
  | |- context [getTargets ?t] =>
      let Hc := fresh "Hc" in
      destruct (getTargets_run t) as (? & ? & Hc); rewrite Hc; clear Hc
  end.

Ltac run_stop :=
  match goal with
  | |- context [stopTabTracking ?t] =>
      let Hc := fresh "Hstop" in
      let s' := fresh "s" in
      destruct (stop_run t) as (s' & Hc & ? & ? & ?); rewrite Hc; clear Hc
  end.

Section Start.
Context `{Builtins} `{World}.

Lemma connected_decide (s : State) :
  bool_decide (is_Some (cdpClient (tracking s))) &&
  bool_decide (cdpPort (tracking s) = Some (currentDebugPort (session s))) = true
  ↔ connected s.
Proof.
  unfold connected. rewrite andb_true_iff, !bool_decide_eq_true. reflexivity.
Qed.

Lemma start_probe_fails (s : State) :
  probe_reply (tick (sys s)) (currentDebugPort (session s)) = false →
  ∃ e x, ensureTabTracking s
         = (Ok false,
            log (EvProbe (currentDebugPort (session s)) false) (resumed e x s)).
Proof.
  intros Hprobe. unfold ensureTabTracking.
  unfold bind at 1. unfold get at 1. cbv beta iota.
  unfold bind at 1. run_check. rewrite Hprobe. cbv beta iota. eauto.
Qed.

Lemma start_already_connected (s : State) :
  probe_reply (tick (sys s)) (currentDebugPort (session s)) = true →
  connected s →
  ∃ e x, ensureTabTracking s
         = (Ok true,
            log (EvProbe (currentDebugPort (session s)) true) (resumed e x s)).
Proof.
  intros Hprobe Hconn. unfold ensureTabTracking.
  unfold bind at 1. unfold get at 1. cbv beta iota.
  unfold bind at 1. run_check. rewrite Hprobe. cbv beta iota.
  unfold bind at 1. unfold get at 1. cbv beta iota.
  apply connected_decide in Hconn. simpl. rewrite Hconn. eauto.
Qed.

(** The [catch] block of [ensureTabTracking]. *)
Lemma start_failure (err : JsError) (s : State) :
  ∃ s', (modify (set_lastStatusMessage
                   (Js.or_str (Some (message err))
                      "Failed to start live tab tracking"));;
         stopTabTracking;; ret false) s = (Ok false, s') ∧
        tracking s' = stopped ∧
        currentDebugPort (session s') = currentDebugPort (session s).
Proof.
  unfold bind at 1. unfold modify at 1. cbv beta iota.
  unfold bind at 1. run_stop. eexists. split; [reflexivity|]. split; auto.
Qed.

(** The rest of the [try] block once the target list has arrived. *)
Lemma start_success (infos : list TargetInfo) (port : Z) (s : State) :
  cdpClient (tracking s) = Some {| client_port := port; subscriptions := [] |} →
  ∃ s', (seed infos;;
         subscribe OnTargetCreated;;
         subscribe OnTargetInfoChanged;;
         subscribe OnTargetDestroyed;;
         sendChromeTabsFromState;; ret true) s = (Ok true, s') ∧
        currentDebugPort (session s') = currentDebugPort (session s) ∧
        tracking s'
        = (let seeded :=
             fold_left (λ acc info, seed_one info acc) infos (tracking s) in
           {| cdpClient := Some {| client_port := port; subscriptions := ONE_SET |};
              cdpPort := cdpPort seeded;
              tabStateStartedAt := tabStateStartedAt seeded;
              tabsById := tabsById seeded;
              initialTabIds := initialTabIds seeded |}).
Proof.
  intros Hclient.
  pose proof (fold_seed_fields infos (tracking s)) as (Hc & _ & _).
  rewrite Hclient in Hc.
  unfold bind, seed, subscribe, sendChromeTabsFromState, modify, get, ret.
  simpl. rewrite Hc. simpl. unfold bind. simpl.
  destruct (mainWindow (session s)); simpl;
    (eexists; split; [reflexivity|]; split; reflexivity).
Qed.

Lemma start_fresh (s : State) :
  probe_reply (tick (sys s)) (currentDebugPort (session s)) = true →
  ¬ connected s →
  ∃ ok s',
    ensureTabTracking s = (Ok ok, s') ∧
    currentDebugPort (session s') = currentDebugPort (session s) ∧
    ((ok = false ∧ tracking s' = stopped) ∨
     (ok = true ∧ ∃ t0 infos,
        tracking s' = started (currentDebugPort (session s)) (clock t0) infos)).
Proof.
  intros Hprobe Hconn. unfold ensureTabTracking.
  unfold bind at 1. unfold get at 1. cbv beta iota.
  unfold bind at 1. run_check. rewrite Hprobe.
  change (negb true) with false. cbv beta iota.
  unfold bind at 1. unfold get at 1. cbv beta iota.
  rewrite <- connected_decide in Hconn. apply not_true_is_false in Hconn.
  match goal with
  | |- context [bool_decide (is_Some (cdpClient (tracking ?t))) && ?b] =>
      replace (bool_decide (is_Some (cdpClient (tracking t))) && b)
        with false by (symmetry; exact Hconn)
  end.
  cbv beta iota.
  unfold bind at 1. run_stop. rename H1 into Hstopped, H2 into Hport.
  simpl in Hport.
  unfold bind at 1. unfold modify at 1. cbv beta iota.
  unfold bind at 1. unfold modify at 1. cbv beta iota.
  unfold try_catch at 1.
  unfold bind at 1. unfold get at 1. cbv beta iota.
  unfold bind at 1. run_connect.
  match goal with |- context [cdp_connect_reply ?t ?p] =>
    destruct (cdp_connect_reply t p) as [err|] end.
  { match goal with |- context [bind _ _ ?t] =>
      destruct (start_failure err t) as (s' & -> & Htr & Hp) end.
    exists false, s'. split; [reflexivity|]. simpl in Hp. split; [congruence|].
    now left. }
  unfold bind at 1. unfold modify at 1. cbv beta iota.
  unfold bind at 1. run_discover.
  match goal with |- context [cdp_discover_reply ?t] =>
    destruct (cdp_discover_reply t) as [err|] end.
  { match goal with |- context [bind _ _ ?t] =>
      destruct (start_failure err t) as (s' & -> & Htr & Hp) end.
    exists false, s'. split; [reflexivity|]. simpl in Hp. split; [congruence|].
    now left. }
  unfold bind at 1. run_targets.
  match goal with |- context [cdp_targets_reply ?t] =>
    destruct (cdp_targets_reply t) as [err|infos] end.
  { match goal with |- context [bind _ _ ?t] =>
      destruct (start_failure err t) as (s' & -> & Htr & Hp) end.
    exists false, s'. split; [reflexivity|]. simpl in Hp. split; [congruence|].
    now left. }
  match goal with |- context [bind (seed ?l) _ ?t] =>
    destruct (start_success l (currentDebugPort (session s)) t)
      as (s' & -> & Hp & Htr) end.
  { simpl. now rewrite Hport. }
  exists true, s'. split; [reflexivity|]. simpl in Hp. split; [congruence|].
  right. split; [reflexivity|].
  exists (tick (sys s0)), (default [] infos).
  rewrite Htr. unfold started. simpl. rewrite Hstopped, Hport. simpl.
  pose proof (fold_seed_fields (default [] infos)
    {| cdpClient := Some {| client_port := currentDebugPort (session s);
                            subscriptions := [] |};
       cdpPort := Some (currentDebugPort (session s));
       tabStateStartedAt := clock (tick (sys s0));
       tabsById := ∅; initialTabIds := ∅ |}) as (_ & Hq & Ht).
  simpl in Hq, Ht. now rewrite Hq, Ht.
Qed.

End Start.

(** ** Lifecycle notifications *)

Section Notifications.
Context `{Builtins} `{World}.

Lemma send_tracking (s : State) :
  ∃ s', sendChromeTabsFromState s = (Ok tt, s') ∧ tracking s' = tracking s.
Proof.
  unfold sendChromeTabsFromState, bind, get, modify, ret.
  destruct (negb (mainWindow (session s))); eauto.
Qed.

Lemma targetCreated_run (ti : option TargetInfo) (s : State) :
  ∃ s', targetCreated ti s = (Ok tt, s') ∧
        tick (sys s') = tick (sys s) ∧
        tracking s'
        = notified (TargetCreated ti) (clock (tick (sys s))) (tracking s).
Proof.
  unfold targetCreated, notified, tracked. destruct ti as [ti|]; [|eauto].
  destruct (String.eqb (type ti) "page"); simpl; [|eauto].
  destruct (is_devtools (url ti)); simpl; [eauto|].
  unfold bind, get, modify. simpl.
  match goal with |- context [sendChromeTabsFromState ?t] =>
    destruct (send_tracking t) as (s' & Hs & Htr);
    assert (tick (sys s') = tick (sys t)) as Htick
      by (revert Hs; unfold sendChromeTabsFromState, bind, get, modify, ret;
          destruct (negb _); intros [= <-]; reflexivity);
    rewrite Hs end.
  exists s'. split; [reflexivity|]. split; [exact Htick|]. now rewrite Htr.
Qed.

Lemma targetInfoChanged_run (ti : option TargetInfo) (s : State) :
  ∃ s', targetInfoChanged ti s = (Ok tt, s') ∧
        tick (sys s') = tick (sys s) ∧
        tracking s'
        = notified (TargetInfoChanged ti) (clock (tick (sys s))) (tracking s).
Proof.
  unfold targetInfoChanged, notified, tracked. destruct ti as [ti|]; [|eauto].
  destruct (String.eqb (type ti) "page"); simpl; [|eauto].
  destruct (is_devtools (url ti)); simpl; [eauto|].
  unfold bind, get, modify. simpl.
  match goal with |- context [sendChromeTabsFromState ?t] =>
    destruct (send_tracking t) as (s' & Hs & Htr);
    assert (tick (sys s') = tick (sys t)) as Htick
      by (revert Hs; unfold sendChromeTabsFromState, bind, get, modify, ret;
          destruct (negb _); intros [= <-]; reflexivity);
    rewrite Hs end.
  exists s'. split; [reflexivity|]. split; [exact Htick|]. now rewrite Htr.
Qed.

Lemma targetDestroyed_run (id : string) (s : State) :
  ∃ s', targetDestroyed id s = (Ok tt, s') ∧
        tick (sys s') = tick (sys s) ∧
        tracking s'
        = notified (TargetDestroyed id) (clock (tick (sys s))) (tracking s).
Proof.
  unfold targetDestroyed, notified. destruct (Js.nonempty id); simpl; [|eauto].
  unfold bind, modify. simpl.
  match goal with |- context [sendChromeTabsFromState ?t] =>
    destruct (send_tracking t) as (s' & Hs & Htr);
    assert (tick (sys s') = tick (sys t)) as Htick
      by (revert Hs; unfold sendChromeTabsFromState, bind, get, modify, ret;
          destruct (negb _); intros [= <-]; reflexivity);
    rewrite Hs end.
  exists s'. split; [reflexivity|]. split; [exact Htick|]. now rewrite Htr.
Qed.

(** With one set of listeners, a notification runs exactly the listener
    of its kind, once. *)
Lemma deliver_one_set (n : Notification) (c : Client) (s : State) :
  cdpClient (tracking s) = Some c → subscriptions c = ONE_SET →
  ∃ s', deliver n s = (Ok tt, s') ∧
        tracking s' = notified n (clock (S (tick (sys s)))) (tracking s).
Proof.
  intros Hc Hsubs. unfold deliver, bind, get. cbv beta iota. rewrite Hc.
  unfold modify at 1. cbv beta iota. rewrite Hsubs.
  unfold ONE_SET, run_listeners, listener.
  destruct n as [ti|ti|id]; unfold bind, ret; cbv beta iota.
  - match goal with |- context [targetCreated ti ?t] =>
      destruct (targetCreated_run ti t) as (s' & -> & _ & Htr) end.
    eexists. split; [reflexivity|]. exact Htr.
  - match goal with |- context [targetInfoChanged ti ?t] =>
      destruct (targetInfoChanged_run ti t) as (s' & -> & _ & Htr) end.
    eexists. split; [reflexivity|]. exact Htr.
  - match goal with |- context [targetDestroyed id ?t] =>
      destruct (targetDestroyed_run id t) as (s' & -> & _ & Htr) end.
    eexists. split; [reflexivity|]. exact Htr.
Qed.

Lemma deliver_disconnected (n : Notification) (s : State) :
  cdpClient (tracking s) = None → deliver n s = (Ok tt, s).
Proof. intros Hc. unfold deliver, bind, get. cbv beta iota. now rewrite Hc. Qed.

End Notifications.

(** ** Invariants of the tracking variables *)

Section Invariants.
Context `{Builtins} `{World}.

Lemma or_str_not_devtools (u : option string) (d : string) :
  is_devtools u = false → Js.startsWith d DEVTOOLS_PREFIX = false →
  Js.startsWith (Js.or_str u d) DEVTOOLS_PREFIX = false.
Proof.
  destruct u as [u|]; simpl; [|auto]. intros Hu Hd.
  now destruct (Js.nonempty u).
Qed.

Lemma no_devtools_insert (tabs : gmap string Tab) (id : string) (t : Tab) :
  no_devtools tabs → Js.startsWith (tab_url t) DEVTOOLS_PREFIX = false →
  no_devtools (<[ id := t ]> tabs).
Proof.
  intros Htabs Ht id' t' Hlook.
  apply lookup_insert_Some in Hlook as [[_ <-] | [_ Hlook]]; eauto.
Qed.

Lemma no_devtools_delete (tabs : gmap string Tab) (id : string) :
  no_devtools tabs → no_devtools (delete id tabs).
Proof.
  intros Htabs id' t' Hlook. apply lookup_delete_Some in Hlook as [_ Hlook].
  eauto.
Qed.

Lemma no_devtools_empty : no_devtools ∅.
Proof. intros id t Hlook. now rewrite lookup_empty in Hlook. Qed.

Lemma seed_one_no_devtools (info : TargetInfo) (x : Tracking) :
  no_devtools (tabsById x) → no_devtools (tabsById (seed_one info x)).
Proof.
  intros Hx. unfold seed_one. destruct (negb _); [exact Hx|].
  destruct (is_devtools (url info)) eqn:Hdev; [exact Hx|]. simpl.
  apply no_devtools_insert; [exact Hx|]. simpl.
  now apply or_str_not_devtools.
Qed.

Lemma fold_seed_no_devtools (infos : list TargetInfo) (x : Tracking) :
  no_devtools (tabsById x) →
  no_devtools (tabsById (fold_left (λ acc info, seed_one info acc) infos x)).
Proof.
  revert x. induction infos as [|info r IH]; intros x Hx; [exact Hx|].
  simpl. apply IH. now apply seed_one_no_devtools.
Qed.

Lemma notified_no_devtools (n : Notification) (now : Z) (x : Tracking) :
  no_devtools (tabsById x) → no_devtools (tabsById (notified n now x)).
Proof.
  intros Hx. unfold notified, tracked.
  destruct n as [[ti|]|[ti|]|id]; try exact Hx.
  - destruct (String.eqb _ _); [|exact Hx].
    destruct (is_devtools (url ti)) eqn:Hdev; [exact Hx|]. simpl.
    apply no_devtools_insert; [exact Hx|]. simpl.
    now apply or_str_not_devtools.
  - destruct (String.eqb _ _); [|exact Hx].
    destruct (is_devtools (url ti)) eqn:Hdev; [exact Hx|]. simpl.
    apply no_devtools_insert; [exact Hx|]. simpl.
    apply or_str_not_devtools; [exact Hdev|].
    destruct (tabsById x !! targetId ti) as [prev|] eqn:Hprev; simpl; [|reflexivity].
    specialize (Hx _ _ Hprev). now destruct (Js.nonempty (tab_url prev)).
  - destruct (Js.nonempty id); [|exact Hx]. simpl.
    now apply no_devtools_delete.
Qed.

Lemma notified_client (n : Notification) (now : Z) (x : Tracking) :
  cdpClient (notified n now x) = cdpClient x.
Proof.
  unfold notified. destruct n as [[ti|]|[ti|]|id]; try reflexivity.
  - now destruct (tracked ti).
  - now destruct (tracked ti).
  - now destruct (Js.nonempty id).
Qed.

Lemma healthy_stopped : healthy stopped.
Proof.
  split; [apply no_devtools_empty|]. split; [discriminate | reflexivity].
Qed.

Lemma healthy_started (port t0 : Z) (infos : list TargetInfo) :
  healthy (started port t0 infos).
Proof.
  split; [|split].
  - apply fold_seed_no_devtools, no_devtools_empty.
  - now intros c [= <-].
  - discriminate.
Qed.

Lemma healthy_notified (n : Notification) (now : Z) (x : Tracking) :
  healthy x → is_Some (cdpClient x) → healthy (notified n now x).
Proof.
  intros (Hdev & Hsubs & _) [c Hc]. split; [|split].
  - now apply notified_no_devtools.
  - rewrite notified_client. exact Hsubs.
  - rewrite notified_client, Hc. discriminate.
Qed.

(** The outcome of every step on the tracking variables. *)
Lemma step_tracking (a : Action) (s : State) :
  healthy (tracking s) →
  tracking (step a s) = tracking s ∨
  tracking (step a s) = stopped ∨
  (∃ port t0 infos, tracking (step a s) = started port (clock t0) infos) ∨
  (∃ n t, is_Some (cdpClient (tracking s)) ∧
          tracking (step a s) = notified n (clock t) (tracking s)).
Proof.
  intros Hs. destruct a as [| | |port|n]; simpl.
  - left. apply ensureChromeDebugging_same_tracking.
  - destruct (probe_reply (tick (sys s)) (currentDebugPort (session s))) eqn:Hp.
    + destruct (bool_decide (is_Some (cdpClient (tracking s))) &&
                bool_decide (cdpPort (tracking s)
                             = Some (currentDebugPort (session s)))) eqn:Hc.
      * apply connected_decide in Hc.
        destruct (start_already_connected s Hp Hc) as (e & x & ->). now left.
      * assert (¬ connected s) as Hn
          by (rewrite <- connected_decide, Hc; discriminate).
        destruct (start_fresh s Hp Hn)
          as (ok & s' & -> & _ & [[_ Htr] | [_ (t0 & infos & Htr)]]); simpl.
        -- now right; left.
        -- right; right; left. eauto.
    + destruct (start_probe_fails s Hp) as (e & x & ->). now left.
  - destruct (stop_run s) as (s' & -> & Htr & _). now right; left.
  - now left.
  - destruct (cdpClient (tracking s)) as [c|] eqn:Hc.
    + destruct Hs as (_ & Hsubs & _).
      destruct (deliver_one_set n c s Hc (Hsubs c Hc)) as (s' & -> & Htr).
      right; right; right. exists n, (S (tick (sys s))). split; [eauto|exact Htr].
    + rewrite deliver_disconnected by exact Hc. now left.
Qed.

(** A property of the tracking variables that holds when tracking is
    stopped, after every start and after every notification holds in
    every state the supervisor reaches. *)
Lemma run_invariant (J : Tracking → Prop) :
  J stopped →
  (∀ port t0 infos, J (started port (clock t0) infos)) →
  (∀ n t x, healthy x → is_Some (cdpClient x) → J x → J (notified n (clock t) x)) →
  ∀ acts s, healthy (tracking s) → J (tracking s) →
    healthy (tracking (run acts s)) ∧ J (tracking (run acts s)).
Proof.
  intros Jstop Jstart Jnote acts. unfold run.
  induction acts as [|a r IH]; intros s Hs Js; [auto|]. simpl. apply IH.
  - destruct (step_tracking a s Hs)
      as [-> | [-> | [(port & t0 & infos & ->) | (n & t & Hc & ->)]]];
      auto using healthy_stopped, healthy_started, healthy_notified.
  - destruct (step_tracking a s Hs)
      as [-> | [-> | [(port & t0 & infos & ->) | (n & t & Hc & ->)]]]; auto.
Qed.

Lemma reachable_healthy (fs : gmap string File) (window : bool)
    (acts : list Action) :
  healthy (tracking (run acts (init_state fs window))).
Proof.
  apply (run_invariant (λ _, True)); auto. apply healthy_stopped.
Qed.

(** C7: whatever the snapshots and notifications, and whatever else the
    supervisor does in between, no entry of the registry ever has a URL
    that starts with [devtools://]. *)
Theorem filter_invariant (fs : gmap string File) (window : bool)
    (acts : list Action) :
  no_devtools (tabsById (tracking (run acts (init_state fs window)))).
Proof. apply reachable_healthy. Qed.

End Invariants.

(** ** Starting tracking twice, and a failed start *)

Section Epochs.
Context `{Builtins} `{World}.

(** C10: when the first probe of [ensureTabTracking] fails, the call
    returns [false] and the tracking variables (the connection, the
    tracked port, the start time, the registry and the initial-id set)
    are what they were; the probe is the only effect. *)
Theorem failed_probe_leaves_tracking (s : State) :
  probe_reply (tick (sys s)) (currentDebugPort (session s)) = false →
  ∃ s', ensureTabTracking s = (Ok false, s') ∧
        tracking s' = tracking s ∧
        trace (sys s')
        = EvProbe (currentDebugPort (session s)) false :: trace (sys s).
Proof.
  intros Hprobe. destruct (start_probe_fails s Hprobe) as (e & x & ->).
  eexists. split; [reflexivity|]. split; reflexivity.
Qed.

(** C5, as amended: in a state the supervisor has reached and in which
    tracking is connected to the current port, two calls of
    [ensureTabTracking] whose probes of that port succeed both return
    [true], leave the tracking variables untouched and make no effect
    other than their probes; the connection still holds exactly one set
    of listeners. *)
Theorem tracking_start_idempotent (fs : gmap string File) (window : bool)
    (acts : list Action) :
  let s := run acts (init_state fs window) in
  let port := currentDebugPort (session s) in
  connected s →
  probe_reply (tick (sys s)) port = true →
  probe_reply (S (tick (sys s))) port = true →
  ∃ s1 s2 c,
    ensureTabTracking s = (Ok true, s1) ∧
    ensureTabTracking s1 = (Ok true, s2) ∧
    tracking s1 = tracking s ∧ tracking s2 = tracking s ∧
    cdpClient (tracking s2) = Some c ∧ subscriptions c = ONE_SET ∧
    trace (sys s2) = EvProbe port true :: EvProbe port true :: trace (sys s).
Proof.
  intros s port Hconn Hp1 Hp2.
  destruct (start_already_connected s Hp1 Hconn) as (e1 & x1 & Hrun1).
  set (s1 := log (EvProbe port true) (resumed e1 x1 s)) in *.
  assert (connected s1) as Hconn1 by exact Hconn.
  destruct (start_already_connected s1 Hp2 Hconn1) as (e2 & x2 & Hrun2).
  destruct Hconn as [[c Hc] Hport].
  destruct (reachable_healthy fs window acts) as (_ & Hsubs & _).
  exists s1, (log (EvProbe port true) (resumed e2 x2 s1)), c.
  split; [exact Hrun1|]. split; [exact Hrun2|].
  repeat split; [exact Hc | exact (Hsubs c Hc)].
Qed.

End Epochs.

(** ** The changed notification *)

Section ChangedEntry.
Context `{Builtins} `{World}.

(** What a [changed] notification leaves in the registry, whatever the
    clock: a zero [createdAt], which no running clock produces, is the
    one timestamp [||] does not keep. *)
Lemma changed_entry (fs : gmap string File) (window : bool)
    (acts : list Action) (ti : TargetInfo) (prev : Tab) :
  let s := run acts (init_state fs window) in
  type ti = "page" →
  tabsById (tracking s) !! targetId ti = Some prev →
  ∃ s' entry,
    deliver (TargetInfoChanged (Some ti)) s = (Ok tt, s') ∧
    tabsById (tracking s') !! targetId ti = Some entry ∧
    (Js.truthy (title ti) = false → tab_title entry = tab_title prev) ∧
    (Js.truthy (url ti) = false → tab_url entry = tab_url prev) ∧
    (createdAt prev ≠ 0 → createdAt entry = createdAt prev) ∧
    isInitial entry = isInitial prev.
Proof.
  intros s Hpage Hprev.
  destruct (reachable_healthy fs window acts) as (_ & Hsubs & Hnone).
  fold s in Hsubs, Hnone.
  destruct (cdpClient (tracking s)) as [c|] eqn:Hc;
    [|rewrite (Hnone eq_refl), lookup_empty in Hprev; discriminate].
  destruct (deliver_one_set (TargetInfoChanged (Some ti)) c s Hc (Hsubs c eq_refl))
    as (s' & Hrun & Htr).
  exists s'. rewrite Htr. unfold notified, tracked. rewrite Hpage. simpl.
  destruct (is_devtools (url ti)); simpl.
  - exists prev. repeat split; auto.
  - eexists. split; [exact Hrun|]. split; [apply lookup_insert_eq|].
    unfold changed_tab. rewrite Hprev. simpl. repeat split.
    + destruct (title ti) as [t|]; simpl;
        [|intros _; apply or_str_empty_string].
      destruct (Js.nonempty t); [discriminate|]. intros _.
      apply or_str_empty_string.
    + destruct (url ti) as [u|]; simpl;
        [|intros _; apply or_str_empty_string].
      destruct (Js.nonempty u); [discriminate|]. intros _.
      apply or_str_empty_string.
    + intros Hstamp. apply Z.eqb_neq in Hstamp. now rewrite Hstamp.
Qed.

End ChangedEntry.

Section Changed.
Context `{Builtins} `{World}.
Hypothesis clock_nonzero : ∀ t, clock t ≠ 0.

Lemma stamped_insert (tabs : gmap string Tab) (id : string) (t : Tab) :
  stamped tabs → createdAt t ≠ 0 → stamped (<[ id := t ]> tabs).
Proof.
  intros Htabs Ht id' t' Hlook.
  apply lookup_insert_Some in Hlook as [[_ <-] | [_ Hlook]]; eauto.
Qed.

Lemma seed_one_stamped (info : TargetInfo) (x : Tracking) :
  tabStateStartedAt x ≠ 0 → stamped (tabsById x) →
  tabStateStartedAt (seed_one info x) ≠ 0 ∧
  stamped (tabsById (seed_one info x)).
Proof.
  intros Ht Hx. unfold seed_one. destruct (negb _); [auto|].
  destruct (is_devtools _); [auto|]. simpl. split; [exact Ht|].
  now apply stamped_insert.
Qed.

Lemma fold_seed_stamped (infos : list TargetInfo) (x : Tracking) :
  tabStateStartedAt x ≠ 0 → stamped (tabsById x) →
  stamped (tabsById (fold_left (λ acc info, seed_one info acc) infos x)).
Proof.
  revert x. induction infos as [|info r IH]; intros x Ht Hx; [exact Hx|].
  simpl. destruct (seed_one_stamped info x Ht Hx) as [Ht' Hx']. now apply IH.
Qed.

Lemma notified_stamped (n : Notification) (t : nat) (x : Tracking) :
  stamped (tabsById x) → stamped (tabsById (notified n (clock t) x)).
Proof.
  intros Hx. unfold notified.
  destruct n as [[ti|]|[ti|]|id]; try exact Hx.
  - destruct (tracked ti); [|exact Hx]. simpl.
    apply stamped_insert; [exact Hx | apply clock_nonzero].
  - destruct (tracked ti); [|exact Hx]. simpl.
    apply stamped_insert; [exact Hx|]. simpl.
    destruct (tabsById x !! targetId ti) as [prev|] eqn:Hprev;
      [|apply clock_nonzero].
    destruct (createdAt prev =? 0) eqn:Hz; [apply clock_nonzero|].
    now apply Z.eqb_neq.
  - destruct (Js.nonempty id); [|exact Hx]. simpl.
    intros id' t' Hlook. apply lookup_delete_Some in Hlook as [_ Hlook]. eauto.
Qed.

Lemma stamped_empty : stamped ∅.
Proof. intros id t Hlook. now rewrite lookup_empty in Hlook. Qed.

Lemma reachable_stamped (fs : gmap string File) (window : bool)
    (acts : list Action) :
  stamped (tabsById (tracking (run acts (init_state fs window)))).
Proof.
  apply (run_invariant (λ x, stamped (tabsById x))).
  - exact stamped_empty.
  - intros port t0 infos. unfold started. simpl.
    apply fold_seed_stamped; simpl; [apply clock_nonzero | exact stamped_empty].
  - intros n t x _ _. apply notified_stamped.
  - apply healthy_stopped.
  - exact stamped_empty.
Qed.

(** C6: in every state the supervisor reaches under a clock that never
    reads zero, a [changed] notification about a page target that is in
    the registry leaves an entry for it that has the previous title if
    the incoming title is empty, the previous URL if the incoming URL is
    empty, and the previous [createdAt] and [isInitial]. *)
Theorem changed_merge (fs : gmap string File) (window : bool)
    (acts : list Action) (ti : TargetInfo) (prev : Tab) :
  let s := run acts (init_state fs window) in
  type ti = "page" →
  tabsById (tracking s) !! targetId ti = Some prev →
  ∃ s' entry,
    deliver (TargetInfoChanged (Some ti)) s = (Ok tt, s') ∧
    tabsById (tracking s') !! targetId ti = Some entry ∧
    (Js.truthy (title ti) = false → tab_title entry = tab_title prev) ∧
    (Js.truthy (url ti) = false → tab_url entry = tab_url prev) ∧
    createdAt entry = createdAt prev ∧
    isInitial entry = isInitial prev.
Proof.
  intros s Hpage Hprev.
  pose proof (reachable_stamped fs window acts _ _ Hprev) as Hstamp.
  destruct (changed_entry fs window acts ti prev Hpage Hprev)
    as (s' & entry & Hrun & Hlook & Htitle & Hurl & Hcreated & Hinitial).
  exists s', entry. repeat split; auto.
Qed.

End Changed.

(* ================================================================== *)
(** * Instances on sample environments                                 *)
(* ================================================================== *)

(** Discharge the next hypothesis of [H] by evaluation. *)
Ltac evaluate H :=
  match type of H with
  | ?P → _ =>
      let Hp := fresh "Hp" in
      assert P as Hp by (vm_compute; first [ reflexivity | lia ]);
      specialize (H Hp); clear Hp
  end.

(** C2 on a host where the remembered port 7000 is closed and the
    default port 9222 answers. *)
Lemma fallback_adopts_default_witness :
  let W := Sample.linux (Sample.only 9222) Sample.silent in
  let s := set_currentDebugPort 7000 (@init_state Sample.posix W ∅ true) in
  ∃ s', @ensureChromeDebugging Sample.posix W s = (Ok true, s') ∧
        currentDebugPort (session s') = 9222 ∧
        trace (sys s') = [EvProbe 9222 true; EvProbe 7000 false] ∧
        launches s' = 0%nat.
Proof.
  intros W s. subst s.
  pose proof (@fallback_adopts_default Sample.posix W
                (set_currentDebugPort 7000 (@init_state Sample.posix W ∅ true)))
    as Hthm.
  evaluate Hthm. evaluate Hthm.
  destruct Hthm as (s' & Hrun & Hport & Htrace & Hlaunch).
  exists s'. repeat split; assumption.
Defined.

(** C3 on a host where no port answers and [pgrep] lists a process. *)
Lemma conflict_standoff_witness :
  let W := Sample.linux Sample.never Sample.listing in
  let s := @init_state Sample.posix W ∅ true in
  ∃ s', @ensureChromeDebugging Sample.posix W s = (Ok false, s') ∧
        lastStatusMessage (session s') = STANDOFF_MESSAGE ∧
        launches s' = 0%nat.
Proof.
  intros W s. subst s.
  pose (s1 := after (@checkChromeDebugging W 9222) (@init_state Sample.posix W ∅ true)).
  pose (s2 := after (@checkChromeDebugging W 9222) s1).
  pose (s3 := after (@probeAlternate Sample.posix W) s2).
  pose (s4 := after (@chromeRunning Sample.posix W) s3).
  pose proof (@conflict_standoff Sample.posix W
                (@init_state Sample.posix W ∅ true) s1 s2 s3 s4) as Hthm.
  evaluate Hthm. evaluate Hthm. evaluate Hthm. evaluate Hthm. evaluate Hthm.
  destruct Hthm as (s' & Hrun & Hmsg & _ & _ & Hlaunch).
  exists s'. repeat split; assumption.
Defined.

(** C4, as stated, fails: on Linux a singleton lock under the user-data
    root is present, the lock signal fires, and the detector still
    reports no conflict. *)
Lemma lock_signal_ignored_off_windows :
  let W := Sample.linux Sample.never Sample.silent in
  let s := @init_state Sample.posix W Sample.locked_fs true in
  fst (@chromeProfileLikelyLocked Sample.posix W s) = Ok true ∧
  fst (@chromeProcessesRunning Sample.posix W s) = Ok false ∧
  fst (@chromeRunning Sample.posix W s) = Ok false.
Proof. vm_compute. repeat split. Qed.

(** C4 on a host where every enumeration command fails. *)
Lemma detector_signals_witness :
  let W := Sample.linux Sample.never Sample.broken in
  let s := @init_state Sample.posix W Sample.locked_fs true in
  ∃ s1, @chromeRunning Sample.posix W s = (Ok false, s1).
Proof.
  intros W s. subst s.
  destruct (@detector_signals Sample.posix W
              (@init_state Sample.posix W Sample.locked_fs true))
    as (running & locked & s1 & _ & _ & _ & Hrun & Hdegrade).
  exists s1. rewrite Hrun.
  rewrite Hdegrade by (intros t cmd; eexists; reflexivity).
  reflexivity.
Defined.

(** C5, as stated, fails: tracking is connected to the current port,
    the port has stopped answering, and the call returns [false]. *)
Lemma connected_start_can_fail :
  let W := Sample.linux (Sample.before 4) Sample.silent in
  let s := @run Sample.posix W [StartTracking]
             (@init_state Sample.posix W ∅ true) in
  cdpClient (tracking s)
  = Some {| client_port := 9222; subscriptions := ONE_SET |} ∧
  cdpPort (tracking s) = Some (currentDebugPort (session s)) ∧
  fst (@ensureTabTracking W s) = Ok false.
Proof. vm_compute. repeat split. Qed.

(** C5 on a host whose port keeps answering. *)
Lemma tracking_start_idempotent_witness :
  let W := Sample.linux Sample.always Sample.silent in
  let s := @run Sample.posix W [StartTracking]
             (@init_state Sample.posix W ∅ true) in
  ∃ s1 s2,
    @ensureTabTracking W s = (Ok true, s1) ∧
    @ensureTabTracking W s1 = (Ok true, s2) ∧
    tracking s2 = tracking s.
Proof.
  intros W s. subst s.
  pose proof (@tracking_start_idempotent Sample.posix W ∅ true [StartTracking])
    as Hthm.
  cbv zeta in Hthm.
  match type of Hthm with
  | ?P → _ =>
      assert P as Hconn by (vm_compute; split; [eexists|]; reflexivity);
      specialize (Hthm Hconn); clear Hconn
  end.
  evaluate Hthm. evaluate Hthm.
  destruct Hthm as (s1 & s2 & c & H1 & H2 & _ & Htr & _).
  exists s1, s2. split; [exact H1|]. split; [exact H2 | exact Htr].
Defined.

(** C6 on the page [T1] seeded by a start: a notification with an empty
    title and no URL keeps the whole entry. *)
Lemma changed_merge_witness :
  let W := Sample.linux Sample.always Sample.silent in
  let s := @run Sample.posix W [StartTracking]
             (@init_state Sample.posix W ∅ true) in
  ∃ s' entry,
    @deliver W (TargetInfoChanged (Some Sample.INBOX_BLANK)) s = (Ok tt, s') ∧
    tabsById (tracking s') !! targetId Sample.INBOX_BLANK = Some entry ∧
    tab_title entry = "Inbox" ∧
    tab_url entry = "https://mail.example/inbox" ∧
    createdAt entry = 1700000000001 ∧
    isInitial entry = true.
Proof.
  intros W s. subst s.
  assert (∀ t, @clock W t ≠ 0) as Hclock by (intros t; simpl; lia).
  pose proof (@changed_merge Sample.posix W Hclock ∅ true [StartTracking]
                Sample.INBOX_BLANK
                {| tab_id := "T1"; tab_title := "Inbox";
                   tab_url := "https://mail.example/inbox";
                   createdAt := 1700000000001; isInitial := true |}) as Hthm.
  cbv zeta in Hthm. evaluate Hthm. evaluate Hthm.
  destruct Hthm
    as (s' & entry & Hrun & Hlook & Htitle & Hurl & Hcreated & Hinitial).
  exists s', entry. split; [exact Hrun|]. split; [exact Hlook|].
  split; [exact (Htitle eq_refl)|]. split; [exact (Hurl eq_refl)|].
  split; assumption.
Defined.

(** C8 on a host without a persisted-state file. *)
Lemma metadata_degrades_gracefully_witness :
  let W := Sample.linux Sample.never Sample.silent in
  let s := @init_state Sample.posix W ∅ true in
  @readActiveProfileName Sample.posix W s = (Ok JNull, s) ∧
  @getAvailableProfiles Sample.posix W s = (Ok [], s).
Proof.
  intros W s. subst s.
  destruct (@metadata_degrades_gracefully Sample.posix W
              (@init_state Sample.posix W ∅ true))
    as (_ & _ & Hactive & Hlist).
  split; [apply Hactive | apply Hlist]; left; reflexivity.
Defined.

(** C9 on a state whose premature-exit flag is set. *)
Lemma wait_is_bounded_witness :
  let W := Sample.linux Sample.never Sample.silent in
  let s := set_launchedChromeExited true (@init_state Sample.posix W ∅ true) in
  @waitForDebugPort W 9222 DEFAULT_ATTEMPTS DEFAULT_DELAY_MS s = (Ok false, s).
Proof.
  intros W s.
  destruct (@wait_is_bounded W 9222 DEFAULT_DELAY_MS DEFAULT_ATTEMPTS s)
    as [_ Habort].
  apply Habort. right. reflexivity.
Defined.

(** C10 on a host whose port answers once and then falls silent: tracking
    has been started and holds the page [T1] when the probe of a second
    start fails. *)
Lemma failed_probe_leaves_tracking_witness :
  let W := Sample.linux (Sample.before 1) Sample.silent in
  let s := @run Sample.posix W [StartTracking]
             (@init_state Sample.posix W ∅ true) in
  ∃ s', @ensureTabTracking W s = (Ok false, s') ∧
        tracking s' = tracking s ∧
        cdpClient (tracking s')
        = Some {| client_port := 9222; subscriptions := ONE_SET |} ∧
        cdpPort (tracking s') = Some 9222 ∧
        tabStateStartedAt (tracking s') = 1700000000001 ∧
        tabsById (tracking s') !! "T1"
        = Some {| tab_id := "T1"; tab_title := "Inbox";
                  tab_url := "https://mail.example/inbox";
                  createdAt := 1700000000001; isInitial := true |} ∧
        bool_decide ("T1" ∈ initialTabIds (tracking s')) = true.
Proof.
  intros W s. subst s.
  pose proof (@failed_probe_leaves_tracking W
                (@run Sample.posix W [StartTracking]
                   (@init_state Sample.posix W ∅ true))) as Hthm.
  evaluate Hthm.
  destruct Hthm as (s' & Hrun & Htr & _).
  exists s'. split; [exact Hrun|]. split; [exact Htr|]. rewrite Htr.
  vm_compute. repeat split.
Defined.

(* ================================================================== *)
(** * Runs of the program on sample environments                        *)
(* ================================================================== *)

Example posix_paths :
  Posix.normalize "/a//b/../c/" = "/a/c/" ∧
  Posix.basename "/a/c/" = "c" ∧
  Posix.dirname "/a/c" = "/a" ∧
  Posix.join [EmptyString; "Google"; "Chrome"] = "Google/Chrome".
Proof. vm_compute. repeat split. Qed.

(** A path to the root container is the root; the configured name is
    kept. *)
Example root_container_is_root :
  let W := Sample.world OtherPlatform
             [("CHROME_PROFILE_DIR", "/data/User Data/");
              ("CHROME_PROFILE_NAME", "Work")]
             Sample.never Sample.silent [] in
  @profile_selection Sample.posix W = (Some "Work", Some "/data/User Data/").
Proof. vm_compute. reflexivity. Qed.

(** No port answers, nothing is running: the browser is spawned with the
    default port and the wait succeeds on its first probe. *)
Example launch_when_nothing_answers :
  let W := Sample.linux (Sample.from 5) Sample.silent in
  let r := @ensureChromeDebugging Sample.posix W
             (@init_state Sample.posix W ∅ true) in
  fst r = Ok true ∧
  currentDebugPort (session (snd r)) = 9222 ∧
  lastStatusMessage (session (snd r))
  = "Launched Chrome with remote debugging on port 9222" ∧
  rev (trace (sys (snd r)))
  = [EvProbe 9222 false; EvProbe 9222 false; EvProbe 9223 false;
     EvExec "pgrep -x chrome || true";
     EvSpawn "chrome"
       ["--remote-debugging-port=9222";
        "--remote-debugging-address=127.0.0.1";
        "--user-data-dir=/home/u/.config/google-chrome"; "--new-window";
        "--no-first-run"; "--no-default-browser-check"; "about:blank"];
     EvProbe 9222 true].
Proof. vm_compute. repeat split. Qed.

(** A well-formed persisted-state file. *)
Example profiles_listed :
  let W := Sample.linux Sample.never Sample.silent in
  let s := @init_state Sample.parsing W Sample.state_fs true in
  fst (@getAvailableProfiles Sample.parsing W s)
  = Ok [{| pd_id := "Default"; pd_name := JStr "Person 1";
           pd_path := "/home/u/.config/google-chrome/Default" |};
        {| pd_id := "Profile 1"; pd_name := JStr "Profile 1";
           pd_path := "/home/u/.config/google-chrome/Profile 1" |}] ∧
  fst (@readActiveProfileName Sample.parsing W s) = Ok (JStr "Default").
Proof. vm_compute. repeat split. Qed.

(** The snapshot keeps the page and drops the internal-debugger page
    and the worker. *)
Example snapshot_filtered :
  let s := @run Sample.posix Sample.crowded [StartTracking]
             (@init_state Sample.posix Sample.crowded ∅ true) in
  map_to_list (tabsById (tracking s))
  = [("T1", {| tab_id := "T1"; tab_title := "Inbox";
               tab_url := "https://mail.example/inbox";
               createdAt := 1700000000001; isInitial := true |})] ∧
  elements (initialTabIds (tracking s)) = ["T1"].
Proof. vm_compute. repeat split. Qed.

(** Notifications: an internal-debugger page is not added, a change to
    an internal-debugger URL is dropped, a new page is added as not
    initial, a destroyed page is removed. *)
Example notifications_applied :
  let s := @run Sample.posix Sample.crowded
             [StartTracking;
              Notify (TargetCreated (Some Sample.DEVTOOLS_PAGE));
              Notify (TargetInfoChanged
                        (Some {| targetId := "T1"; type := "page";
                                 title := Some "Sent";
                                 url := Some "devtools://x" |}));
              Notify (TargetCreated
                        (Some {| targetId := "T9"; type := "page";
                                 title := None; url := Some "about:blank" |}));
              Notify (TargetDestroyed "T1")]
             (@init_state Sample.posix Sample.crowded ∅ true) in
  map_to_list (tabsById (tracking s))
  = [("T9", {| tab_id := "T9"; tab_title := EmptyString;
               tab_url := "about:blank";
               createdAt := 1700000000007; isInitial := false |})].
Proof. vm_compute. reflexivity. Qed.

(* ================================================================== *)
(** * Further properties of the session establisher                     *)
(* ================================================================== *)

Lemma steady_refl s : steady s s.
Proof. repeat split. Qed.

Lemma steady_trans a b c : steady a b → steady b c → steady a c.
Proof.
  unfold steady, same_settings.
  intros ((?&?&?&?&?&?&?&?)&?&?) ((?&?&?&?&?&?&?&?)&?&?).
  repeat split; congruence.
Qed.

Lemma calm_refl s : calm s s.
Proof. repeat split. Qed.

Lemma calm_trans a b c : calm a b → calm b c → calm a c.
Proof. unfold calm. intros (?&?&?) (?&?&?). repeat split; congruence. Qed.

Lemma quiet_calm s s' : quiet s s' → calm s s'.
Proof. intros (?&?&?&?). repeat split; assumption. Qed.

Section Outcome.
Context `{Builtins} `{World}.

Lemma check_steady port : framed steady (checkChromeDebugging port).
Proof.
  intros s. unfold after. destruct (check_run port s) as (e & x & ->).
  repeat split.
Qed.

Lemma sleep_steady d : framed steady (sleep d).
Proof.
  intros s. unfold after. destruct (sleep_run d s) as (e & x & ->).
  repeat split.
Qed.

Lemma wait_loop_steady port delayMs remaining :
  framed steady (wait_loop port delayMs remaining).
Proof.
  induction remaining as [|n IH]; simpl.
  - apply framed_ret, steady_refl.
  - frame_with steady steady_refl steady_trans
      ltac:(first [ apply check_steady | apply sleep_steady | exact IH ]).
Qed.

(** A wait that returns [true] has just seen the port answer. *)
Lemma wait_loop_true port delayMs remaining (s s' : State) :
  wait_loop port delayMs remaining s = (Ok true, s') →
  newest s' = Some (EvProbe port true).
Proof.
  revert s. induction remaining as [|n IH]; intros s; simpl.
  - unfold ret. discriminate.
  - unfold bind at 1. unfold get at 1. cbv beta iota.
    destruct (bool_decide _); [unfold ret; discriminate|].
    destruct (launchedChromeExited _); [unfold ret; discriminate|].
    unfold bind at 1. run_check.
    destruct (probe_reply (tick (sys s)) port); cbv beta iota.
    + unfold ret. intros [= <-]. reflexivity.
    + unfold bind at 1. run_sleep. apply IH.
Qed.

Lemma poll_not_spawn port delayMs (new : list Event) :
  Forall (is_poll port delayMs) new → List.filter is_spawn new = [].
Proof.
  induction 1 as [|e r He _ IH]; [reflexivity|]. simpl.
  destruct He as [[ok ->] | ->]; exact IH.
Qed.

Lemma wait_loop_calm_launches port delayMs remaining (s : State) :
  ∃ ok s', wait_loop port delayMs remaining s = (Ok ok, s') ∧
           launches s' = launches s ∧ steady s s'.
Proof.
  destruct (wait_loop_bounded port delayMs remaining s)
    as (ok & s' & new & Hrun & Htr & Hall & _).
  exists ok, s'. split; [exact Hrun|]. split.
  - unfold launches. rewrite Htr, List.filter_app.
    now rewrite (poll_not_spawn _ _ _ Hall).
  - pose proof (wait_loop_steady port delayMs remaining s) as Hst.
    unfold after in Hst. now rewrite Hrun in Hst.
Qed.

Lemma unlinkSync_calm p : framed calm (unlinkSync p).
Proof.
  unfold unlinkSync.
  frame_with calm calm_refl calm_trans ltac:(frame_leaf).
Qed.

Lemma remove_existing_calm ps : framed calm (remove_existing ps).
Proof.
  induction ps as [|p r IH]; simpl.
  - apply framed_ret, calm_refl.
  - frame_with calm calm_refl calm_trans
      ltac:(first [ exact IH | apply unlinkSync_calm | frame_leaf ]).
Qed.

Lemma forceKillChrome_calm : framed calm forceKillChrome.
Proof.
  unfold forceKillChrome.
  frame_with calm calm_refl calm_trans
    ltac:(first [ apply remove_existing_calm
                | apply (framed_weaken quiet), execSync_quiet; apply quiet_calm
                | frame_leaf ]).
Qed.

Lemma forceKillChrome_run (s : State) :
  ∃ s', forceKillChrome s = (Ok tt, s') ∧ calm s s'.
Proof.
  pose proof (forceKillChrome_calm s) as Hc. unfold after in Hc. revert Hc.
  unfold forceKillChrome. destruct (negb FORCE_KILL_CHROME).
  - intros Hc. exists s. split; [reflexivity | exact Hc].
  - match goal with |- context [try_catch ?m _] =>
      destruct (try_catch_returns m tt s) as [[] ->] end.
    eauto.
Qed.

Lemma find_existing_run (candidates : list string) (s : State) :
  find_existing candidates s
  = (Ok (List.find (λ p, bool_decide (is_Some (files (sys s) !! p))) candidates), s).
Proof.
  induction candidates as [|c r IH]; [reflexivity|]. simpl.
  unfold bind, existsSync. simpl.
  destruct (bool_decide (is_Some (files (sys s) !! c))); [reflexivity | exact IH].
Qed.

Lemma launch_run (executable : string) (port : Z) (s : State) :
  ∃ e x,
    let s2 := resumed e x
                (log (EvSpawn executable (buildChromeArgs port s))
                   (set_launchedChromeExited false
                      (set_launchedChromeSpawnError None s))) in
    launchChromeWithDebugging executable port s
    = match spawn_reply (tick (sys s)) executable (buildChromeArgs port s) with
      | Spawned child =>
          (Ok (child, if port =? 0 then DEBUG_PORT else port),
           set_currentUserDataDir (Some (chromeUserDataRoot s)) s2)
      | SpawnFailed err =>
          (Throw err, set_launchedChromeSpawnError (Some err) s2)
      end.
Proof.
  unfold launchChromeWithDebugging, spawn.
  unfold bind at 1. unfold modify at 1. cbv beta iota.
  unfold bind at 1. unfold modify at 1. cbv beta iota.
  unfold bind at 1. unfold get at 1. cbv beta iota.
  unfold bind at 1. unfold bind at 1. unfold get at 1. cbv beta iota.
  unfold bind at 1. unfold modify at 1. cbv beta iota.
  unfold bind at 1. run_suspend.
  eexists _, _. cbv zeta.
  change (buildChromeArgs port
            (set_launchedChromeExited false (set_launchedChromeSpawnError None s)))
    with (buildChromeArgs port s).
  change (tick (sys (set_launchedChromeExited false
                       (set_launchedChromeSpawnError None s))))
    with (tick (sys s)).
  destruct (spawn_reply _ _ _) as [child|err]; reflexivity.
Qed.

End Outcome.

Section OutcomeTheorems.
Context `{Builtins} `{World}.

Lemma launch_message_nonempty (err : JsError) :
  Js.nonempty
    (Js.or_str (Some (message err))
       (Js.or_str (Some (error_to_string err)) "Failed to launch Chrome")) = true.
Proof.
  unfold error_to_string. simpl.
  destruct (Js.nonempty (message err)) eqn:Hm; [exact Hm | reflexivity].
Qed.

(** Every way [ensureChromeDebugging] can end. *)
Lemma ensure_outcome (s : State) :
  ∃ ok s',
    ensureChromeDebugging s = (Ok ok, s') ∧
    (launches s' ≤ S (launches s))%nat ∧
    (ok = true →
       newest s' = Some (EvProbe (currentDebugPort (session s')) true) ∧
       success_message s') ∧
    (ok = false → failure_message s').
Proof.
  unfold ensureChromeDebugging.
  unfold bind at 1. unfold get at 1. cbv beta iota.
  unfold bind at 1. run_check.
  destruct (probe_reply (tick (sys s)) (currentDebugPort (session s)));
    cbv beta iota.
  { unfold bind at 1. run_reader. cbv beta iota. unfold bind, modify, ret.
    cbv beta iota. eexists true, _. split; [reflexivity|].
    split; [simpl; unfold launches; simpl; lia|].
    split; [|discriminate]. intros _. split; [reflexivity | now left]. }
  unfold bind at 1. run_check.
  destruct (probe_reply (S (tick (sys s))) DEBUG_PORT); cbv beta iota.
  { unfold bind at 1. unfold modify at 1. cbv beta iota.
    unfold bind at 1. run_reader. cbv beta iota. unfold bind, modify, ret.
    cbv beta iota. eexists true, _. split; [reflexivity|].
    split; [simpl; unfold launches; simpl; lia|].
    split; [|discriminate]. intros _. split; [reflexivity | now left]. }
  unfold bind at 1. unfold probeAlternate.
  destruct (negb (ALT_DEBUG_PORT =? DEBUG_PORT)); cbv beta iota;
    [ run_check;
      destruct (probe_reply (S (S (tick (sys s)))) ALT_DEBUG_PORT); cbv beta iota;
      [ unfold bind at 1; unfold modify at 1; cbv beta iota;
        unfold bind at 1; run_reader; cbv beta iota; unfold bind, modify, ret;
        cbv beta iota; eexists true, _; split; [reflexivity|];
        split; [simpl; unfold launches; simpl; lia|];
        split; [|discriminate]; intros _; split; [reflexivity | now left]
      | ]
    | unfold ret at 1; cbv beta iota ].
  all: unfold bind at 1;
    match goal with |- context [chromeRunning ?t] =>
      destruct (chromeRunning_run t)
        as (running & locked & s1 & _ & (Hs1 & _ & _ & Hl1) & _ & _ & ->) end;
    unfold launches in Hl1; simpl in Hl1;
    match goal with |- context [if ?b then _ else _] =>
      destruct b end; cbv beta iota;
    [ unfold bind, modify, ret; eexists false, _; split; [reflexivity|];
      split; [unfold launches; simpl; lia|];
      split; [discriminate|]; intros _; now left
    | ].
  all: unfold bind at 1;
    destruct (forceKillChrome_run s1) as (s2 & -> & (Hs2 & _ & Hl2));
    unfold launches in Hl2;
    unfold bind at 1; unfold findChromeExecutable; rewrite find_existing_run;
    cbv beta iota.
  all: unfold bind at 1; unfold try_catch at 1; unfold bind at 1;
    match goal with |- context [launchChromeWithDebugging ?exe ?p ?t] =>
      destruct (launch_run exe p t) as (? & ? & Hrun) end;
    cbv zeta in Hrun; rewrite Hrun; clear Hrun.
  all: match goal with |- context [spawn_reply ?t ?exe ?args] =>
      destruct (spawn_reply t exe args) as [child|err] end.
  2, 4: unfold bind, modify, ret; simpl negb; cbv beta iota;
        eexists false, _; (split; [reflexivity|]);
        (split; [unfold launches; simpl; lia|]);
        (split; [discriminate|]); intros _; right; left;
        eexists; (split; [reflexivity | apply launch_message_nonempty]).
  all: unfold bind at 1; unfold modify at 1; cbv beta iota;
    unfold bind at 1; unfold modify at 1; cbv beta iota;
    unfold ret at 1; cbv beta iota; change (negb true) with false;
    cbv beta iota;
    unfold bind at 1; unfold get at 1; cbv beta iota;
    unfold bind at 1; unfold waitForDebugPort.
  all: match goal with |- context [wait_loop ?p ?d ?n ?t] =>
      destruct (wait_loop_calm_launches p d n t)
        as (ok & s4 & Hwait & Hl4 & Hst4);
      pose proof (wait_loop_true p d n t s4) as Htrue
    end;
    rewrite Hwait; cbv beta iota.
  all: unfold bind at 1; run_reader; cbv beta iota;
    unfold bind at 1; unfold modify at 1; cbv beta iota;
    destruct Hst4 as ((_ & _ & _ & Hport4 & _) & _);
    unfold launches in Hl4; simpl in Hl4, Hport4.
  all: destruct ok;
    [ change (negb true) with false | change (negb false) with true ];
    cbv beta iota; unfold bind, modify, ret.
  1, 3: eexists true, _; (split; [reflexivity|]);
      (split; [unfold launches; simpl; lia|]);
      (split; [|discriminate]); intros _; split;
      [ unfold newest in *; simpl; rewrite Hport4; now apply Htrue
      | now right ].
  all: eexists false, _; (split; [reflexivity|]);
      (split; [unfold launches; simpl; lia|]);
      (split; [discriminate|]); intros _; right; right;
      eexists; reflexivity.
Qed.

(** X1: whenever [ensureChromeDebugging] returns, with either verdict, it
    has started at most one browser process and has left the tracking
    variables alone. *)
Theorem session_spawns_at_most_once (s s' : State) (ok : bool) :
  ensureChromeDebugging s = (Ok ok, s') →
  (launches s' ≤ S (launches s))%nat ∧ tracking s' = tracking s.
Proof.
  intros Hrun. split.
  - destruct (ensure_outcome s) as (ok1 & s1 & Hrun1 & Hl & _).
    rewrite Hrun in Hrun1. injection Hrun1 as <- <-. exact Hl.
  - pose proof (ensureChromeDebugging_same_tracking s) as Htr.
    unfold after in Htr. now rewrite Hrun in Htr.
Qed.

(** X2: when [ensureChromeDebugging] returns [true], the newest event is a
    successful probe of the port it has adopted, and the status message
    names that port. *)
Theorem session_success_is_probed (s s' : State) :
  ensureChromeDebugging s = (Ok true, s') →
  newest s' = Some (EvProbe (currentDebugPort (session s')) true) ∧
  success_message s'.
Proof.
  intros Hrun. destruct (ensure_outcome s) as (ok & s1 & Hrun1 & _ & Hok & _).
  rewrite Hrun in Hrun1. injection Hrun1 as <- <-. now apply Hok.
Qed.

(** X3: when [ensureChromeDebugging] returns [false], the status message is
    the standoff message, a launch failure with its reason, or the
    report that the debug port did not open on the current port. *)
Theorem session_failure_is_explained (s s' : State) :
  ensureChromeDebugging s = (Ok false, s') → failure_message s'.
Proof.
  intros Hrun. destruct (ensure_outcome s) as (ok & s1 & Hrun1 & _ & _ & Hno).
  rewrite Hrun in Hrun1. injection Hrun1 as <- <-. now apply Hno.
Qed.

End OutcomeTheorems.

(* ================================================================== *)
(** * Further properties of the launcher and the detector               *)
(* ================================================================== *)

Lemma find_first {A} (f : A → bool) (l : list A) :
  match List.find f l with
  | Some c => ∃ before rest, l = before ++ c :: rest ∧ f c = true ∧
                             ∀ b, In b before → f b = false
  | None => ∀ c, In c l → f c = false
  end.
Proof.
  induction l as [|a r IH]; simpl; [tauto|].
  destruct (f a) eqn:Ha.
  - exists [], r. repeat split; [exact Ha | intros b []].
  - destruct (List.find f r) as [c|].
    + destruct IH as (before & rest & -> & Hc & Hb).
      exists (a :: before), rest. repeat split; [exact Hc|].
      intros b [<- | Hin]; auto.
    + intros c [<- | Hin]; auto.
Qed.

Section Launcher.
Context `{Builtins} `{World}.

(** X4: [findChromeExecutable] leaves the state alone and returns the first
    candidate of the platform's list that exists on disk, or nothing
    when none of them exists. *)
Theorem findChromeExecutable_first (s : State) :
  ∃ found,
    findChromeExecutable s = (Ok found, s) ∧
    match found with
    | Some c =>
        ∃ before rest,
          executableCandidates = before ++ c :: rest ∧
          is_Some (files (sys s) !! c) ∧
          ∀ b, In b before → files (sys s) !! b = None
    | None => ∀ c, In c executableCandidates → files (sys s) !! c = None
    end.
Proof.
  unfold findChromeExecutable. rewrite find_existing_run. eexists.
  split; [reflexivity|].
  pose proof (find_first (λ p, bool_decide (is_Some (files (sys s) !! p)))
                executableCandidates) as Hfind.
  destruct (List.find _ _) as [c|].
  - destruct Hfind as (before & rest & Heq & Hc & Hb).
    exists before, rest. split; [exact Heq|].
    split; [now apply bool_decide_eq_true in Hc|].
    intros b Hin. specialize (Hb b Hin). apply bool_decide_eq_false in Hb.
    destruct (files (sys s) !! b); [exfalso; eauto | reflexivity].
  - intros c Hin. specialize (Hfind c Hin). apply bool_decide_eq_false in Hfind.
    destruct (files (sys s) !! c); [exfalso; eauto | reflexivity].
Qed.

Lemma unlinkSync_ok (p : string) (s : State) :
  unlink_reply (tick (sys s)) p = None →
  unlinkSync p s
  = (Ok tt, set_files (delete p (files (sys s)))
              (log (EvUnlink p) (set_tick (S (tick (sys s))) s))).
Proof.
  intros Hok. unfold unlinkSync, bind, get, modify. simpl. now rewrite Hok.
Qed.

Lemma remove_existing_ok (ps : list string) (s : State) :
  (∀ t p, unlink_reply t p = None) →
  ∃ s', remove_existing ps s = (Ok tt, s') ∧
        session s' = session s ∧
        (∀ p, In p ps → files (sys s') !! p = None) ∧
        (∀ q, ¬ In q ps → files (sys s') !! q = files (sys s) !! q).
Proof.
  intros Hok. revert s. induction ps as [|p r IH]; intros s.
  - exists s. split; [reflexivity|]. split; [reflexivity|].
    split; [intros p [] | reflexivity].
  - simpl. unfold bind at 1. unfold existsSync at 1. cbv beta iota.
    destruct (bool_decide (is_Some (files (sys s) !! p))) eqn:Hp.
    + unfold bind at 1. rewrite unlinkSync_ok by apply Hok. cbv beta iota.
      match goal with |- context [remove_existing r ?t] =>
        destruct (IH t) as (s' & -> & Hsess & Hgone & Hkept) end.
      exists s'. split; [reflexivity|]. split; [exact Hsess|]. split.
      * intros q [<- | Hin]; [|auto].
        destruct (in_dec string_dec p r) as [Hin | Hout]; [auto|].
        rewrite (Hkept p Hout). simpl. apply lookup_delete_eq.
      * intros q Hq. rewrite Hkept by (intros Hin; apply Hq; now right).
        simpl. apply lookup_delete_ne. intros ->. apply Hq. now left.
    + unfold bind at 1. unfold ret at 1. cbv beta iota.
      destruct (IH s) as (s' & -> & Hsess & Hgone & Hkept).
      exists s'. split; [reflexivity|]. split; [exact Hsess|]. split.
      * intros q [<- | Hin]; [|auto].
        destruct (in_dec string_dec p r) as [Hin | Hout]; [auto|].
        rewrite (Hkept p Hout). apply bool_decide_eq_false in Hp.
        destruct (files (sys s) !! p); [exfalso; eauto | reflexivity].
      * intros q Hq. apply Hkept. intros Hin. apply Hq. now right.
Qed.

Lemma execSync_kept (cmd : string) (s : State) :
  ∃ r, execSync cmd s = (r, log (EvExec cmd) (set_tick (S (tick (sys s))) s)).
Proof. rewrite execSync_run. eauto. Qed.

(** X5: with force-kill enabled, a kill command that succeeds (or, on
    Windows, fails with status 128) and deletions that succeed,
    [forceKillChrome] removes every singleton-lock artifact of the root
    and of the selected profile and no other file, so that the lock
    detector then reports no lock. *)
Theorem forceKill_clears_locks (s : State) :
  FORCE_KILL_CHROME = true →
  (∀ t cmd, (∃ out, exec_reply t cmd = ExecOut out) ∨
            (∃ e, exec_reply t cmd = ExecThrows e ∧ platform = Win32 ∧
                  status e = Some 128)) →
  (∀ t p, unlink_reply t p = None) →
  ∃ s', forceKillChrome s = (Ok tt, s') ∧
        (∀ p, In p (lockCandidates s) → files (sys s') !! p = None) ∧
        (∀ q, ¬ In q (lockCandidates s) → files (sys s') !! q = files (sys s) !! q) ∧
        chromeProfileLikelyLocked s' = (Ok false, s').
Proof.
  intros Hforce Hkill Hunlink.
  assert (∃ s1, (match platform with
                 | Win32 =>
                     try_catch
                       (execSync "taskkill /F /IM chrome.exe /T";; ret tt)
                       (λ err, if bool_decide (status err = Some 128) then ret tt
                               else throw err)
                 | Darwin =>
                     execSync ("pkill -9 " +:+ dq +:+ "Google Chrome" +:+ dq +:+
                               " || true");; ret tt
                 | OtherPlatform => execSync "pkill -9 chrome || true";; ret tt
                 end) s = (Ok tt, s1) ∧
                session s1 = session s ∧ files (sys s1) = files (sys s))
    as (s1 & Hrun1 & Hsess1 & Hfiles1).
  { destruct platform eqn:Hpf; unfold try_catch, bind; rewrite execSync_run;
      match goal with |- context [exec_reply ?t ?c] =>
        destruct (Hkill t c) as [[out ->] | (e & -> & Hw & Hst)] end;
      try discriminate; unfold ret; cbv beta iota;
      try (eexists; repeat split; reflexivity).
    rewrite bool_decide_eq_true_2 by exact Hst.
    eexists; repeat split; reflexivity. }
  destruct (remove_existing_ok (lockCandidates s1) s1 Hunlink)
    as (s' & Hrun2 & Hsess2 & Hgone & Hkept).
  assert (lockCandidates s1 = lockCandidates s) as Hsame
    by (unfold lockCandidates, chromeUserDataRoot; now rewrite Hsess1).
  rewrite Hsame in Hgone, Hkept.
  exists s'. split; [|split; [exact Hgone | split]].
  - unfold forceKillChrome. rewrite Hforce.
    change (negb true) with false. cbv iota.
    unfold try_catch at 1. unfold bind at 1. rewrite Hrun1. cbv beta iota.
    unfold try_catch at 1. unfold bind at 1. unfold get at 1. cbv beta iota.
    now rewrite Hrun2.
  - intros q Hq. now rewrite (Hkept q Hq), Hfiles1.
  - unfold chromeProfileLikelyLocked, try_catch, bind, get.
    rewrite some_exist_run. f_equal. f_equal.
    assert (lockCandidates s' = lockCandidates s) as ->
      by (unfold lockCandidates, chromeUserDataRoot; now rewrite Hsess2, Hsess1).
    apply not_true_is_false. intros Hex. apply existsb_exists in Hex
      as (p & Hin & Hp). apply bool_decide_eq_true in Hp.
    rewrite (Hgone p Hin) in Hp. now destruct Hp.
Qed.

(** X6: on Windows, when [taskkill] fails with a status other than 128,
    [forceKillChrome] gives up without deleting any file; it still does
    not throw. *)
Theorem forceKill_gives_up_on_failed_kill (s : State) (e : JsError) :
  FORCE_KILL_CHROME = true →
  platform = Win32 →
  exec_reply (tick (sys s)) "taskkill /F /IM chrome.exe /T" = ExecThrows e →
  status e ≠ Some 128 →
  ∃ s', forceKillChrome s = (Ok tt, s') ∧
        files (sys s') = files (sys s) ∧
        trace (sys s') = EvExec "taskkill /F /IM chrome.exe /T" :: trace (sys s).
Proof.
  intros Hforce Hpf Hexec Hst. unfold forceKillChrome.
  rewrite Hforce, Hpf. change (negb true) with false. cbv iota.
  unfold try_catch at 1. unfold bind at 1. unfold try_catch at 1.
  unfold bind at 1. rewrite execSync_run, Hexec. cbv beta iota.
  rewrite bool_decide_eq_false_2 by exact Hst. unfold throw, ret.
  eexists. split; [reflexivity|]. split; reflexivity.
Qed.

(** Without force-kill [forceKillChrome] does nothing at all. *)
Lemma forceKill_disabled (s : State) :
  FORCE_KILL_CHROME = false → forceKillChrome s = (Ok tt, s).
Proof. intros Hoff. unfold forceKillChrome. now rewrite Hoff. Qed.

(** X7: on Windows a PowerShell count that is a finite number decides
    alone: a process is reported exactly when the count is positive, and
    no second command is run. *)
Theorem windows_count_decides (s : State) (out : string) (n : Z) :
  platform = Win32 →
  exec_reply (tick (sys s)) POWERSHELL_COUNT = ExecOut out →
  Number_of_string (Js.trim out) = Some n →
  ∃ s1, chromeProcessesRunning s = (Ok (0 <? n), s1) ∧
        trace (sys s1) = EvExec POWERSHELL_COUNT :: trace (sys s).
Proof.
  intros Hpf Hout Hn. unfold chromeProcessesRunning. rewrite Hpf.
  unfold try_catch at 1. unfold bind at 1. unfold try_catch at 1.
  unfold bind at 1. rewrite execSync_run, Hout. cbv beta iota.
  unfold ret at 1. rewrite Hn. simpl. unfold ret.
  eexists. split; reflexivity.
Qed.

(** X8: on Windows, when PowerShell fails or prints something that is no
    finite number, [tasklist] is run next and a process is reported
    exactly when its output, in lower case, contains the quoted image
    name. *)
Theorem windows_tasklist_fallback (s : State) (listing : string) :
  platform = Win32 →
  (∃ err, exec_reply (tick (sys s)) POWERSHELL_COUNT = ExecThrows err) ∨
  (∃ out, exec_reply (tick (sys s)) POWERSHELL_COUNT = ExecOut out ∧
          Number_of_string (Js.trim out) = None) →
  exec_reply (S (tick (sys s))) TASKLIST = ExecOut listing →
  ∃ s1, chromeProcessesRunning s
        = (Ok (Js.includes (Js.toLowerCase listing)
                 (dq +:+ "chrome.exe" +:+ dq)), s1) ∧
        trace (sys s1)
        = EvExec TASKLIST :: EvExec POWERSHELL_COUNT :: trace (sys s).
Proof.
  intros Hpf Hps Hlist. unfold chromeProcessesRunning. rewrite Hpf.
  unfold try_catch at 1. unfold bind at 1. unfold try_catch at 1.
  unfold bind at 1. rewrite execSync_run.
  destruct Hps as [[err ->] | (out & -> & Hnan)]; cbv beta iota.
  - unfold ret at 1. cbv beta iota. unfold bind at 1.
    rewrite execSync_run. simpl tick. rewrite Hlist. unfold ret.
    eexists. split; reflexivity.
  - unfold ret at 1. rewrite Hnan. simpl. unfold bind at 1.
    rewrite execSync_run. simpl tick. rewrite Hlist. unfold ret.
    eexists. split; reflexivity.
Qed.

End Launcher.

(* ================================================================== *)
(** * Further properties of the waiting loop                            *)
(* ================================================================== *)

Section Waiting.
Context `{World}.

Lemma suspend_uneventful (s : State) :
  uneventful → suspend s = (Ok tt, set_tick (S (tick (sys s))) s).
Proof.
  intros [Hexit Herr]. unfold suspend, modify. f_equal.
  destruct (launchedChrome (session s)); [|reflexivity].
  now rewrite Hexit, Herr.
Qed.

Lemma wait_loop_round (port delayMs : Z) (n : nat) (s : State) :
  uneventful → ¬ aborted s → probe_reply (tick (sys s)) port = false →
  wait_loop port delayMs (S n) s
  = wait_loop port delayMs n
      (log (EvSleep delayMs)
         (set_tick (S (S (tick (sys s))))
            (log (EvProbe port false) (set_tick (S (tick (sys s))) s)))).
Proof.
  intros Hquiet Hab Hprobe. simpl. unfold bind at 1. unfold get at 1.
  cbv beta iota.
  rewrite bool_decide_eq_false_2 by (intros ?; apply Hab; now left).
  destruct (launchedChromeExited (session s)) eqn:Hexit;
    [exfalso; apply Hab; now right|].
  unfold bind at 1. unfold checkChromeDebugging, bind, get.
  rewrite suspend_uneventful by exact Hquiet. unfold modify, ret, sleep, bind.
  rewrite Hprobe. rewrite suspend_uneventful by exact Hquiet. reflexivity.
Qed.

Lemma wait_loop_last (port delayMs : Z) (n : nat) (s : State) :
  uneventful → ¬ aborted s → probe_reply (tick (sys s)) port = true →
  wait_loop port delayMs (S n) s
  = (Ok true, log (EvProbe port true) (set_tick (S (tick (sys s))) s)).
Proof.
  intros Hquiet Hab Hprobe. simpl. unfold bind at 1. unfold get at 1.
  cbv beta iota.
  rewrite bool_decide_eq_false_2 by (intros ?; apply Hab; now left).
  destruct (launchedChromeExited (session s)) eqn:Hexit;
    [exfalso; apply Hab; now right|].
  unfold bind at 1. unfold checkChromeDebugging, bind, get.
  rewrite suspend_uneventful by exact Hquiet. unfold modify, ret.
  now rewrite Hprobe.
Qed.

(** X9: when no abort flag is set, the browser process stays silent and the
    port never answers, [waitForDebugPort] uses up its whole budget: it
    returns false after exactly [attempts] probes, each followed by one
    sleep of [delayMs], and changes nothing but the clock and the log. *)
Theorem wait_exhausts_budget (port delayMs : Z) (attempts : nat) (s : State) :
  uneventful → ¬ aborted s →
  (∀ j, (j < attempts)%nat → probe_reply (tick (sys s) + 2 * j)%nat port = false) →
  ∃ s', waitForDebugPort port attempts delayMs s = (Ok false, s') ∧
        trace (sys s') = polls port delayMs attempts ++ trace (sys s) ∧
        tick (sys s') = (tick (sys s) + 2 * attempts)%nat ∧
        steady s s'.
Proof.
  intros Hquiet. unfold waitForDebugPort. revert s.
  induction attempts as [|n IH]; intros s Hab Hclosed.
  - exists s. split; [reflexivity|]. split; [reflexivity|].
    split; [lia | apply steady_refl].
  - rewrite wait_loop_round; [|exact Hquiet|exact Hab|].
    2: { specialize (Hclosed 0%nat). rewrite Nat.add_0_r in Hclosed.
         apply Hclosed. lia. }
    match goal with |- context [wait_loop port delayMs n ?t] =>
      destruct (IH t) as (s' & -> & Htr & Htick & Hst) end.
    + exact Hab.
    + intros j Hj. simpl tick.
      replace (S (S (tick (sys s))) + 2 * j)%nat
        with (tick (sys s) + 2 * S j)%nat by lia.
      apply Hclosed. lia.
    + exists s'. split; [reflexivity|]. simpl in Htr, Htick.
      split; [|split; [lia|]].
      * rewrite Htr. unfold polls.
        rewrite <- (Nat.add_1_r n), repeat_app, concat_app.
        simpl. rewrite <- app_assoc. reflexivity.
      * eapply steady_trans; [|exact Hst]. repeat split.
Qed.

(** X10: when no abort flag is set and the browser process stays silent,
    [waitForDebugPort] returns true at the first probe that is answered,
    provided that probe is within the budget: after [k] unanswered probes
    and [k] sleeps it probes once more and stops without sleeping. *)
Theorem wait_stops_at_first_answer
    (port delayMs : Z) (attempts k : nat) (s : State) :
  uneventful → ¬ aborted s → (k < attempts)%nat →
  (∀ j, (j < k)%nat → probe_reply (tick (sys s) + 2 * j)%nat port = false) →
  probe_reply (tick (sys s) + 2 * k)%nat port = true →
  ∃ s', waitForDebugPort port attempts delayMs s = (Ok true, s') ∧
        trace (sys s')
        = EvProbe port true :: polls port delayMs k ++ trace (sys s) ∧
        tick (sys s') = S (tick (sys s) + 2 * k)%nat ∧
        steady s s'.
Proof.
  intros Hquiet. unfold waitForDebugPort. revert s attempts.
  induction k as [|k IH]; intros s attempts Hab Hlt Hclosed Hopen.
  - destruct attempts as [|n]; [lia|].
    rewrite Nat.add_0_r in Hopen.
    rewrite wait_loop_last by assumption.
    eexists. split; [reflexivity|]. split; [reflexivity|].
    split; [simpl; lia | repeat split].
  - destruct attempts as [|n]; [lia|].
    rewrite wait_loop_round; [|exact Hquiet|exact Hab|].
    2: { specialize (Hclosed 0%nat). rewrite Nat.add_0_r in Hclosed.
         apply Hclosed. lia. }
    match goal with |- context [wait_loop port delayMs n ?t] =>
      destruct (IH t n) as (s' & -> & Htr & Htick & Hst) end.
    + exact Hab.
    + lia.
    + intros j Hj. simpl tick.
      replace (S (S (tick (sys s))) + 2 * j)%nat
        with (tick (sys s) + 2 * S j)%nat by lia.
      apply Hclosed. lia.
    + simpl tick.
      replace (S (S (tick (sys s))) + 2 * k)%nat
        with (tick (sys s) + 2 * S k)%nat by lia.
      exact Hopen.
    + exists s'. split; [reflexivity|]. simpl in Htr, Htick.
      split; [|split; [lia|]].
      * rewrite Htr. unfold polls.
        rewrite <- (Nat.add_1_r k), repeat_app, concat_app.
        simpl. rewrite <- app_assoc. reflexivity.
      * eapply steady_trans; [|exact Hst]. repeat split.
Qed.

End Waiting.

(* ================================================================== *)
(** * Further properties of the tracking engine                         *)
(* ================================================================== *)

Section Epoch.
Context `{Builtins} `{World}.

Lemma stop_cases (s : State) :
  ∃ s', stopTabTracking s = (Ok tt, s') ∧ tracking s' = stopped ∧
        same_settings s s' ∧ files (sys s') = files (sys s) ∧
        trace (sys s')
        = match cdpClient (tracking s) with
          | Some c => EvClose (client_port c) :: trace (sys s)
          | None => trace (sys s)
          end.
Proof.
  unfold stopTabTracking, bind, modify, get, try_catch. cbn.
  destruct (cdpClient (tracking s)) as [c|] eqn:Hclient; cbn.
  - run_suspend. eexists. split; [reflexivity|]. repeat split.
  - eexists. split; [reflexivity|]. repeat split.
    unfold stopped. simpl. now rewrite Hclient.
Qed.

Lemma seed_one_tracked (info : TargetInfo) (x : Tracking) :
  seed_one info x
  = if tracked info
    then {| cdpClient := cdpClient x; cdpPort := cdpPort x;
            tabStateStartedAt := tabStateStartedAt x;
            tabsById := <[ targetId info := seeded_tab info (tabStateStartedAt x) ]>
                          (tabsById x);
            initialTabIds := {[ targetId info ]} ∪ initialTabIds x |}
    else x.
Proof.
  unfold seed_one, tracked.
  destruct (String.eqb _ _); [|reflexivity]. now destruct (is_devtools _).
Qed.

Lemma fold_seed_entries (infos : list TargetInfo) (x : Tracking) :
  let y := fold_left (λ acc info, seed_one info acc) infos x in
  let listed id :=
    ∃ info, In info infos ∧ tracked info = true ∧ targetId info = id in
  (∀ id t, tabsById y !! id = Some t →
     tabsById x !! id = Some t ∨
     ∃ info, In info infos ∧ tracked info = true ∧ targetId info = id ∧
             t = seeded_tab info (tabStateStartedAt x)) ∧
  (∀ id, is_Some (tabsById y !! id) ↔ is_Some (tabsById x !! id) ∨ listed id) ∧
  (∀ id, id ∈ initialTabIds y ↔ id ∈ initialTabIds x ∨ listed id).
Proof.
  revert x. induction infos as [|info r IH]; intros x; cbv zeta.
  - simpl. split; [auto|]. split; intros id; split; auto;
      intros [?|(? & [] & _)]; assumption.
  - simpl fold_left. rewrite seed_one_tracked.
    destruct (tracked info) eqn:Htr;
      match goal with |- context [fold_left _ r ?x1] =>
        destruct (IH x1) as (Hent & Hdom & Hini) end;
      simpl in Hent, Hdom, Hini.
    + split; [|split].
      * intros id t Hy. destruct (Hent id t Hy) as [Hx | (i & Hin & Hi & Hid & Ht)].
        -- apply lookup_insert_Some in Hx as [[<- <-] | [Hne Hx]]; [|now left].
           right. exists info. repeat split; auto. now left.
        -- right. exists i. repeat split; auto. now right.
      * intros id. rewrite Hdom. split.
        -- intros [Hx | (i & Hin & Hi & Hid)].
           ++ destruct Hx as [t Hx].
              apply lookup_insert_Some in Hx as [[<- <-] | [Hne Hx]]; [|left; eauto].
              right. exists info. repeat split; auto. now left.
           ++ right. exists i. repeat split; auto. now right.
        -- intros [[t Hx] | (i & [<- | Hin] & Hi & Hid)].
           ++ left. destruct (decide (targetId info = id)) as [<- | Hne].
              ** rewrite lookup_insert_eq. eauto.
              ** rewrite lookup_insert_ne by exact Hne. eauto.
           ++ left. rewrite Hid, lookup_insert_eq. eauto.
           ++ right. exists i. auto.
      * intros id. rewrite Hini, elem_of_union, elem_of_singleton. split.
        -- intros [[-> | Hx] | (i & Hin & Hi & Hid)]; [|now left|].
           ++ right. exists info. repeat split; auto. now left.
           ++ right. exists i. repeat split; auto. now right.
        -- intros [Hx | (i & [<- | Hin] & Hi & Hid)]; [now left; right| |].
           ++ left; left. now symmetry.
           ++ right. exists i. auto.
    + split; [|split].
      * intros id t Hy. destruct (Hent id t Hy) as [Hx | (i & Hin & Hi & Hid & Ht)];
          [now left|]. right. exists i. repeat split; auto. now right.
      * intros id. rewrite Hdom. split.
        -- intros [Hx | (i & Hin & Hi & Hid)]; [now left|].
           right. exists i. repeat split; auto. now right.
        -- intros [Hx | (i & [<- | Hin] & Hi & Hid)]; [now left|congruence|].
           right. exists i. auto.
      * intros id. rewrite Hini. split.
        -- intros [Hx | (i & Hin & Hi & Hid)]; [now left|].
           right. exists i. repeat split; auto. now right.
        -- intros [Hx | (i & [<- | Hin] & Hi & Hid)]; [now left|congruence|].
           right. exists i. auto.
Qed.

(** The registry of a fresh epoch: every entry was written by the seed
    loop for a listed page that is no internal-debugger page, every such
    page has an entry, and the initial set is the set of keys. *)
Lemma started_entries (port t0 : Z) (infos : list TargetInfo) :
  let x := started port t0 infos in
  (∀ id t, tabsById x !! id = Some t →
     ∃ info, In info infos ∧ tracked info = true ∧ targetId info = id ∧
             t = seeded_tab info t0) ∧
  (∀ info, In info infos → tracked info = true →
     is_Some (tabsById x !! targetId info)) ∧
  (∀ id, id ∈ initialTabIds x ↔ is_Some (tabsById x !! id)).
Proof.
  cbv zeta. unfold started. cbv zeta. simpl.
  match goal with |- context [fold_left _ infos ?x0] =>
    pose proof (fold_seed_entries infos x0) as (Hent & Hdom & Hini) end.
  simpl in Hent, Hdom, Hini. split; [|split].
  - intros id t Hy. destruct (Hent id t Hy) as [Hx | Hx]; [|exact Hx].
    now rewrite lookup_empty in Hx.
  - intros info Hin Htr. apply Hdom. right. exists info. auto.
  - intros id. rewrite Hini, Hdom. split.
    + intros [Hx | Hx]; [|now right]. now apply not_elem_of_empty in Hx.
    + intros [[t Hx] | Hx]; [|now right]. now rewrite lookup_empty in Hx.
Qed.

Lemma start_failure_full (err : JsError) (s : State) :
  ∃ s', (modify (set_lastStatusMessage
                   (Js.or_str (Some (message err))
                      "Failed to start live tab tracking"));;
         stopTabTracking;; ret false) s = (Ok false, s') ∧
        tracking s' = stopped ∧
        currentDebugPort (session s') = currentDebugPort (session s) ∧
        mainWindow (session s') = mainWindow (session s) ∧
        lastStatusMessage (session s') = start_failure_message err.
Proof.
  unfold bind at 1. unfold modify at 1. cbv beta iota.
  unfold bind at 1.
  match goal with |- context [stopTabTracking ?t] =>
    destruct (stop_cases t) as (s' & -> & Hstopped & Hset & _) end.
  destruct Hset as (_ & _ & Hwin & Hport & _ & _ & Hmsg & _).
  exists s'. split; [reflexivity|]. repeat split; assumption.
Qed.

Lemma start_success_full (infos : list TargetInfo) (port : Z) (s : State) :
  cdpClient (tracking s) = Some {| client_port := port; subscriptions := [] |} →
  ∃ s', (seed infos;;
         subscribe OnTargetCreated;;
         subscribe OnTargetInfoChanged;;
         subscribe OnTargetDestroyed;;
         sendChromeTabsFromState;; ret true) s = (Ok true, s') ∧
        session s' = session s ∧
        (mainWindow (session s) = true →
         newest s' = Some (EvSendTabs (tabsFromState s'))) ∧
        (mainWindow (session s) = false → sys s' = sys s) ∧
        tracking s'
        = (let seeded :=
             fold_left (λ acc info, seed_one info acc) infos (tracking s) in
           {| cdpClient := Some {| client_port := port; subscriptions := ONE_SET |};
              cdpPort := cdpPort seeded;
              tabStateStartedAt := tabStateStartedAt seeded;
              tabsById := tabsById seeded;
              initialTabIds := initialTabIds seeded |}).
Proof.
  intros Hclient.
  pose proof (fold_seed_fields infos (tracking s)) as (Hc & _ & _).
  rewrite Hclient in Hc.
  unfold bind, seed, subscribe, sendChromeTabsFromState, modify, get, ret.
  simpl. rewrite Hc. simpl. unfold bind. simpl.
  destruct (mainWindow (session s)); simpl;
    (eexists; split; [reflexivity|]; split; [reflexivity|];
     split; [first [discriminate | reflexivity]|];
     split; [first [discriminate | reflexivity] | reflexivity]).
Qed.

(** A start of tracking that finds the port open and no connection for
    it, by the outcome of its three protocol calls. *)
Lemma start_cases (s : State) :
  probe_reply (tick (sys s)) (currentDebugPort (session s)) = true →
  ¬ connected s →
  ∃ t0 t1 t2 t3 ok s',
    ensureTabTracking s = (Ok ok, s') ∧
    currentDebugPort (session s') = currentDebugPort (session s) ∧
    mainWindow (session s') = mainWindow (session s) ∧
    match handshake (currentDebugPort (session s)) t1 t2 t3 with
    | inl err =>
        ok = false ∧ tracking s' = stopped ∧
        lastStatusMessage (session s') = start_failure_message err
    | inr listing =>
        ok = true ∧
        tracking s' = started (currentDebugPort (session s)) (clock t0) listing ∧
        lastStatusMessage (session s') = lastStatusMessage (session s) ∧
        (mainWindow (session s) = true →
         newest s' = Some (EvSendTabs (tabsFromState s')))
    end.
Proof.
  intros Hprobe Hconn. unfold ensureTabTracking.
  unfold bind at 1. unfold get at 1. cbv beta iota.
  unfold bind at 1. run_check. rewrite Hprobe.
  change (negb true) with false. cbv beta iota.
  unfold bind at 1. unfold get at 1. cbv beta iota.
  rewrite <- connected_decide in Hconn. apply not_true_is_false in Hconn.
  match goal with
  | |- context [bool_decide (is_Some (cdpClient (tracking ?t))) && ?b] =>
      replace (bool_decide (is_Some (cdpClient (tracking t))) && b)
        with false by (symmetry; exact Hconn)
  end.
  cbv beta iota.
  unfold bind at 1.
  match goal with |- context [stopTabTracking ?t] =>
    destruct (stop_cases t) as (s0 & -> & Hstopped & Hset & _) end.
  destruct Hset as (_ & _ & Hwin & Hport & _ & _ & Hmsg & _).
  simpl in Hport, Hwin, Hmsg.
  unfold bind at 1. unfold modify at 1. cbv beta iota.
  unfold bind at 1. unfold modify at 1. cbv beta iota.
  unfold try_catch at 1.
  unfold bind at 1. unfold get at 1. cbv beta iota.
  unfold bind at 1. run_connect.
  match goal with |- context [cdp_connect_reply ?t ?p] =>
    assert (p = currentDebugPort (session s)) as Hsame by (simpl; exact Hport);
    exists (tick (sys s0)), t; unfold handshake; rewrite Hsame;
    destruct (cdp_connect_reply t (currentDebugPort (session s))) as [err|]
  end.
  { match goal with |- context [bind _ _ ?t] =>
      destruct (start_failure_full err t) as (s' & -> & Htr & Hp & Hw & Hm) end.
    exists 0%nat, 0%nat, false, s'. split; [reflexivity|]. simpl in Hp, Hw.
    split; [congruence|]. split; [congruence|]. auto. }
  unfold bind at 1. unfold modify at 1. cbv beta iota.
  unfold bind at 1. run_discover.
  match goal with |- context [cdp_discover_reply ?t] =>
    exists t; destruct (cdp_discover_reply t) as [err|] end.
  { match goal with |- context [bind _ _ ?t] =>
      destruct (start_failure_full err t) as (s' & -> & Htr & Hp & Hw & Hm) end.
    exists 0%nat, false, s'. split; [reflexivity|]. simpl in Hp, Hw.
    split; [congruence|]. split; [congruence|]. auto. }
  unfold bind at 1. run_targets.
  match goal with |- context [cdp_targets_reply ?t] =>
    exists t; destruct (cdp_targets_reply t) as [err|infos] end.
  { match goal with |- context [bind _ _ ?t] =>
      destruct (start_failure_full err t) as (s' & -> & Htr & Hp & Hw & Hm) end.
    exists false, s'. split; [reflexivity|]. simpl in Hp, Hw.
    split; [congruence|]. split; [congruence|]. auto. }
  match goal with |- context [bind (seed ?l) _ ?t] =>
    destruct (start_success_full l (currentDebugPort (session s)) t)
      as (s' & -> & Hsess & Hnew & _ & Htr) end.
  { simpl. rewrite ?Hport. reflexivity. }
  exists true, s'. split; [reflexivity|]. simpl in Hsess, Hnew.
  rewrite Hsess. simpl. split; [congruence|]. split; [congruence|].
  split; [reflexivity|]. split; [|split; [congruence|]].
  - rewrite Htr. unfold started. simpl. rewrite Hstopped. simpl.
    pose proof (fold_seed_fields (default [] infos)
      {| cdpClient := Some {| client_port := currentDebugPort (session s);
                              subscriptions := [] |};
         cdpPort := Some (currentDebugPort (session s0));
         tabStateStartedAt := clock (tick (sys s0));
         tabsById := ∅; initialTabIds := ∅ |}) as (_ & Hq & Ht).
    simpl in Hq, Ht. rewrite Hq, Ht, Hport. reflexivity.
  - intros Hw. apply Hnew. congruence.
Qed.

End Epoch.

Section Lifecycle.
Context `{Builtins} `{World}.

(** Every way [ensureTabTracking] can end. *)
Lemma tracking_outcome (s : State) :
  ∃ ok s',
    ensureTabTracking s = (Ok ok, s') ∧
    currentDebugPort (session s') = currentDebugPort (session s) ∧
    (ok = true → connected s') ∧
    (ok = false → tracking s' = tracking s ∨ tracking s' = stopped) ∧
    (lastStatusMessage (session s') = lastStatusMessage (session s) ∨
     ∃ err, lastStatusMessage (session s') = start_failure_message err).
Proof.
  destruct (probe_reply (tick (sys s)) (currentDebugPort (session s))) eqn:Hprobe.
  - destruct (bool_decide (is_Some (cdpClient (tracking s))) &&
              bool_decide (cdpPort (tracking s) = Some (currentDebugPort (session s))))
      eqn:Hconn.
    + apply connected_decide in Hconn.
      destruct (start_already_connected s Hprobe Hconn) as (e & x & ->).
      eexists _, _. split; [reflexivity|]. split; [reflexivity|].
      split; [intros _; exact Hconn|]. split; [discriminate | now left].
    + assert (¬ connected s) as Hnot
        by (rewrite <- connected_decide, Hconn; discriminate).
      destruct (start_cases s Hprobe Hnot)
        as (t0 & t1 & t2 & t3 & ok & s' & -> & Hport & _ & Hcase).
      exists ok, s'. split; [reflexivity|]. split; [exact Hport|].
      destruct (handshake _ t1 t2 t3) as [err|listing].
      * destruct Hcase as (-> & Htr & Hmsg).
        split; [discriminate|]. split; [intros _; now right|]. right. eauto.
      * destruct Hcase as (-> & Htr & Hmsg & _).
        split; [|split; [discriminate | now left]].
        intros _. unfold connected. rewrite Htr, Hport. simpl. eauto.
  - destruct (start_probe_fails s Hprobe) as (e & x & ->).
    eexists _, _. split; [reflexivity|]. split; [reflexivity|].
    split; [discriminate|]. split; [intros _; now left | now left].
Qed.

Lemma tracking_run (s : State) :
  ∃ ok s', ensureTabTracking s = (Ok ok, s').
Proof. destruct (tracking_outcome s) as (ok & s' & Hrun & _). eauto. Qed.

Lemma tracking_connected (s s' : State) :
  ensureTabTracking s = (Ok true, s') → connected s'.
Proof.
  intros Hrun. destruct (tracking_outcome s) as (ok & s1 & Heq & _ & Hyes & _).
  rewrite Hrun in Heq. injection Heq as <- <-. now apply Hyes.
Qed.

(** X11: [ensureTabTracking] never throws and keeps the current debug port.
    When it returns true, tracking holds a connection made for that port;
    when it returns false, the tracking variables are either untouched or
    those of stopped tracking. *)
Theorem tracking_verdict (s : State) :
  ∃ ok s',
    ensureTabTracking s = (Ok ok, s') ∧
    currentDebugPort (session s') = currentDebugPort (session s) ∧
    (ok = true → connected s') ∧
    (ok = false → tracking s' = tracking s ∨ tracking s' = stopped).
Proof.
  destruct (tracking_outcome s) as (ok & s' & Hrun & Hport & Hyes & Hno & _).
  exists ok, s'. auto.
Qed.

(** X12: a start of tracking that finds the port open, has no connection
    for it and whose three protocol calls succeed begins a new epoch from
    the listed targets alone: it returns true, every entry of the registry
    is the one the seed loop writes for a listed page that is no
    internal-debugger page (flagged initial, stamped with the start of the
    epoch), every such page has an entry, the initial set is the set of
    keys, and with a window the snapshot of the registry is emitted
    last. *)
Theorem fresh_start_adopts_listing (s : State) (listing : list TargetInfo) :
  probe_reply (tick (sys s)) (currentDebugPort (session s)) = true →
  ¬ connected s →
  (∀ t1 t2 t3, handshake (currentDebugPort (session s)) t1 t2 t3 = inr listing) →
  ∃ s',
    ensureTabTracking s = (Ok true, s') ∧
    connected s' ∧
    (∀ id t, tabsById (tracking s') !! id = Some t →
       ∃ info, In info listing ∧ tracked info = true ∧ targetId info = id ∧
               t = seeded_tab info (tabStateStartedAt (tracking s'))) ∧
    (∀ info, In info listing → tracked info = true →
       is_Some (tabsById (tracking s') !! targetId info)) ∧
    (∀ id, id ∈ initialTabIds (tracking s') ↔
           is_Some (tabsById (tracking s') !! id)) ∧
    (mainWindow (session s) = true →
     newest s' = Some (EvSendTabs (tabsFromState s'))).
Proof.
  intros Hprobe Hnot Hshake.
  destruct (start_cases s Hprobe Hnot)
    as (t0 & t1 & t2 & t3 & ok & s' & Hrun & Hport & Hwin & Hcase).
  rewrite Hshake in Hcase. destruct Hcase as (-> & Htr & _ & Hnew).
  exists s'. split; [exact Hrun|].
  pose proof (started_entries (currentDebugPort (session s)) (clock t0) listing)
    as (Hent & Hall & Hini).
  rewrite Htr. split; [|split; [exact Hent | split; [exact Hall | split]]].
  - unfold connected. rewrite Htr, Hport. simpl. eauto.
  - exact Hini.
  - exact Hnew.
Qed.

(** X13: a start of tracking that finds the port open and has no connection
    for it, and whose connection, discovery or listing call fails with
    [err], returns false, leaves tracking stopped and records the message
    of [err], or a fixed text when that message is empty. *)
Theorem failed_start_tears_down (s : State) (err : JsError) :
  probe_reply (tick (sys s)) (currentDebugPort (session s)) = true →
  ¬ connected s →
  (∀ t1 t2 t3, handshake (currentDebugPort (session s)) t1 t2 t3 = inl err) →
  ∃ s',
    ensureTabTracking s = (Ok false, s') ∧
    tracking s' = stopped ∧
    lastStatusMessage (session s') = start_failure_message err ∧
    currentDebugPort (session s') = currentDebugPort (session s).
Proof.
  intros Hprobe Hnot Hshake.
  destruct (start_cases s Hprobe Hnot)
    as (t0 & t1 & t2 & t3 & ok & s' & Hrun & Hport & Hwin & Hcase).
  rewrite Hshake in Hcase. destruct Hcase as (-> & Htr & Hmsg).
  exists s'. auto.
Qed.

(** X14: stopping is final and idempotent: after [stopTabTracking] the
    tracking variables are those of stopped tracking, everything outside
    them but the clock, the log and the abort flags is as before, a
    second stop changes nothing at all, and no notification is delivered
    any more. An open connection is closed exactly once. *)
Theorem stop_is_final (s : State) :
  ∃ s1,
    stopTabTracking s = (Ok tt, s1) ∧
    tracking s1 = stopped ∧
    same_settings s s1 ∧
    trace (sys s1)
    = match cdpClient (tracking s) with
      | Some c => EvClose (client_port c) :: trace (sys s)
      | None => trace (sys s)
      end ∧
    stopTabTracking s1 = (Ok tt, s1) ∧
    ∀ n, deliver n s1 = (Ok tt, s1).
Proof.
  destruct (stop_cases s) as (s1 & Hrun & Hstopped & Hset & _ & Htrace).
  exists s1. split; [exact Hrun|]. split; [exact Hstopped|].
  split; [exact Hset|]. split; [exact Htrace|]. split.
  - destruct s1 as [ss tr sy]. simpl in Hstopped. subst tr. reflexivity.
  - intros n. apply deliver_disconnected. now rewrite Hstopped.
Qed.

Lemma handler_trace (n : Notification) (s : State) :
  ∃ s', run_listeners ONE_SET n s = (Ok tt, s') ∧
        session s' = session s ∧
        tick (sys s') = tick (sys s) ∧
        files (sys s') = files (sys s) ∧
        tracking s' = notified n (clock (tick (sys s))) (tracking s) ∧
        trace (sys s')
        = if mainWindow (session s) && applies n
          then EvSendTabs (tabsFromState s') :: trace (sys s)
          else trace (sys s).
Proof.
  unfold ONE_SET, run_listeners, listener, applies, notified.
  destruct n as [[ti|]|[ti|]|id];
    unfold targetCreated, targetInfoChanged, targetDestroyed, tracked,
      sendChromeTabsFromState, bind, get, modify, ret; cbv beta iota;
    try (rewrite andb_false_r; eexists; repeat split; reflexivity).
  - destruct (String.eqb (type ti) "page"); simpl;
      [|rewrite andb_false_r; eexists; repeat split; reflexivity].
    destruct (is_devtools (url ti)); simpl;
      [rewrite andb_false_r; eexists; repeat split; reflexivity|].
    rewrite andb_true_r.
    destruct (mainWindow (session s)); simpl; eexists; repeat split; reflexivity.
  - destruct (String.eqb (type ti) "page"); simpl;
      [|rewrite andb_false_r; eexists; repeat split; reflexivity].
    destruct (is_devtools (url ti)); simpl;
      [rewrite andb_false_r; eexists; repeat split; reflexivity|].
    rewrite andb_true_r.
    destruct (mainWindow (session s)); simpl; eexists; repeat split; reflexivity.
  - destruct (Js.nonempty id); simpl;
      [|rewrite andb_false_r; eexists; repeat split; reflexivity].
    rewrite andb_true_r.
    destruct (mainWindow (session s)); simpl; eexists; repeat split; reflexivity.
Qed.

(** X15: on a connection with one set of listeners a notification advances
    the clock by one, touches neither the session variables nor the
    files, and emits the snapshot of the registry, taken after the
    change, exactly when there is a window and the notification passes
    the guards of its listener; otherwise nothing is logged. *)
Theorem notification_emits_snapshot (n : Notification) (c : Client) (s : State) :
  cdpClient (tracking s) = Some c → subscriptions c = ONE_SET →
  ∃ s',
    deliver n s = (Ok tt, s') ∧
    session s' = session s ∧
    tick (sys s') = S (tick (sys s)) ∧
    files (sys s') = files (sys s) ∧
    trace (sys s')
    = if mainWindow (session s) && applies n
      then EvSendTabs (tabsFromState s') :: trace (sys s)
      else trace (sys s).
Proof.
  intros Hc Hsubs. unfold deliver, bind, get. cbv beta iota. rewrite Hc.
  unfold modify at 1. cbv beta iota. rewrite Hsubs.
  match goal with |- context [run_listeners ONE_SET n ?t] =>
    destruct (handler_trace n t) as (s' & -> & Hsess & Htick & Hfiles & _ & Htr)
  end.
  exists s'. split; [reflexivity|]. simpl in Hsess, Htick, Hfiles, Htr.
  auto.
Qed.

End Lifecycle.

Section Registry.
Context `{Builtins} `{World}.

Lemma consistent_stopped : consistent stopped.
Proof. intros id t Hlook. simpl in Hlook. now rewrite lookup_empty in Hlook. Qed.

Lemma consistent_started (port t0 : Z) (infos : list TargetInfo) :
  consistent (started port t0 infos).
Proof.
  pose proof (started_entries port t0 infos) as (Hent & _ & Hini).
  intros id t Hlook. destruct (Hent id t Hlook) as (info & _ & _ & Hid & ->).
  split; [exact Hid|]. simpl. symmetry. apply bool_decide_eq_true.
  apply Hini. eauto.
Qed.

Lemma consistent_notified (n : Notification) (now : Z) (x : Tracking) :
  consistent x → consistent (notified n now x).
Proof.
  intros Hx. unfold notified.
  destruct n as [[ti|]|[ti|]|id]; try exact Hx.
  - destruct (tracked ti); [|exact Hx]. intros id t Hlook. simpl in *.
    apply lookup_insert_Some in Hlook as [[<- <-] | [_ Hlook]]; [|now apply Hx].
    split; reflexivity.
  - destruct (tracked ti); [|exact Hx]. intros id t Hlook. simpl in *.
    apply lookup_insert_Some in Hlook as [[<- <-] | [_ Hlook]]; [|now apply Hx].
    split; [reflexivity|]. unfold changed_tab. simpl.
    destruct (tabsById x !! targetId ti) as [p|] eqn:Hp; [|reflexivity].
    now apply Hx.
  - destruct (Js.nonempty id); [|exact Hx]. intros id' t Hlook. simpl in *.
    apply lookup_delete_Some in Hlook as [_ Hlook]. now apply Hx.
Qed.

Lemma notified_initial (n : Notification) (now : Z) (x : Tracking) :
  initialTabIds (notified n now x) = initialTabIds x.
Proof.
  unfold notified. destruct n as [[ti|]|[ti|]|id]; try reflexivity.
  - now destruct (tracked ti).
  - now destruct (tracked ti).
  - now destruct (Js.nonempty id).
Qed.

Lemma reachable_consistent (fs : gmap string File) (window : bool)
    (acts : list Action) :
  healthy (tracking (run acts (init_state fs window))) ∧
  consistent (tracking (run acts (init_state fs window))).
Proof.
  apply (run_invariant consistent).
  - exact consistent_stopped.
  - intros port t0 infos. apply consistent_started.
  - intros n t x _ _. apply consistent_notified.
  - apply healthy_stopped.
  - exact consistent_stopped.
Qed.

(** The tracking variables after a notification, in a state the
    supervisor reaches. *)
Lemma reachable_notify (fs : gmap string File) (window : bool)
    (acts : list Action) (n : Notification) :
  let s := run acts (init_state fs window) in
  tracking (step (Notify n) s) = tracking s ∧ tabsById (tracking s) = ∅ ∨
  ∃ now, tracking (step (Notify n) s) = notified n now (tracking s).
Proof.
  cbv zeta. destruct (reachable_consistent fs window acts) as [Hh _].
  set (s := run acts (init_state fs window)) in *.
  destruct Hh as (_ & Hone & Hnone). simpl.
  destruct (cdpClient (tracking s)) as [c|] eqn:Hc.
  - destruct (deliver_one_set n c s Hc (Hone c eq_refl)) as (s' & -> & Htr).
    right. eexists. exact Htr.
  - rewrite deliver_disconnected by exact Hc. left. auto.
Qed.

(** X16: in every state the supervisor reaches, each entry of the registry
    is filed under its own identifier and is flagged initial exactly when
    that identifier is in the initial set of the epoch. *)
Theorem registry_consistent (fs : gmap string File) (window : bool)
    (acts : list Action) :
  consistent (tracking (run acts (init_state fs window))).
Proof. apply reachable_consistent. Qed.

(** X17: in every state the supervisor reaches, an entry that is still in
    the registry after a notification, whatever the notification, has
    the initial flag it had before. *)
Theorem initial_flag_stable (fs : gmap string File) (window : bool)
    (acts : list Action) (n : Notification) (id : string) (t t' : Tab) :
  let s := run acts (init_state fs window) in
  tabsById (tracking s) !! id = Some t →
  tabsById (tracking (step (Notify n) s)) !! id = Some t' →
  isInitial t' = isInitial t.
Proof.
  cbv zeta. intros Hbefore Hafter.
  destruct (reachable_consistent fs window acts) as [_ Hcons].
  destruct (reachable_notify fs window acts n) as [[Htr _] | [now Htr]];
    cbv zeta in Htr; rewrite Htr in Hafter.
  - congruence.
  - pose proof (consistent_notified n now _ Hcons id t' Hafter) as [_ Hnew].
    destruct (Hcons id t Hbefore) as [_ Hold].
    now rewrite Hnew, Hold, notified_initial.
Qed.

(** X18: in every state the supervisor reaches, a [destroyed] notification
    with a non-empty identifier leaves no entry under that identifier and
    leaves every other entry as it was. *)
Theorem destroyed_forgets (fs : gmap string File) (window : bool)
    (acts : list Action) (id : string) :
  let s := run acts (init_state fs window) in
  Js.nonempty id = true →
  tabsById (tracking (step (Notify (TargetDestroyed id)) s)) !! id = None ∧
  ∀ other, other ≠ id →
    tabsById (tracking (step (Notify (TargetDestroyed id)) s)) !! other
    = tabsById (tracking s) !! other.
Proof.
  cbv zeta. intros Hid.
  destruct (reachable_notify fs window acts (TargetDestroyed id))
    as [[Htr Hempty] | [now Htr]]; cbv zeta in Htr; rewrite Htr.
  - split; [now rewrite Hempty, lookup_empty | reflexivity].
  - unfold notified. rewrite Hid. simpl. split.
    + apply lookup_delete_eq.
    + intros other Hne. now apply lookup_delete_ne.
Qed.

(** X19: in every state the supervisor reaches with tracking connected, a
    [created] notification about a page that is no internal-debugger page
    files under its identifier a fresh entry, stamped with the time of
    delivery even when the identifier was already known and flagged
    initial exactly when the identifier is in the initial set; every other
    entry is left as it was. *)
Theorem created_registers (fs : gmap string File) (window : bool)
    (acts : list Action) (ti : TargetInfo) :
  let s := run acts (init_state fs window) in
  is_Some (cdpClient (tracking s)) →
  tracked ti = true →
  tabsById (tracking (step (Notify (TargetCreated (Some ti))) s)) !! targetId ti
  = Some (created_tab ti (clock (S (tick (sys s)))) (tracking s)) ∧
  ∀ other, other ≠ targetId ti →
    tabsById (tracking (step (Notify (TargetCreated (Some ti))) s)) !! other
    = tabsById (tracking s) !! other.
Proof.
  cbv zeta. intros [c Hc] Htracked.
  destruct (reachable_consistent fs window acts) as [(_ & Hone & _) _].
  simpl.
  destruct (deliver_one_set (TargetCreated (Some ti)) c _ Hc (Hone c Hc))
    as (s' & -> & Htr).
  simpl. rewrite Htr. unfold notified. rewrite Htracked. simpl. split.
  - apply lookup_insert_eq.
  - intros other Hne. apply lookup_insert_ne. congruence.
Qed.

Lemma tabsFromState_values (s : State) :
  tabsFromState s = List.map snd (map_to_list (tabsById (tracking s))).
Proof.
  unfold tabsFromState. apply map_ext. intros [k t]. simpl. now destruct t.
Qed.

(** X20: in every state the supervisor reaches, the snapshot lists exactly
    the entries of the registry, each once: its identifiers are pairwise
    distinct and a record is in it exactly when the registry holds that
    record under its identifier. *)
Theorem snapshot_lists_registry (fs : gmap string File) (window : bool)
    (acts : list Action) :
  let s := run acts (init_state fs window) in
  NoDup (List.map tab_id (tabsFromState s)) ∧
  ∀ t, In t (tabsFromState s) ↔ tabsById (tracking s) !! tab_id t = Some t.
Proof.
  cbv zeta. destruct (reachable_consistent fs window acts) as [_ Hcons].
  set (s := run acts (init_state fs window)) in *.
  rewrite tabsFromState_values. split.
  - rewrite List.map_map.
    rewrite (map_ext_in _ fst).
    + exact (NoDup_fst_map_to_list (tabsById (tracking s))).
    + intros [k t] Hin. simpl. apply list_elem_of_In, elem_of_map_to_list in Hin.
      now apply Hcons.
  - intros t. rewrite in_map_iff. split.
    + intros ([k t'] & <- & Hin). simpl.
      apply list_elem_of_In, elem_of_map_to_list in Hin.
      destruct (Hcons k t' Hin) as [-> _]. exact Hin.
    + intros Hlook. exists (tab_id t, t). split; [reflexivity|].
      now apply list_elem_of_In, elem_of_map_to_list.
Qed.

End Registry.

(* ================================================================== *)
(** * Further properties of the persisted-state readers                 *)
(* ================================================================== *)

Lemma keys_NoDup (v : json) : NoDup (Json.keys v).
Proof.
  destruct v as [| | | str | xs | kvs]; simpl; try constructor.
  - exact (NoDup_fmap_2 (λ i : nat, pretty i) _ (NoDup_seq 0 (String.length str))).
  - exact (NoDup_fmap_2 (λ i : nat, pretty i) _ (NoDup_seq 0 (length xs))).
  - apply NoDup_remove_dups.
Qed.

Section Readers.
Context `{Builtins} `{World}.

(** X21: whatever the persisted-state file holds, [getAvailableProfiles]
    returns descriptors with pairwise distinct identifiers, each with the
    path of its identifier under the user-data root and a name that is
    not null; it never throws and leaves the state alone. *)
Theorem profiles_listing_shape (s : State) :
  ∃ l, getAvailableProfiles s = (Ok l, s) ∧
       NoDup (List.map pd_id l) ∧
       ∀ d, In d l →
         pd_path d = path_join [chromeUserDataRoot s; pd_id d] ∧
         pd_name d ≠ JNull.
Proof.
  assert (NoDup (List.map pd_id []) ∧
          ∀ d : ProfileDescriptor, In d [] →
            pd_path d = path_join [chromeUserDataRoot s; pd_id d] ∧
            pd_name d ≠ JNull) as Hnil
    by (split; [constructor | intros d []]).
  unfold getAvailableProfiles, try_catch, bind, get, existsSync, readFileSync,
    parse. cbv beta iota.
  destruct (bool_decide _); simpl; [|eexists; split; [reflexivity | exact Hnil]].
  destruct (files (sys s) !! _) as [[raw|]|];
    try (eexists; split; [reflexivity | exact Hnil]).
  destruct (JSON_parse raw) as [doc|]; unfold ret, throw;
    [|eexists; split; [reflexivity | exact Hnil]].
  eexists. split; [reflexivity|]. split.
  - rewrite List.map_map. simpl. rewrite List.map_id. apply keys_NoDup.
  - intros d Hin. apply in_map_iff in Hin as (key & <- & _). simpl.
    split; [reflexivity|].
    destruct (Json.truthy _) eqn:Htruthy; [|discriminate].
    destruct (Json.opt_prop _ "name") as [[| | | | |]|]; simpl;
      discriminate.
Qed.

Lemma reader_on_profile (s : State) (raw : string) (doc profile : json) :
  files (sys s) !! path_join [getUserDataDir s; "Local State"]
  = Some (Readable raw) →
  JSON_parse raw = Some doc →
  doc ≠ JNull →
  Json.prop doc "profile" = Some profile →
  Json.truthy (Some profile) = true →
  readActiveProfileName s
  = (Ok match Json.prop profile "last_active_profiles" with
        | Some (JArr (first :: _)) => first
        | _ => match Json.prop profile "last_used" with
               | Some (JStr last_used) => JStr last_used
               | _ => JNull
               end
        end, s).
Proof.
  intros Hfile Hparse Hdoc Hprofile Htruthy.
  unfold readActiveProfileName, try_catch, bind, get, existsSync, readFileSync,
    parse, member. cbv beta iota.
  rewrite bool_decide_eq_true_2 by (rewrite Hfile; eauto). simpl.
  rewrite ?Hfile. cbv beta iota. rewrite Hparse. unfold ret at 1. cbv beta iota.
  destruct doc; try congruence; unfold ret at 1; cbv beta iota;
    rewrite Hprofile, Htruthy; simpl;
    destruct (Json.prop profile "last_active_profiles") as [[| | | |[|first rest]|]|];
    try reflexivity;
    destruct (Json.prop profile "last_used") as [[| | | | |]|]; reflexivity.
Qed.

(** X22: when the persisted-state file parses to a document with a profile
    section whose list of last active profiles is a non-empty array,
    [readActiveProfileName] returns the first element of that array,
    whatever the last-used entry says. *)
Theorem last_active_profile_wins
    (s : State) (raw : string) (doc profile first : json) (rest : list json) :
  files (sys s) !! path_join [getUserDataDir s; "Local State"]
  = Some (Readable raw) →
  JSON_parse raw = Some doc →
  doc ≠ JNull →
  Json.prop doc "profile" = Some profile →
  Json.truthy (Some profile) = true →
  Json.prop profile "last_active_profiles" = Some (JArr (first :: rest)) →
  readActiveProfileName s = (Ok first, s).
Proof.
  intros Hfile Hparse Hdoc Hprofile Htruthy Hactive.
  rewrite (reader_on_profile s raw doc profile) by assumption.
  now rewrite Hactive.
Qed.

(** X23: when the list of last active profiles is missing, empty or no
    array, [readActiveProfileName] returns the last-used entry if that is
    a string. *)
Theorem last_used_is_fallback
    (s : State) (raw : string) (doc profile : json) (last_used : string) :
  files (sys s) !! path_join [getUserDataDir s; "Local State"]
  = Some (Readable raw) →
  JSON_parse raw = Some doc →
  doc ≠ JNull →
  Json.prop doc "profile" = Some profile →
  Json.truthy (Some profile) = true →
  (∀ first rest,
     Json.prop profile "last_active_profiles" ≠ Some (JArr (first :: rest))) →
  Json.prop profile "last_used" = Some (JStr last_used) →
  readActiveProfileName s = (Ok (JStr last_used), s).
Proof.
  intros Hfile Hparse Hdoc Hprofile Htruthy Hactive Hused.
  rewrite (reader_on_profile s raw doc profile) by assumption.
  rewrite Hused.
  destruct (Json.prop profile "last_active_profiles") as [[| | | |[|first rest]|]|];
    try reflexivity.
  now destruct (Hactive first rest).
Qed.

End Readers.

(* ================================================================== *)
(** * Properties of the request handlers                                *)
(* ================================================================== *)

Section Requests.
Context `{Builtins} `{World} `{Inspector} `{Conversions}.

Lemma cdp_list_run (s : State) :
  ∃ e x, cdp_list s
         = (match cdp_list_reply (tick (sys s)) (currentDebugPort (session s)) with
            | ListThrows err => Throw err
            | Listed targets => Ok targets
            end,
            resumed e x s).
Proof.
  unfold cdp_list. unfold bind at 1. unfold get at 1. cbv beta iota.
  unfold bind at 1. run_suspend. eexists _, _.
  destruct (cdp_list_reply _ _); reflexivity.
Qed.

(** The state in which [fetchChromeTabs] asks for a session. *)
Lemma fetch_cases (eventOrPort maybePort : Arg) (s : State) :
  let s0 := set_currentDebugPort
              (resolvePort (coalesce maybePort eventOrPort) s) s in
  match ensureChromeDebugging s0 with
  | (Ok false, s1) => fetchChromeTabs eventOrPort maybePort s = (Ok [], s1)
  | (Ok true, s1) =>
      match ensureTabTracking s1 with
      | (Ok true, s2) =>
          fetchChromeTabs eventOrPort maybePort s
          = (Ok (List.map FromRegistry (tabsFromState s2)), s2)
      | (Ok false, s2) =>
          ∃ e x,
            fetchChromeTabs eventOrPort maybePort s
            = match cdp_list_reply (tick (sys s2))
                      (currentDebugPort (session s2)) with
              | Listed targets => (Ok (listed_rows targets), resumed e x s2)
              | ListThrows err =>
                  (Ok [],
                   set_lastStatusMessage
                     (Js.or_str (Some (message err)) "Failed to fetch tabs")
                     (resumed e x s2))
              end
      | (Throw _, _) => False
      end
  | (Throw _, _) => False
  end.
Proof.
  cbv zeta.
  match goal with |- context [ensureChromeDebugging ?t] =>
    destruct (ensure_outcome t) as (ok1 & s1 & Hsession & _) end.
  rewrite Hsession.
  assert (fetchChromeTabs eventOrPort maybePort s
          = let (r, s') :=
              (if negb ok1 then ret [] else
               let* trackingOk := ensureTabTracking in
               if trackingOk then
                 let* s := get in ret (List.map FromRegistry (tabsFromState s))
               else
                 let* targets := cdp_list in
                 ret (listed_rows targets)) s1 in
            match r with
            | Ok a => (Ok a, s')
            | Throw err =>
                (modify (set_lastStatusMessage
                   (Js.or_str (Some (message err)) "Failed to fetch tabs"));;
                 ret []) s'
            end) as Hfetch.
  { unfold fetchChromeTabs.
    unfold try_catch at 1. unfold bind at 1. unfold get at 1. cbv beta iota.
    unfold bind at 1. unfold modify at 1. cbv beta iota.
    unfold bind at 1. rewrite Hsession. reflexivity. }
  rewrite Hfetch. clear Hfetch.
  destruct ok1; [change (negb true) with false | reflexivity].
  cbv beta iota. unfold bind.
  destruct (tracking_run s1) as (ok2 & s2 & ->).
  destruct ok2; cbv beta iota; [reflexivity|].
  destruct (cdp_list_run s2) as (e & x & ->).
  exists e, x. destruct (cdp_list_reply _ _); reflexivity.
Qed.

(** X24: [fetchChromeTabs] never throws. It returns the empty list, or the
    snapshot of the registry while tracking holds a connection for the
    current port, or the rows of a one-shot listing on the current
    port. *)
Theorem fetch_outcome (eventOrPort maybePort : Arg) (s : State) :
  ∃ rows s',
    fetchChromeTabs eventOrPort maybePort s = (Ok rows, s') ∧
    (rows = [] ∨
     (connected s' ∧ rows = List.map FromRegistry (tabsFromState s')) ∨
     (∃ t targets,
        cdp_list_reply t (currentDebugPort (session s')) = Listed targets ∧
        rows = listed_rows targets)).
Proof.
  pose proof (fetch_cases eventOrPort maybePort s) as Hcases. cbv zeta in Hcases.
  destruct (ensureChromeDebugging _) as [[[|] | ?] s1]; [| |contradiction].
  - pose proof (tracking_connected s1) as Hconn.
    destruct (ensureTabTracking s1) as [[[|] | ?] s2]; [| |contradiction].
    + eexists _, _. split; [exact Hcases|]. right. left.
      split; [now apply (Hconn s2) | reflexivity].
    + destruct Hcases as (e & x & Hrun).
      destruct (cdp_list_reply (tick (sys s2)) (currentDebugPort (session s2)))
        as [err|targets] eqn:Hreply.
      * eexists _, _. split; [exact Hrun|]. now left.
      * eexists _, _. split; [exact Hrun|]. right. right.
        exists (tick (sys s2)), targets. split; [exact Hreply | reflexivity].
  - eexists _, _. split; [exact Hcases|]. now left.
Qed.

(** X25: a fetch whose session cannot be established returns the empty
    list without probing for tracking: the tracking variables are
    untouched and the status message explains the failure. *)
Theorem fetch_without_session (eventOrPort maybePort : Arg) (s s1 : State) :
  ensureChromeDebugging
    (set_currentDebugPort (resolvePort (coalesce maybePort eventOrPort) s) s)
  = (Ok false, s1) →
  fetchChromeTabs eventOrPort maybePort s = (Ok [], s1) ∧
  tracking s1 = tracking s ∧
  failure_message s1.
Proof.
  intros Hrun.
  pose proof (fetch_cases eventOrPort maybePort s) as Hcases. cbv zeta in Hcases.
  rewrite Hrun in Hcases. split; [exact Hcases|]. split.
  - pose proof (ensureChromeDebugging_same_tracking
                  (set_currentDebugPort
                     (resolvePort (coalesce maybePort eventOrPort) s) s)) as Htr.
    unfold after in Htr. rewrite Hrun in Htr. exact Htr.
  - match type of Hrun with ensureChromeDebugging ?t = _ =>
      destruct (ensure_outcome t) as (ok & s' & Heq & _ & _ & Hfail) end.
    rewrite Hrun in Heq. injection Heq as <- <-. now apply Hfail.
Qed.

(** X26: when the session is established but tracking does not start, the
    rows come from a one-shot listing on the current port: they are, in
    the order of the listing, the rows of the listed targets of type
    [page] and of no other target, one row for each such target whatever
    its URL; the tracking variables stay as the failed start left
    them. *)
Theorem fetch_fallback_lists_pages
    (eventOrPort maybePort : Arg) (s s1 s2 : State)
    (targets : list ListedTarget) :
  ensureChromeDebugging
    (set_currentDebugPort (resolvePort (coalesce maybePort eventOrPort) s) s)
  = (Ok true, s1) →
  ensureTabTracking s1 = (Ok false, s2) →
  cdp_list_reply (tick (sys s2)) (currentDebugPort (session s2)) = Listed targets →
  ∃ rows s',
    fetchChromeTabs eventOrPort maybePort s = (Ok rows, s') ∧
    tracking s' = tracking s2 ∧
    Forall2 row_for
      (List.filter (λ target, bool_decide (lt_type target = Some "page")) targets)
      rows.
Proof.
  intros Hsession Htracking Hreply.
  pose proof (fetch_cases eventOrPort maybePort s) as Hcases. cbv zeta in Hcases.
  rewrite Hsession, Htracking, Hreply in Hcases.
  destruct Hcases as (e & x & Hrun).
  eexists _, _. split; [exact Hrun|]. split; [reflexivity|].
  unfold listed_rows. generalize (List.filter
    (λ target, bool_decide (lt_type target = Some "page")) targets) as pages.
  induction pages as [|target r IH]; simpl; constructor;
    [reflexivity | exact IH].
Qed.

(** X27: when the session is established, tracking does not start and the
    one-shot listing throws, the fetch still returns, with the empty
    list, and records the message of the error, or a fixed text when
    that message is empty. *)
Theorem fetch_listing_failure_reported
    (eventOrPort maybePort : Arg) (s s1 s2 : State) (err : JsError) :
  ensureChromeDebugging
    (set_currentDebugPort (resolvePort (coalesce maybePort eventOrPort) s) s)
  = (Ok true, s1) →
  ensureTabTracking s1 = (Ok false, s2) →
  cdp_list_reply (tick (sys s2)) (currentDebugPort (session s2)) = ListThrows err →
  ∃ s',
    fetchChromeTabs eventOrPort maybePort s = (Ok [], s') ∧
    lastStatusMessage (session s')
    = Js.or_str (Some (message err)) "Failed to fetch tabs" ∧
    tracking s' = tracking s2.
Proof.
  intros Hsession Htracking Hreply.
  pose proof (fetch_cases eventOrPort maybePort s) as Hcases. cbv zeta in Hcases.
  rewrite Hsession, Htracking, Hreply in Hcases.
  destruct Hcases as (e & x & Hrun).
  eexists. split; [exact Hrun|]. split; reflexivity.
Qed.

End Requests.

Section Status.
Context `{Builtins} `{World} `{Conversions}.

Lemma listener_session (sub : Subscription) (n : Notification) (s : State) :
  ∃ s', listener sub n s = (Ok tt, s') ∧ session s' = session s.
Proof.
  unfold listener.
  destruct sub, n as [[ti|]|[ti|]|id];
    unfold targetCreated, targetInfoChanged, targetDestroyed,
      sendChromeTabsFromState, bind, get, modify, ret; cbv beta iota;
    try (eexists; split; reflexivity).
  - destruct (negb _); [eexists; split; reflexivity|].
    destruct (is_devtools _); [eexists; split; reflexivity|].
    simpl. destruct (negb _); eexists; split; reflexivity.
  - destruct (negb _); [eexists; split; reflexivity|].
    destruct (is_devtools _); [eexists; split; reflexivity|].
    simpl. destruct (negb _); eexists; split; reflexivity.
  - destruct (negb _); [eexists; split; reflexivity|].
    simpl. destruct (negb _); eexists; split; reflexivity.
Qed.

Lemma run_listeners_session (subs : list Subscription) (n : Notification)
    (s : State) :
  ∃ s', run_listeners subs n s = (Ok tt, s') ∧ session s' = session s.
Proof.
  revert s. induction subs as [|sub r IH]; intros s; simpl.
  - exists s. split; reflexivity.
  - unfold bind. destruct (listener_session sub n s) as (s1 & -> & Hs1).
    destruct (IH s1) as (s2 & -> & Hs2). exists s2. split; [reflexivity|].
    congruence.
Qed.

Lemma deliver_session (n : Notification) (s : State) :
  session (snd (deliver n s)) = session s.
Proof.
  unfold deliver, bind, get. cbv beta iota.
  destruct (cdpClient (tracking s)) as [c|]; [|reflexivity].
  unfold modify at 1. cbv beta iota.
  match goal with |- context [run_listeners ?l n ?t] =>
    destruct (run_listeners_session l n t) as (s' & -> & Hs) end.
  exact Hs.
Qed.

Lemma success_message_nonempty (s : State) :
  success_message s → Js.nonempty (lastStatusMessage (session s)) = true.
Proof. intros [-> | ->]; reflexivity. Qed.

Lemma failure_message_nonempty (s : State) :
  failure_message s → Js.nonempty (lastStatusMessage (session s)) = true.
Proof. intros [-> | [(msg & -> & _) | (hint & ->)]]; reflexivity. Qed.

Lemma start_failure_message_nonempty (err : JsError) :
  Js.nonempty (start_failure_message err) = true.
Proof.
  unfold start_failure_message, Js.or_str.
  destruct (Js.nonempty (message err)) eqn:Hm; [exact Hm | reflexivity].
Qed.

Lemma voiced_refl s : voiced s s.
Proof. intros Hs. exact Hs. Qed.

Lemma voiced_trans a b c : voiced a b → voiced b c → voiced a c.
Proof. intros Hab Hbc Ha. apply Hbc, Hab, Ha. Qed.

Lemma steady_voiced s s' : steady s s' → voiced s s'.
Proof.
  intros ((_ & _ & _ & _ & _ & _ & Hmsg & _) & _) Hs. now rewrite Hmsg.
Qed.

Lemma session_voiced s s' : session s' = session s → voiced s s'.
Proof. intros Hsess Hs. now rewrite Hsess. Qed.

Lemma suspend_voiced : framed voiced suspend.
Proof.
  intros s. destruct (suspend_spec s) as (e & x & ->). intros Hs. exact Hs.
Qed.

Lemma check_voiced port : framed voiced (checkChromeDebugging port).
Proof. apply (framed_weaken steady), check_steady. apply steady_voiced. Qed.

Lemma reader_voiced : framed voiced readActiveProfileName.
Proof.
  apply (framed_weaken quiet), reader_quiet.
  intros s s' (Hsess & _). now apply session_voiced.
Qed.

Lemma chromeRunning_voiced : framed voiced chromeRunning.
Proof.
  apply (framed_weaken quiet), chromeRunning_quiet.
  intros s s' (Hsess & _). now apply session_voiced.
Qed.

Lemma forceKillChrome_voiced : framed voiced forceKillChrome.
Proof.
  apply (framed_weaken calm), forceKillChrome_calm.
  intros s s' (Hsess & _). now apply session_voiced.
Qed.

Lemma find_existing_voiced ps : framed voiced (find_existing ps).
Proof. intros s. unfold after. rewrite find_existing_run. apply voiced_refl. Qed.

Lemma launch_voiced exe port :
  framed voiced (launchChromeWithDebugging exe port).
Proof.
  intros s. unfold after. destruct (launch_run exe port s) as (e & x & Hrun).
  cbv zeta in Hrun. rewrite Hrun.
  destruct (spawn_reply _ _ _); intros Hs; exact Hs.
Qed.

Lemma wait_voiced port attempts delayMs :
  framed voiced (waitForDebugPort port attempts delayMs).
Proof.
  unfold waitForDebugPort.
  apply (framed_weaken steady), wait_loop_steady. apply steady_voiced.
Qed.

Lemma subscribe_voiced sub : framed voiced (subscribe sub).
Proof.
  unfold subscribe. apply framed_modify. intros s.
  destruct (cdpClient (tracking s)); intros Hs; exact Hs.
Qed.

Lemma stop_voiced : framed voiced stopTabTracking.
Proof.
  intros s. unfold after.
  destruct (stop_cases s) as (s' & -> & _ & Hset & _).
  destruct Hset as (_ & _ & _ & _ & _ & _ & Hmsg & _).
  intros Hs. simpl. now rewrite Hmsg.
Qed.

Ltac voiced_structure :=
  frame_step (@framed_bind voiced voiced_trans)
    (@framed_try_catch voiced voiced_trans)
    (@framed_ret voiced voiced_refl)
    (@framed_throw voiced voiced_refl)
    (@framed_get voiced voiced_refl).

(** A field update keeps the message or writes one that is not empty. *)
Ltac voiced_update :=
  first [ apply framed_modify; intros ? Hs; exact Hs
        | apply framed_modify; intros ? _; reflexivity
        | apply framed_modify; intros ? _; apply start_failure_message_nonempty ].

(** Every step of [ensureChromeDebugging], whether or not the call goes
    on to return, keeps a status message that is not empty. *)
Lemma ensure_voiced : framed voiced ensureChromeDebugging.
Proof.
  unfold ensureChromeDebugging, probeAlternate, findChromeExecutable.
  repeat first [ voiced_structure
               | apply check_voiced
               | apply reader_voiced
               | apply chromeRunning_voiced
               | apply forceKillChrome_voiced
               | apply find_existing_voiced
               | apply launch_voiced
               | apply wait_voiced
               | voiced_update ].
Qed.

Lemma tracking_voiced : framed voiced ensureTabTracking.
Proof.
  unfold ensureTabTracking, cdp_connect, setDiscoverTargets, getTargets, seed,
    sendChromeTabsFromState.
  repeat first [ voiced_structure
               | apply check_voiced
               | apply stop_voiced
               | apply suspend_voiced
               | apply subscribe_voiced
               | voiced_update ].
Qed.

Lemma step_voiced (a : Action) (s : State) : voiced s (step a s).
Proof.
  destruct a as [| | |port|n]; simpl.
  - apply ensure_voiced.
  - apply tracking_voiced.
  - apply stop_voiced.
  - intros Hs. exact Hs.
  - apply session_voiced, deliver_session.
Qed.

Lemma run_voiced (acts : list Action) (s : State) : voiced s (run acts s).
Proof.
  unfold run. revert s. induction acts as [|a r IH]; intros s; simpl.
  - apply voiced_refl.
  - eapply voiced_trans; [apply step_voiced | apply IH].
Qed.

(** X28: once a call of [ensureChromeDebugging] has returned, with either
    verdict, the status message is not empty, and whatever the
    supervisor does afterwards it is never empty again, so the status
    handler answers with that message and never with its own texts. *)
Theorem status_after_session (s s1 : State) (ok : bool) (acts : list Action) :
  ensureChromeDebugging s = (Ok ok, s1) →
  Js.nonempty (lastStatusMessage (session (run acts s1))) = true ∧
  status_reply (run acts s1) = lastStatusMessage (session (run acts s1)).
Proof.
  intros Hrun.
  assert (Js.nonempty (lastStatusMessage (session s1)) = true) as Hfirst.
  { destruct (ensure_outcome s) as (ok1 & s' & Heq & _ & Hyes & Hno).
    rewrite Hrun in Heq. injection Heq as <- <-.
    destruct ok;
      [apply success_message_nonempty, Hyes | apply failure_message_nonempty, Hno];
      reflexivity. }
  pose proof (run_voiced acts s1 Hfirst) as Hmsg.
  split; [exact Hmsg|]. unfold status_reply. now rewrite Hmsg.
Qed.

End Status.

(* ================================================================== *)
(** * What the launcher is given                                        *)
(* ================================================================== *)

Section Configured.
Context `{Builtins} `{World}.

Lemma buildChromeArgs_same (port : Z) (s s' : State) :
  selectedProfileName (session s') = selectedProfileName (session s) →
  chromeUserDataRootOverride (session s') = chromeUserDataRootOverride (session s) →
  buildChromeArgs port s' = buildChromeArgs port s.
Proof.
  intros Hname Hroot. unfold buildChromeArgs, chromeUserDataRoot.
  now rewrite Hname, Hroot.
Qed.

Lemma chromeUserDataRoot_same (s s' : State) :
  chromeUserDataRootOverride (session s') = chromeUserDataRootOverride (session s) →
  chromeUserDataRoot s' = chromeUserDataRoot s.
Proof. intros Hroot. unfold chromeUserDataRoot. now rewrite Hroot. Qed.

Lemma configured_refl s : configured s s.
Proof.
  split; [reflexivity|]. split; [reflexivity|]. split; [now left|]. exists [].
  split; [reflexivity | intros exe args []].
Qed.

Lemma configured_trans a b c : configured a b → configured b c → configured a c.
Proof.
  intros (Hn1 & Hr1 & Hd1 & new1 & Ht1 & Hs1) (Hn2 & Hr2 & Hd2 & new2 & Ht2 & Hs2).
  split; [congruence|]. split; [congruence|]. split.
  - destruct Hd2 as [Hd2 | Hd2].
    + rewrite Hd2. exact Hd1.
    + right. rewrite Hd2. f_equal. now apply chromeUserDataRoot_same.
  - exists (new2 ++ new1).
    split; [now rewrite Ht2, Ht1, app_assoc|].
    intros exe args Hin. apply in_app_or in Hin as [Hin | Hin].
    + rewrite (Hs2 exe args Hin). now apply buildChromeArgs_same.
    + exact (Hs1 exe args Hin).
Qed.

(** A step that spawns nothing and keeps the three settings. *)
Lemma configured_step (s s' : State) (new : list Event) :
  selectedProfileName (session s') = selectedProfileName (session s) →
  chromeUserDataRootOverride (session s') = chromeUserDataRootOverride (session s) →
  currentUserDataDir (session s') = currentUserDataDir (session s) →
  trace (sys s') = new ++ trace (sys s) →
  List.filter is_spawn new = [] →
  configured s s'.
Proof.
  intros Hname Hroot Hdir Htrace Hnone.
  split; [exact Hname|]. split; [exact Hroot|]. split; [now left|].
  exists new. split; [exact Htrace|]. intros exe args Hin.
  assert (In (EvSpawn exe args) (List.filter is_spawn new)) as Hf
    by (apply filter_In; auto).
  rewrite Hnone in Hf. destruct Hf.
Qed.

Lemma configured_fields (s s' : State) :
  selectedProfileName (session s') = selectedProfileName (session s) →
  chromeUserDataRootOverride (session s') = chromeUserDataRootOverride (session s) →
  currentUserDataDir (session s') = currentUserDataDir (session s) →
  trace (sys s') = trace (sys s) →
  configured s s'.
Proof.
  intros Hname Hroot Hdir Htrace.
  apply (configured_step s s' []); auto.
Qed.

Lemma configured_log (e : Event) (s : State) :
  is_spawn e = false → configured s (log e s).
Proof.
  intros He. apply (configured_step s (log e s) [e]); try reflexivity.
  simpl. now rewrite He.
Qed.

Ltac configured_leaf :=
  first [ apply framed_modify; intros ?; apply configured_fields; reflexivity
        | apply framed_modify; intros ?; apply configured_log; reflexivity ].

Lemma suspend_configured : framed configured suspend.
Proof.
  intros s. destruct (suspend_spec s) as (e & x & ->).
  apply configured_fields; reflexivity.
Qed.

Lemma existsSync_configured p : framed configured (existsSync p).
Proof. intros s. apply configured_refl. Qed.

Lemma reader_configured : framed configured readActiveProfileName.
Proof.
  intros s. unfold after. destruct (readActiveProfileName_total s) as [v ->].
  apply configured_refl.
Qed.

Ltac configured_structure :=
  frame_step (@framed_bind configured configured_trans)
    (@framed_try_catch configured configured_trans)
    (@framed_ret configured configured_refl)
    (@framed_throw configured configured_refl)
    (@framed_get configured configured_refl).

Ltac configured_primitive :=
  first [ apply suspend_configured
        | apply existsSync_configured
        | apply reader_configured
        | configured_leaf ].

Ltac configured_base :=
  repeat first [ configured_structure | configured_primitive ].

Ltac configured_with leaf :=
  repeat first [ configured_structure | leaf | configured_primitive ].

Lemma check_configured port : framed configured (checkChromeDebugging port).
Proof. unfold checkChromeDebugging. configured_base. Qed.

Lemma execSync_configured cmd : framed configured (execSync cmd).
Proof. unfold execSync. configured_base. Qed.

Lemma some_exist_configured ps : framed configured (some_exist ps).
Proof.
  induction ps as [|p r IH]; simpl.
  - apply framed_ret, configured_refl.
  - configured_with ltac:(exact IH).
Qed.

Lemma chromeRunning_configured : framed configured chromeRunning.
Proof.
  unfold chromeRunning, chromeProcessesRunning, chromeProfileLikelyLocked.
  configured_with ltac:(first [ apply execSync_configured
                              | apply some_exist_configured ]).
Qed.

Lemma remove_existing_configured ps : framed configured (remove_existing ps).
Proof.
  induction ps as [|p r IH]; simpl.
  - apply framed_ret, configured_refl.
  - unfold unlinkSync. configured_with ltac:(exact IH).
Qed.

Lemma forceKillChrome_configured : framed configured forceKillChrome.
Proof.
  unfold forceKillChrome.
  configured_with ltac:(first [ apply execSync_configured
                              | apply remove_existing_configured ]).
Qed.

Lemma find_existing_configured ps : framed configured (find_existing ps).
Proof.
  induction ps as [|p r IH]; simpl.
  - apply framed_ret, configured_refl.
  - configured_with ltac:(exact IH).
Qed.

Lemma wait_loop_configured port delayMs remaining :
  framed configured (wait_loop port delayMs remaining).
Proof.
  induction remaining as [|n IH]; simpl.
  - apply framed_ret, configured_refl.
  - unfold sleep.
    configured_with ltac:(first [ apply check_configured | exact IH ]).
Qed.

Lemma launch_configured exe :
  framed configured (launchChromeWithDebugging exe DEBUG_PORT).
Proof.
  intros s. unfold after. destruct (launch_run exe DEBUG_PORT s) as (e & x & Hrun).
  cbv zeta in Hrun. rewrite Hrun.
  destruct (spawn_reply _ _ _); simpl;
    (split; [reflexivity|]; split; [reflexivity|];
     split; [first [now right | now left]|];
     exists [EvSpawn exe (buildChromeArgs DEBUG_PORT s)];
     split; [reflexivity|]; intros exe' args [[= _ <-] | []]; reflexivity).
Qed.

Lemma ensure_configured : framed configured ensureChromeDebugging.
Proof.
  unfold ensureChromeDebugging, probeAlternate, findChromeExecutable,
    waitForDebugPort.
  configured_with ltac:(first [ apply check_configured
                              | apply chromeRunning_configured
                              | apply forceKillChrome_configured
                              | apply find_existing_configured
                              | apply launch_configured
                              | apply wait_loop_configured ]).
Qed.

(** X29: whatever port is remembered or found answering, every process that
    [ensureChromeDebugging] spawns is given the arguments built for the
    configured port and for the profile selection the call started with;
    the first of them is the remote-debugging flag for that port. The
    call leaves the profile selection as it was and erases nothing from
    the log. *)
Theorem launch_uses_configured_port (s : State) :
  ∃ ok s' new,
    ensureChromeDebugging s = (Ok ok, s') ∧
    trace (sys s') = new ++ trace (sys s) ∧
    selectedProfileName (session s') = selectedProfileName (session s) ∧
    chromeUserDataRootOverride (session s')
    = chromeUserDataRootOverride (session s) ∧
    ∀ exe args, In (EvSpawn exe args) new →
      args = buildChromeArgs DEBUG_PORT s ∧
      head args = Some ("--remote-debugging-port=" +:+ pretty DEBUG_PORT).
Proof.
  destruct (ensure_outcome s) as (ok & s' & Hrun & _).
  pose proof (ensure_configured s) as (Hname & Hroot & _ & new & Htrace & Hspawn).
  unfold after in *. rewrite Hrun in *. simpl in *.
  exists ok, s', new. split; [reflexivity|]. split; [exact Htrace|].
  split; [exact Hname|]. split; [exact Hroot|].
  intros exe args Hin. rewrite (Hspawn exe args Hin). split; reflexivity.
Qed.

End Configured.

(* ================================================================== *)
(** * Where the readers look                                            *)
(* ================================================================== *)

Lemma settled_refl s : settled s s.
Proof. split; reflexivity. Qed.

Lemma settled_trans a b c : settled a b → settled b c → settled a c.
Proof. intros [? ?] [? ?]. split; congruence. Qed.

Section Roots.
Context `{Builtins} `{World}.

Lemma suspend_settled : framed settled suspend.
Proof. intros s. destruct (suspend_spec s) as (e & x & ->). split; reflexivity. Qed.

Lemma subscribe_settled sub : framed settled (subscribe sub).
Proof.
  unfold subscribe. apply framed_modify. intros s.
  destruct (cdpClient (tracking s)); split; reflexivity.
Qed.

Ltac settled_structure :=
  frame_step (@framed_bind settled settled_trans)
    (@framed_try_catch settled settled_trans)
    (@framed_ret settled settled_refl)
    (@framed_throw settled settled_refl)
    (@framed_get settled settled_refl).

Ltac settled_primitive :=
  first [ apply suspend_settled
        | apply subscribe_settled
        | apply framed_modify; intros ?; split; reflexivity ].

Lemma stop_settled : framed settled stopTabTracking.
Proof.
  unfold stopTabTracking. repeat first [ settled_structure | settled_primitive ].
Qed.

Lemma tracking_settled : framed settled ensureTabTracking.
Proof.
  unfold ensureTabTracking, checkChromeDebugging, cdp_connect,
    setDiscoverTargets, getTargets, seed, sendChromeTabsFromState.
  repeat first [ settled_structure | apply stop_settled | settled_primitive ].
Qed.

Lemma rooted_settled (s s' : State) : settled s s' → rooted s → rooted s'.
Proof.
  intros [Hroot Hdir] Hs. unfold rooted.
  rewrite Hdir, (chromeUserDataRoot_same s s' Hroot). exact Hs.
Qed.

Lemma rooted_configured (s s' : State) : configured s s' → rooted s → rooted s'.
Proof.
  intros (_ & Hroot & Hdir & _) Hs. unfold rooted.
  rewrite (chromeUserDataRoot_same s s' Hroot).
  destruct Hdir as [-> | ->]; [exact Hs | now right].
Qed.

Lemma rooted_step (a : Action) (s : State) : rooted s → rooted (step a s).
Proof.
  intros Hs. destruct a as [| | |port|n]; simpl.
  - apply (rooted_configured s); [apply ensure_configured | exact Hs].
  - apply (rooted_settled s); [apply tracking_settled | exact Hs].
  - apply (rooted_settled s); [apply stop_settled | exact Hs].
  - exact Hs.
  - apply (rooted_settled s); [|exact Hs].
    unfold settled. now rewrite deliver_session.
Qed.

(** X30: in every state the supervisor reaches, the directory in which
    [readActiveProfileName] looks for the persisted state is the
    user-data root, the one in which [getAvailableProfiles] looks: the
    directory recorded at a launch never differs from the root. *)
Theorem readers_share_root (fs : gmap string File) (window : bool)
    (acts : list Action) :
  getUserDataDir (run acts (init_state fs window))
  = chromeUserDataRoot (run acts (init_state fs window)).
Proof.
  assert (rooted (run acts (init_state fs window))) as Hrooted.
  { unfold run. assert (rooted (init_state fs window)) as Hinit by now left.
    revert Hinit. generalize (init_state fs window) as s.
    induction acts as [|a r IH]; intros s Hs; [exact Hs|].
    simpl. apply IH, rooted_step, Hs. }
  unfold getUserDataDir. destruct Hrooted as [-> | ->]; [reflexivity|].
  simpl. now destruct (Js.nonempty _).
Qed.

End Roots.

(* ================================================================== *)
(** * Further instances on sample environments                          *)
(* ================================================================== *)

(** A session on a host where the port answers from time 5 on: the
    browser is launched once. *)
Lemma session_spawns_at_most_once_witness :
  let W := Sample.linux (Sample.from 5) Sample.silent in
  let s := @init_state Sample.posix W ∅ true in
  let s' := snd (@ensureChromeDebugging Sample.posix W s) in
  (launches s' ≤ S (launches s))%nat ∧ tracking s' = tracking s ∧
  launches s' = 1%nat.
Proof.
  intros W s s'. subst s s'.
  pose proof (@session_spawns_at_most_once Sample.posix W
                (@init_state Sample.posix W ∅ true)
                (snd (@ensureChromeDebugging Sample.posix W
                        (@init_state Sample.posix W ∅ true)))
                true) as Hthm.
  evaluate Hthm. destruct Hthm as [Hbound Htr].
  split; [exact Hbound|]. split; [exact Htr|]. vm_compute. reflexivity.
Defined.

(** A session on a host where the default port answers. *)
Lemma session_success_is_probed_witness :
  let W := Sample.linux (Sample.only 9222) Sample.silent in
  let s := @init_state Sample.posix W ∅ true in
  let s' := snd (@ensureChromeDebugging Sample.posix W s) in
  newest s' = Some (EvProbe (currentDebugPort (session s')) true) ∧
  success_message s'.
Proof.
  intros W s s'. subst s s'.
  pose proof (@session_success_is_probed Sample.posix W
                (@init_state Sample.posix W ∅ true)
                (snd (@ensureChromeDebugging Sample.posix W
                        (@init_state Sample.posix W ∅ true)))) as Hthm.
  evaluate Hthm. exact Hthm.
Defined.

(** A session on a host where no port answers and [pgrep] lists a
    process. *)
Lemma session_failure_is_explained_witness :
  let W := Sample.linux Sample.never Sample.listing in
  let s := @init_state Sample.posix W ∅ true in
  failure_message (snd (@ensureChromeDebugging Sample.posix W s)).
Proof.
  intros W s. subst s.
  pose proof (@session_failure_is_explained Sample.posix W
                (@init_state Sample.posix W ∅ true)
                (snd (@ensureChromeDebugging Sample.posix W
                        (@init_state Sample.posix W ∅ true)))) as Hthm.
  evaluate Hthm. exact Hthm.
Defined.

(** Force-kill on a Linux host whose user-data root holds a lock. *)
Lemma forceKill_clears_locks_witness :
  let W := Cases.forceful in
  let s := @init_state Sample.posix W Sample.locked_fs true in
  ∃ s', @forceKillChrome Sample.posix W s = (Ok tt, s') ∧
        files (sys s') !! (Sample.ROOT +:+ "/SingletonLock") = None ∧
        @chromeProfileLikelyLocked Sample.posix W s' = (Ok false, s').
Proof.
  intros W s. subst s.
  pose proof (@forceKill_clears_locks Sample.posix W
                (@init_state Sample.posix W Sample.locked_fs true)) as Hthm.
  evaluate Hthm.
  assert (∀ (t : nat) (cmd : string),
            (∃ out, @exec_reply W t cmd = ExecOut out) ∨
            (∃ e, @exec_reply W t cmd = ExecThrows e ∧ @platform W = Win32 ∧
                  status e = Some 128)) as Hkill
    by (intros t cmd; left; eexists; reflexivity).
  specialize (Hthm Hkill (λ t p, eq_refl)).
  destruct Hthm as (s' & Hrun & Hgone & _ & Hlock).
  exists s'. split; [exact Hrun|]. split; [|exact Hlock].
  apply Hgone. vm_compute. tauto.
Defined.

(** Force-kill on a Windows host where [taskkill] fails with status 1. *)
Lemma forceKill_gives_up_on_failed_kill_witness :
  let W := Cases.windows Cases.denied in
  let s := @init_state Sample.posix W Sample.locked_fs true in
  ∃ s', @forceKillChrome Sample.posix W s = (Ok tt, s') ∧
        files (sys s') = files (sys s) ∧
        trace (sys s') = EvExec "taskkill /F /IM chrome.exe /T" :: trace (sys s).
Proof.
  intros W s. subst s.
  pose proof (@forceKill_gives_up_on_failed_kill Sample.posix W
                (@init_state Sample.posix W Sample.locked_fs true)
                Cases.access_denied) as Hthm.
  evaluate Hthm. evaluate Hthm. evaluate Hthm.
  apply Hthm. simpl. discriminate.
Defined.

(** A Windows host on which PowerShell counts 4242 processes. *)
Lemma windows_count_decides_witness :
  let W := Cases.windows Sample.listing in
  let s := @init_state Sample.posix W ∅ true in
  ∃ s1, @chromeProcessesRunning Sample.posix W s = (Ok (0 <? 4242), s1) ∧
        trace (sys s1) = EvExec POWERSHELL_COUNT :: trace (sys s).
Proof.
  intros W s. subst s.
  pose proof (@windows_count_decides Sample.posix W
                (@init_state Sample.posix W ∅ true) "4242" 4242) as Hthm.
  evaluate Hthm. evaluate Hthm. evaluate Hthm. exact Hthm.
Defined.

(** A Windows host without PowerShell on which [tasklist] prints a row
    for the browser. *)
Lemma windows_tasklist_fallback_witness :
  let W := Cases.windows Cases.tasklist_only in
  let s := @init_state Sample.posix W ∅ true in
  ∃ s1, @chromeProcessesRunning Sample.posix W s
        = (Ok (Js.includes (Js.toLowerCase Cases.TASKLIST_ROW)
                 (dq +:+ "chrome.exe" +:+ dq)), s1) ∧
        trace (sys s1)
        = EvExec TASKLIST :: EvExec POWERSHELL_COUNT :: trace (sys s).
Proof.
  intros W s. subst s.
  pose proof (@windows_tasklist_fallback Sample.posix W
                (@init_state Sample.posix W ∅ true) Cases.TASKLIST_ROW) as Hthm.
  evaluate Hthm.
  assert ((∃ err, @exec_reply W
                    (tick (sys (@init_state Sample.posix W ∅ true)))
                    POWERSHELL_COUNT = ExecThrows err) ∨
          (∃ out, @exec_reply W
                    (tick (sys (@init_state Sample.posix W ∅ true)))
                    POWERSHELL_COUNT = ExecOut out ∧
                  @Number_of_string Sample.posix (Js.trim out) = None)) as Hps
    by (left; eexists; reflexivity).
  specialize (Hthm Hps). evaluate Hthm. exact Hthm.
Defined.

(** Three attempts on a host where no port answers. *)
Lemma wait_exhausts_budget_witness :
  let W := Sample.linux Sample.never Sample.silent in
  let s := @init_state Sample.posix W ∅ true in
  ∃ s', @waitForDebugPort W 9222 3 200 s = (Ok false, s') ∧
        trace (sys s') = polls 9222 200 3 ++ trace (sys s) ∧
        tick (sys s') = (tick (sys s) + 2 * 3)%nat ∧
        steady s s'.
Proof.
  intros W s. subst s.
  apply (@wait_exhausts_budget W 9222 200 3 (@init_state Sample.posix W ∅ true)).
  - split; intros t; reflexivity.
  - intros [[e He] | Hx]; discriminate.
  - intros j _. reflexivity.
Defined.

(** A host on which the port answers from time 4 on: the third probe is
    the first one answered. *)
Lemma wait_stops_at_first_answer_witness :
  let W := Sample.linux (Sample.from 4) Sample.silent in
  let s := @init_state Sample.posix W ∅ true in
  ∃ s', @waitForDebugPort W 9222 5 200 s = (Ok true, s') ∧
        trace (sys s') = EvProbe 9222 true :: polls 9222 200 2 ++ trace (sys s) ∧
        tick (sys s') = S (tick (sys s) + 2 * 2)%nat ∧
        steady s s'.
Proof.
  intros W s. subst s.
  apply (@wait_stops_at_first_answer W 9222 200 5 2
           (@init_state Sample.posix W ∅ true)).
  - split; intros t; reflexivity.
  - intros [[e He] | Hx]; discriminate.
  - lia.
  - intros j Hj. destruct j as [|[|j]]; [reflexivity | reflexivity | lia].
  - reflexivity.
Defined.

(** A first start on a host whose browser lists a page, an
    internal-debugger page and a worker. *)
Lemma fresh_start_adopts_listing_witness :
  let W := Sample.crowded in
  let s := @init_state Sample.posix W ∅ true in
  ∃ s', @ensureTabTracking W s = (Ok true, s') ∧
        connected s' ∧
        is_Some (tabsById (tracking s') !! "T1") ∧
        (∀ id t, tabsById (tracking s') !! id = Some t → isInitial t = true).
Proof.
  intros W s. subst s.
  pose proof (@fresh_start_adopts_listing W (@init_state Sample.posix W ∅ true)
                [Sample.INBOX; Sample.DEVTOOLS_PAGE; Sample.WORKER]) as Hthm.
  evaluate Hthm.
  assert (¬ connected (@init_state Sample.posix W ∅ true)) as Hnot
    by (intros [[c Hc] _]; discriminate).
  specialize (Hthm Hnot (λ t1 t2 t3, eq_refl)).
  destruct Hthm as (s' & Hrun & Hconn & Hent & Hall & _).
  exists s'. split; [exact Hrun|]. split; [exact Hconn|]. split.
  - apply (Hall Sample.INBOX); [now left | reflexivity].
  - intros id t Hlook. destruct (Hent id t Hlook) as (info & _ & _ & _ & ->).
    reflexivity.
Defined.

(** A first start on a host whose browser refuses the connection. *)
Lemma failed_start_tears_down_witness :
  let W := Cases.refusing in
  let s := @init_state Sample.posix W ∅ true in
  ∃ s', @ensureTabTracking W s = (Ok false, s') ∧
        tracking s' = stopped ∧
        lastStatusMessage (session s') = "unavailable".
Proof.
  intros W s. subst s.
  pose proof (@failed_start_tears_down W (@init_state Sample.posix W ∅ true)
                Sample.no_error) as Hthm.
  evaluate Hthm.
  assert (¬ connected (@init_state Sample.posix W ∅ true)) as Hnot
    by (intros [[c Hc] _]; discriminate).
  specialize (Hthm Hnot (λ t1 t2 t3, eq_refl)).
  destruct Hthm as (s' & Hrun & Htr & Hmsg & _).
  exists s'. auto.
Defined.

(** A page opens while tracking is on and a window exists. *)
Lemma notification_emits_snapshot_witness :
  let W := Sample.linux Sample.always Sample.silent in
  let s := @run Sample.posix W [StartTracking] (@init_state Sample.posix W ∅ true) in
  ∃ s', @deliver W (TargetCreated (Some Sample.INBOX)) s = (Ok tt, s') ∧
        trace (sys s') = EvSendTabs (tabsFromState s') :: trace (sys s).
Proof.
  intros W s. subst s.
  pose proof (@notification_emits_snapshot W (TargetCreated (Some Sample.INBOX))
                {| client_port := 9222; subscriptions := ONE_SET |}
                (@run Sample.posix W [StartTracking]
                   (@init_state Sample.posix W ∅ true))) as Hthm.
  evaluate Hthm. evaluate Hthm.
  destruct Hthm as (s' & Hrun & _ & _ & _ & Htrace).
  exists s'. split; [exact Hrun|]. rewrite Htrace. reflexivity.
Defined.

(** The page listed at the start is renamed: it stays initial. *)
Lemma initial_flag_stable_witness :
  let W := Sample.linux Sample.always Sample.silent in
  let s := @run Sample.posix W [StartTracking] (@init_state Sample.posix W ∅ true) in
  let s' := @step Sample.posix W (Notify (TargetInfoChanged (Some Cases.SENT))) s in
  tabsById (tracking s) !! "T1" = Some Cases.INBOX_TAB ∧
  tabsById (tracking s') !! "T1" = Some Cases.SENT_TAB ∧
  isInitial Cases.SENT_TAB = isInitial Cases.INBOX_TAB.
Proof.
  intros W s s'. subst s s'.
  pose proof (@initial_flag_stable Sample.posix W ∅ true [StartTracking]
                (TargetInfoChanged (Some Cases.SENT)) "T1"
                Cases.INBOX_TAB Cases.SENT_TAB) as Hthm.
  cbv zeta in Hthm.
  match type of Hthm with ?P → _ =>
    assert P as Hbefore by (vm_compute; reflexivity) end.
  specialize (Hthm Hbefore).
  match type of Hthm with ?P → _ =>
    assert P as Hafter by (vm_compute; reflexivity) end.
  split; [exact Hbefore|]. split; [exact Hafter | exact (Hthm Hafter)].
Defined.

(** A page opens after the start: it is registered and not initial. *)
Lemma created_registers_witness :
  let W := Sample.linux Sample.always Sample.silent in
  let s := @run Sample.posix W [StartTracking] (@init_state Sample.posix W ∅ true) in
  let s' := @step Sample.posix W (Notify (TargetCreated (Some Cases.NEWS))) s in
  tabsById (tracking s') !! "T9"
  = Some (created_tab Cases.NEWS (@clock W (S (tick (sys s)))) (tracking s)) ∧
  tabsById (tracking s') !! "T1" = tabsById (tracking s) !! "T1".
Proof.
  intros W s s'. subst s s'.
  pose proof (@created_registers Sample.posix W ∅ true [StartTracking]
                Cases.NEWS) as Hthm.
  cbv zeta in Hthm.
  match type of Hthm with ?P → _ =>
    assert P as Hconn by (vm_compute; eauto) end.
  specialize (Hthm Hconn). evaluate Hthm.
  destruct Hthm as [Hnew Hrest]. split; [exact Hnew|].
  apply Hrest. discriminate.
Defined.

(** The page listed at the start is closed. *)
Lemma destroyed_forgets_witness :
  let W := Sample.linux Sample.always Sample.silent in
  let s := @run Sample.posix W [StartTracking] (@init_state Sample.posix W ∅ true) in
  tabsById (tracking (@step Sample.posix W (Notify (TargetDestroyed "T1")) s))
    !! "T1" = None.
Proof.
  intros W s. subst s.
  pose proof (@destroyed_forgets Sample.posix W ∅ true [StartTracking] "T1")
    as Hthm.
  cbv zeta in Hthm. evaluate Hthm. exact (proj1 Hthm).
Defined.

(** A document that names both: the first last-active profile is
    returned. *)
Lemma last_active_profile_wins_witness :
  let W := Sample.linux Sample.never Sample.silent in
  let s := @init_state Cases.reading W Cases.active_fs true in
  @readActiveProfileName Cases.reading W s = (Ok (JStr "Profile 2"), s).
Proof.
  intros W s. subst s.
  pose proof (@last_active_profile_wins Cases.reading W
                (@init_state Cases.reading W Cases.active_fs true)
                "{active}" Cases.ACTIVE_STATE
                (JObj [("last_active_profiles",
                        JArr [JStr "Profile 2"; JStr "Default"]);
                       ("last_used", JStr "Default")])
                (JStr "Profile 2") [JStr "Default"]) as Hthm.
  evaluate Hthm. evaluate Hthm.
  assert (Cases.ACTIVE_STATE ≠ JNull) as Hdoc by discriminate.
  specialize (Hthm Hdoc).
  evaluate Hthm. evaluate Hthm. evaluate Hthm. exact Hthm.
Defined.

(** A document that names a last-used profile only. *)
Lemma last_used_is_fallback_witness :
  let W := Sample.linux Sample.never Sample.silent in
  let s := @init_state Sample.parsing W Sample.state_fs true in
  @readActiveProfileName Sample.parsing W s = (Ok (JStr "Default"), s).
Proof.
  intros W s. subst s.
  pose proof (@last_used_is_fallback Sample.parsing W
                (@init_state Sample.parsing W Sample.state_fs true)
                "{profile}" Sample.LOCAL_STATE
                (JObj [("info_cache",
                        JObj [("Default", JObj [("name", JStr "Person 1")]);
                              ("Profile 1", JObj [])]);
                       ("last_used", JStr "Default")])
                "Default") as Hthm.
  evaluate Hthm. evaluate Hthm.
  assert (Sample.LOCAL_STATE ≠ JNull) as Hdoc by discriminate.
  specialize (Hthm Hdoc).
  evaluate Hthm. evaluate Hthm.
  match type of Hthm with ?P → _ =>
    assert P as Hnone by (intros first rest; vm_compute; discriminate) end.
  specialize (Hthm Hnone). evaluate Hthm. exact Hthm.
Defined.

(** A fetch from the renderer on a host where no port answers and
    [pgrep] lists a process. *)
Lemma fetch_without_session_witness :
  let W := Sample.linux Sample.never Sample.listing in
  let I := Cases.listing [] in
  let s := @init_state Sample.posix W ∅ true in
  ∃ s1, @fetchChromeTabs Sample.posix W I ArgOther ArgUndefined s = (Ok [], s1) ∧
        tracking s1 = tracking s ∧
        failure_message s1.
Proof.
  intros W I s. subst s.
  pose proof (@fetch_without_session Sample.posix W I ArgOther ArgUndefined
                (@init_state Sample.posix W ∅ true)
                (snd (@ensureChromeDebugging Sample.posix W
                        (set_currentDebugPort
                           (@resolvePort Sample.posix W
                              (coalesce ArgUndefined ArgOther)
                              (@init_state Sample.posix W ∅ true))
                           (@init_state Sample.posix W ∅ true))))) as Hthm.
  evaluate Hthm. eexists. exact Hthm.
Defined.

(** A fetch on a host whose port answers once and then falls silent: the
    session is established, tracking does not start, and the one-shot
    listing holds two pages with the same title and URL, a worker and an
    internal-debugger page. *)
Lemma fetch_fallback_lists_pages_witness :
  let W := Sample.linux (Sample.before 1) Sample.silent in
  let I := Cases.listing [Cases.LISTED_MAIL; Cases.LISTED_WORKER;
                          Cases.LISTED_MAIL_AGAIN; Cases.LISTED_DEVTOOLS] in
  let s := @init_state Sample.posix W ∅ true in
  ∃ r1 r2 r3 s',
    @fetchChromeTabs Sample.posix W I ArgOther ArgUndefined s
    = (Ok [r1; r2; r3], s') ∧
    row_for Cases.LISTED_MAIL r1 ∧
    row_for Cases.LISTED_MAIL_AGAIN r2 ∧
    row_for Cases.LISTED_DEVTOOLS r3.
Proof.
  intros W I s. subst s.
  pose (s1 := snd (@ensureChromeDebugging Sample.posix W
                     (set_currentDebugPort
                        (@resolvePort Sample.posix W
                           (coalesce ArgUndefined ArgOther)
                           (@init_state Sample.posix W ∅ true))
                        (@init_state Sample.posix W ∅ true)))).
  pose proof (@fetch_fallback_lists_pages Sample.posix W I ArgOther ArgUndefined
                (@init_state Sample.posix W ∅ true) s1
                (snd (@ensureTabTracking W s1))
                [Cases.LISTED_MAIL; Cases.LISTED_WORKER;
                 Cases.LISTED_MAIL_AGAIN; Cases.LISTED_DEVTOOLS]) as Hthm.
  evaluate Hthm. evaluate Hthm. evaluate Hthm.
  destruct Hthm as (rows & s' & Hrun & _ & Hrows).
  simpl in Hrows.
  destruct rows as [|r1 [|r2 [|r3 [|r4 rows]]]];
    try (exfalso; apply Forall2_length in Hrows; discriminate Hrows).
  apply Forall2_cons_iff in Hrows as [H1 Hrows].
  apply Forall2_cons_iff in Hrows as [H2 Hrows].
  apply Forall2_cons_iff in Hrows as [H3 _].
  exists r1, r2, r3, s'. auto.
Defined.

(** The same fetch when the one-shot listing fails. *)
Lemma fetch_listing_failure_reported_witness :
  let W := Sample.linux (Sample.before 1) Sample.silent in
  let I := Cases.unlisted in
  let s := @init_state Sample.posix W ∅ true in
  ∃ s', @fetchChromeTabs Sample.posix W I ArgOther ArgUndefined s = (Ok [], s') ∧
        lastStatusMessage (session s') = "unavailable".
Proof.
  intros W I s. subst s.
  pose (s1 := snd (@ensureChromeDebugging Sample.posix W
                     (set_currentDebugPort
                        (@resolvePort Sample.posix W
                           (coalesce ArgUndefined ArgOther)
                           (@init_state Sample.posix W ∅ true))
                        (@init_state Sample.posix W ∅ true)))).
  pose proof (@fetch_listing_failure_reported Sample.posix W I
                ArgOther ArgUndefined
                (@init_state Sample.posix W ∅ true) s1
                (snd (@ensureTabTracking W s1)) Sample.no_error) as Hthm.
  evaluate Hthm. evaluate Hthm. evaluate Hthm.
  destruct Hthm as (s' & Hrun & Hmsg & _).
  exists s'. split; [exact Hrun | exact Hmsg].
Defined.

(** The status after a session on a host where the default port answers,
    a start of tracking and the arrival of a page. *)
Lemma status_after_session_witness :
  let W := Sample.linux (Sample.only 9222) Sample.silent in
  let s1 := snd (@ensureChromeDebugging Sample.posix W
                   (@init_state Sample.posix W ∅ true)) in
  let s' := @run Sample.posix W
              [StartTracking; Notify (TargetCreated (Some Cases.NEWS))] s1 in
  Js.nonempty (lastStatusMessage (session s')) = true ∧
  @status_reply Cases.strings s' = lastStatusMessage (session s').
Proof.
  intros W s1 s'. subst s1 s'.
  pose proof (@status_after_session Sample.posix W Cases.strings
                (@init_state Sample.posix W ∅ true)
                (snd (@ensureChromeDebugging Sample.posix W
                        (@init_state Sample.posix W ∅ true)))
                true
                [StartTracking; Notify (TargetCreated (Some Cases.NEWS))])
    as Hthm.
  evaluate Hthm. exact Hthm.
Defined.
